(** * Visitor management system: the check-in / checkout workflow

    A shallow embedding of the Express request handlers of the backend
    server (the JavaScript that follows the migration script in
    [Backend/migration_update_schema.sql]) together with the relational
    schema of [Backend/database_schema.sql] as amended by the migration
    scripts.

    - SQL tables are lists of rows, in table order; the AUTO_INCREMENT
      counters are kept beside the tables.
    - A handler is a computation in a small monad over one database
      connection: statements may throw, [beginTransaction], [commit] and
      [rollback] work on a pending copy of the tables.
    - Strings are the bytes of their UTF-8 encoding.
    - Requests are served one at a time; a last part lets check-ins
      overlap, call by call. *)

From Stdlib Require Import List String Ascii ZArith Lia Bool Arith.
From Stdlib Require Import Permutation Sorted.
Import ListNotations.

Local Open Scope string_scope.
Local Open Scope Z_scope.

Set Implicit Arguments.

(* ================================================================== *)
(** ** Strings, NULL and JavaScript truthiness *)

(** The comparison the database uses for [=] on character columns and
    for the characters of a [LIKE] pattern.  The schema names no
    collation, so the handlers are modelled for any collation whose
    comparisons are equivalences. *)
Class Collation := {
  str_eq : string -> string -> bool;
  chr_eq : ascii -> ascii -> bool;
  str_eq_refl : forall a, str_eq a a = true;
  str_eq_sym : forall a b, str_eq a b = true -> str_eq b a = true;
  str_eq_trans : forall a b c,
      str_eq a b = true -> str_eq b c = true -> str_eq a c = true;
  chr_eq_refl : forall a, chr_eq a a = true;
  chr_eq_sym : forall a b, chr_eq a b = true -> chr_eq b a = true;
  chr_eq_trans : forall a b c,
      chr_eq a b = true -> chr_eq b c = true -> chr_eq a c = true
}.

(** The binary collation: byte-wise equality. *)
Definition binary_collation : Collation.
Proof.
  refine {| str_eq := String.eqb; chr_eq := Ascii.eqb |}.
  - exact String.eqb_refl.
  - intros a b H. apply String.eqb_eq in H. subst. apply String.eqb_refl.
  - intros a b c H1 H2. apply String.eqb_eq in H1. subst. exact H2.
  - exact Ascii.eqb_refl.
  - intros a b H. apply Ascii.eqb_eq in H. subst. apply Ascii.eqb_refl.
  - intros a b c H1 H2. apply Ascii.eqb_eq in H1. subst. exact H2.
Defined.

(** [String.prototype.toLowerCase] on one character of the ASCII range. *)
Definition lower_ascii (c : ascii) : ascii :=
  let n := nat_of_ascii c in
  if (Nat.leb 65 n && Nat.leb n 90)%bool then ascii_of_nat (n + 32) else c.

(** Lower-casing the letters A to Z of a string. *)
Fixpoint ascii_toLowerCase (s : string) : string :=
  match s with
  | EmptyString => EmptyString
  | String c s' => String (lower_ascii c) (ascii_toLowerCase s')
  end.

(** A string of the ASCII range only.  Strings are the bytes of their
    UTF-8 encoding, so these are the strings without a byte from 128
    on. *)
Fixpoint ascii_only (s : string) : bool :=
  match s with
  | EmptyString => true
  | String c s' => Nat.ltb (nat_of_ascii c) 128 && ascii_only s'
  end.

(** What the program takes from its platform and the repository does not
    fix: the collation of the database, and JavaScript's
    [String.prototype.toLowerCase], which maps every cased letter of the
    engine's version of Unicode.  Of the latter only its action on ASCII
    strings is assumed: there it lower-cases the letters A to Z and
    nothing else. *)
Class Platform := {
  collation :: Collation;
  toLowerCase : string -> string;
  toLowerCase_ascii : forall s,
      ascii_only s = true -> toLowerCase s = ascii_toLowerCase s
}.

(** The platform of the samples, which hold ASCII strings only: the
    binary collation, and [toLowerCase] as it is on ASCII strings. *)
Definition ascii_platform : Platform :=
  {| collation := binary_collation;
     toLowerCase := ascii_toLowerCase;
     toLowerCase_ascii := fun _ _ => eq_refl |}.

(** A request field or a nullable column: [None] is JavaScript's
    [undefined] / SQL's [NULL]. *)
Definition falsy (o : option string) : bool :=
  match o with
  | None => true
  | Some s => String.eqb s ""
  end.

(** A value inside a template string. *)
Definition js_string (o : option string) : string :=
  match o with
  | Some s => s
  | None => "undefined"
  end.

(** The white space and the line terminators of ECMAScript that take
    one byte: U+0009 to U+000D and U+0020. *)
Definition is_space (c : ascii) : bool :=
  let n := nat_of_ascii c in
  (Nat.eqb n 32 || (Nat.leb 9 n && Nat.leb n 13))%bool.

Definition byte (c : ascii) (n : nat) : bool := Nat.eqb (nat_of_ascii c) n.

(** Those of two bytes: U+00A0. *)
Definition is_space2 (c1 c2 : ascii) : bool :=
  byte c1 194 && byte c2 160.

(** Those of three bytes: U+1680, U+2000 to U+200A, U+2028, U+2029,
    U+202F, U+205F, U+3000 and U+FEFF. *)
Definition is_space3 (c1 c2 c3 : ascii) : bool :=
  (byte c1 225 && byte c2 154 && byte c3 128)
  || (byte c1 226 && byte c2 128
      && ((Nat.leb 128 (nat_of_ascii c3) && Nat.leb (nat_of_ascii c3) 138)
          || byte c3 168 || byte c3 169 || byte c3 175))
  || (byte c1 226 && byte c2 129 && byte c3 159)
  || (byte c1 227 && byte c2 128 && byte c3 128)
  || (byte c1 239 && byte c2 187 && byte c3 191).

(** [s.trimStart()] *)
Fixpoint trim_start (s : string) : string :=
  match s with
  | EmptyString => EmptyString
  | String c1 s1 =>
      if is_space c1 then trim_start s1
      else
        match s1 with
        | EmptyString => s
        | String c2 s2 =>
            if is_space2 c1 c2 then trim_start s2
            else
              match s2 with
              | EmptyString => s
              | String c3 s3 =>
                  if is_space3 c1 c2 c3 then trim_start s3 else s
              end
        end
  end.

(** A string of white space only. *)
Definition blank (s : string) : bool :=
  match trim_start s with
  | EmptyString => true
  | String _ _ => false
  end.

(** [s.trimEnd()]: the string without its longest blank end. *)
Fixpoint trim_end (s : string) : string :=
  match s with
  | EmptyString => EmptyString
  | String c s' => if blank s then EmptyString else String c (trim_end s')
  end.

(** [s.trim()]: without the white space and line terminators of
    ECMAScript (Unicode 6.3 and later) at either end. *)
Definition trim (s : string) : string := trim_end (trim_start s).

Definition is_null {A} (o : option A) : bool :=
  match o with None => true | Some _ => false end.

(** SQL [a = b] as a WHERE condition: a comparison with NULL is never
    true. *)
Definition sql_eq `{Platform} (a b : option string) : bool :=
  match a, b with
  | Some x, Some y => str_eq x y
  | _, _ => false
  end.

(* ================================================================== *)
(** ** The schema *)

(** [users.role] is [ENUM('admin','host')]; a token carries the role as a
    string, so a third case stands for any other value. *)
Inductive role := Admin | Host | OtherRole.

Definition role_eqb (a b : role) : bool :=
  match a, b with
  | Admin, Admin | Host, Host | OtherRole, OtherRole => true
  | _, _ => false
  end.

(** A row of [users] (with the [company_name] and [is_verified] columns
    the server reads and writes). *)
Record user := mkUser {
  u_id : Z;
  u_name : string;
  u_email : string;
  u_password : string;
  u_role : role;
  u_company_name : option string;
  u_is_verified : bool
}.

(** A row of [companies]. *)
Record company := mkCompany {
  c_id : Z;
  c_firstname : string;
  c_lastname : option string;
  c_email : string;
  c_password : string;
  c_role : role;
  c_company_name : string;
  c_mobile_number : option string;
  c_admin_company_id : option Z
}.

(** A row of [visitors]. *)
Record visitor := mkVisitor {
  vis_id : Z;
  vis_name : string;
  vis_email : string;
  vis_phone : option string;
  vis_designation : option string;
  vis_company : option string;
  vis_companyTel : option string;
  vis_website : option string;
  vis_address : option string;
  vis_photo : option string;
  vis_idCardPhoto : option string;
  vis_idCardNumber : option string
}.

(** A row of [visits]; times are seconds on the database's clock. *)
Record visit := mkVisit {
  v_id : Z;
  v_visitor_id : Z;
  v_host_id : Z;
  v_reason : string;
  v_itemsCarried : option string;
  v_check_in_time : Z;
  v_check_out_time : option Z
}.

Record tables := mkTables {
  users : list user;
  companies : list company;
  visitors : list visitor;
  visits : list visit
}.

(** The AUTO_INCREMENT counters of [users], [visitors] and [visits]; a
    rollback does not give a value back. *)
Record counters := mkCounters {
  next_user : Z;
  next_visitor : Z;
  next_visit : Z
}.

(* ================================================================== *)
(** ** One database connection, and the monad of a handler *)

Inductive error :=
| DbFailure          (* the statement failed for a reason of the server's *)
| ER_DUP_ENTRY       (* a UNIQUE or PRIMARY KEY index refused the row *)
| ER_BAD_NULL_ERROR  (* NULL for a NOT NULL column *)
| ER_NO_REFERENCED_ROW (* a FOREIGN KEY has no row to point to *)
| TypeError          (* JavaScript: a method called on [undefined] *)
| JsonWebTokenError  (* [jwt.verify] refused the token *)
| MailFailure.       (* the SMTP transport failed *)

Definition is_dup_entry (e : error) : bool :=
  match e with ER_DUP_ENTRY => true | _ => false end.

Inductive result (A : Type) :=
| Ok (a : A)
| Throw (e : error).
Arguments Ok {A} a.
Arguments Throw {A} e.

(** [committed] is what every other connection sees; [pending] is the
    working copy of an open transaction.  [faults n] tells whether the
    [n]-th call made through the connection fails on the server's side
    (a lost connection, a lock timeout, a value too long for its
    column); [calls] counts the calls made so far. *)
Record conn := mkConn {
  committed : tables;
  pending : option tables;
  autoinc : counters;
  faults : nat -> bool;
  calls : nat
}.

Definition M (A : Type) : Type := conn -> result A * conn.

Definition ret {A} (a : A) : M A := fun c => (Ok a, c).

Definition bind {A B} (m : M A) (k : A -> M B) : M B :=
  fun c => match m c with
           | (Ok a, c') => k a c'
           | (Throw e, c') => (Throw e, c')
           end.

Notation "x <- m ;; k" := (bind m (fun x => k))
  (at level 61, m at next level, right associativity).
Notation "m ;;; k" := (bind m (fun _ => k))
  (at level 61, right associativity).

(** [try { m } catch (error) { h error }] *)
Definition try_catch {A} (m : M A) (h : error -> M A) : M A :=
  fun c => match m c with
           | (Ok a, c') => (Ok a, c')
           | (Throw e, c') => h e c'
           end.

Definition view (c : conn) : tables :=
  match pending c with
  | Some w => w
  | None => committed c
  end.

Definition tick (c : conn) : conn :=
  mkConn (committed c) (pending c) (autoinc c) (faults c) (S (calls c)).

Definition store (t : tables) (k : counters) (c : conn) : conn :=
  match pending c with
  | Some _ => mkConn (committed c) (Some t) k (faults c) (calls c)
  | None => mkConn t None k (faults c) (calls c)
  end.

(** A SELECT. *)
Definition query {A} (q : tables -> A) : M A :=
  fun c => if faults c (calls c) then (Throw DbFailure, tick c)
           else (Ok (q (view c)), tick c).

(** An INSERT or UPDATE: it runs on the transaction's copy when one is
    open and on the committed tables (autocommit) otherwise. *)
Definition execute {A} (stmt : tables -> counters -> result (A * tables) * counters)
  : M A :=
  fun c => if faults c (calls c) then (Throw DbFailure, tick c)
           else match stmt (view c) (autoinc c) with
                | (Ok (a, t'), k') => (Ok a, store t' k' (tick c))
                | (Throw e, k') => (Throw e, store (view c) k' (tick c))
                end.

(** [START TRANSACTION] commits a transaction that is still open. *)
Definition beginTransaction : M unit :=
  fun c => if faults c (calls c) then (Throw DbFailure, tick c)
           else (Ok tt, mkConn (view c) (Some (view c)) (autoinc c)
                               (faults c) (S (calls c))).

Definition commit : M unit :=
  fun c => if faults c (calls c) then (Throw DbFailure, tick c)
           else (Ok tt, mkConn (view c) None (autoinc c)
                               (faults c) (S (calls c))).

(** [ROLLBACK] drops the pending copy; it is taken never to fail. *)
Definition rollback : M unit :=
  fun c => (Ok tt, mkConn (committed c) None (autoinc c) (faults c) (calls c)).

(** A call that is not the database's ([transporter.sendMail]). *)
Definition external (e : error) : M unit :=
  fun c => if faults c (calls c) then (Throw e, tick c) else (Ok tt, tick c).

(** The state between two requests, and a fresh connection on it. *)
Record server := mkServer {
  db : tables;
  seqs : counters
}.

Definition connect (s : server) (f : nat -> bool) : conn :=
  mkConn (db s) None (seqs s) f 0.

Definition no_faults : nat -> bool := fun _ => false.

(* ================================================================== *)
(** ** Requests and responses *)

(** What [authenticateToken] leaves in [req.user]: the token's payload. *)
Record principal := mkPrincipal {
  p_id : Z;
  p_role : role
}.

(** A row of the two visit listings: the columns of their select lists.
    [r_hostCompany] is selected by [GET /api/visits] only. *)
Record visit_row := mkRow {
  r_id : Z;
  r_reason : string;
  r_itemsCarried : option string;
  r_check_in_time : Z;
  r_check_out_time : option Z;
  r_visitor_id : Z;
  r_visitorName : string;
  r_visitorEmail : string;
  r_visitorPhone : option string;
  r_designation : option string;
  r_company : option string;
  r_visitorPhoto : option string;
  r_idCardPhoto : option string;
  r_idCardNumber : option string;
  r_host_id : Z;
  r_hostName : string;
  r_hostCompany : option string
}.

Inductive payload :=
| Message (m : string)
| Registered (id : Z) (name : string) (email : option string) (r : role)
             (company_name : option string)
| Session (token : principal) (id : Z) (name email : string) (r : role)
          (company_name : option string)
| CheckedIn (visitId : Z)
| VisitList (rows : list visit_row)
| Page (heading : string).

Record response := mkResponse {
  status : Z;
  body : payload
}.

Definition json (code : Z) (m : string) : response := mkResponse code (Message m).

(** The body of [POST /api/visits]. *)
Record checkin_body := mkCheckin {
  b_name : option string;
  b_email : option string;
  b_phone : option string;
  b_designation : option string;
  b_company : option string;
  b_companyTel : option string;
  b_website : option string;
  b_address : option string;
  b_hostName : option string;
  b_reason : option string;
  b_itemsCarried : option string;
  b_photo : option string;
  b_idCardPhoto : option string;
  b_idCardNumber : option string
}.

(* ================================================================== *)
(** ** The SQL statements of the handlers *)

(** [SELECT ... FROM users WHERE id = ?] *)
Definition users_by_id (id : Z) (t : tables) : list user :=
  filter (fun u => u_id u =? id) (users t).

(** [SELECT u.id FROM users u
     WHERE u.name = ? AND u.role = 'host' AND u.company_name = ?] *)
Definition hosts_by_name `{Platform} (hostName company : option string)
    (t : tables) : list user :=
  filter (fun u => sql_eq (Some (u_name u)) hostName
                   && role_eqb (u_role u) Host
                   && sql_eq (u_company_name u) company)
         (users t).

(** [FROM visits v JOIN visitors vis ON v.visitor_id = vis.id
                   JOIN users h ON v.host_id = h.id] *)
Definition visits_joined (t : tables) : list (visit * visitor * user) :=
  flat_map (fun v =>
    flat_map (fun vis =>
      if v_visitor_id v =? vis_id vis then
        flat_map (fun h =>
          if v_host_id v =? u_id h then [(v, vis, h)] else [])
          (users t)
      else [])
      (visitors t))
    (visits t).

(** [SELECT v.id FROM visits v JOIN visitors vis ... JOIN users h ...
     WHERE vis.email = ? AND v.check_out_time IS NULL
       AND h.company_name = ?] *)
Definition active_visits `{Platform} (email company : option string)
    (t : tables) : list Z :=
  map (fun j => v_id (fst (fst j)))
      (filter (fun j => let '(v, vis, h) := j in
                 sql_eq (Some (vis_email vis)) email
                 && is_null (v_check_out_time v)
                 && sql_eq (u_company_name h) company)
              (visits_joined t)).

(** [INSERT INTO visitors (name, email, phone, ...) VALUES (...)];
    [name] and [email] are NOT NULL; the result is [insertId]. *)
Definition insert_visitor (b : checkin_body) (t : tables) (k : counters)
  : result (Z * tables) * counters :=
  match b_name b, b_email b with
  | Some n, Some e =>
      let id := next_visitor k in
      let row := mkVisitor id n e (b_phone b) (b_designation b) (b_company b)
                   (b_companyTel b) (b_website b) (b_address b) (b_photo b)
                   (b_idCardPhoto b) (b_idCardNumber b) in
      (Ok (id, mkTables (users t) (companies t) (visitors t ++ [row]) (visits t)),
       mkCounters (next_user k) (id + 1) (next_visit k))
  | _, _ => (Throw ER_BAD_NULL_ERROR, k)
  end.

(** [INSERT INTO visits (visitor_id, host_id, reason, itemsCarried,
    check_in_time) VALUES (?, ?, ?, ?, ?)]; [reason] is NOT NULL, and
    [visitor_id] and [host_id] are foreign keys. *)
Definition insert_visit (visitor_id host_id : Z) (reason items : option string)
    (check_in_time : Z) (t : tables) (k : counters)
  : result (Z * tables) * counters :=
  match reason with
  | None => (Throw ER_BAD_NULL_ERROR, k)
  | Some r =>
      let id := next_visit k in
      let k' := mkCounters (next_user k) (next_visitor k) (id + 1) in
      if existsb (fun vis => vis_id vis =? visitor_id) (visitors t)
         && existsb (fun u => u_id u =? host_id) (users t)
      then
        let row := mkVisit id visitor_id host_id r items check_in_time None in
        (Ok (id, mkTables (users t) (companies t) (visitors t) (visits t ++ [row])),
         k')
      else (Throw ER_NO_REFERENCED_ROW, k')
  end.

(** [SELECT host_id FROM visits WHERE id = ?] *)
Definition visits_by_id (id : Z) (t : tables) : list visit :=
  filter (fun v => v_id v =? id) (visits t).

Definition checkout_hits (id : Z) (v : visit) : bool :=
  (v_id v =? id) && is_null (v_check_out_time v).

Definition set_check_out_time (now : Z) (v : visit) : visit :=
  mkVisit (v_id v) (v_visitor_id v) (v_host_id v) (v_reason v)
          (v_itemsCarried v) (v_check_in_time v) (Some now).

(** [UPDATE visits SET check_out_time = ?
     WHERE id = ? AND check_out_time IS NULL]; the result is
    [affectedRows]. *)
Definition update_check_out (now id : Z) (t : tables) (k : counters)
  : result (nat * tables) * counters :=
  (Ok (List.length (filter (checkout_hits id) (visits t)),
       mkTables (users t) (companies t) (visitors t)
         (map (fun v => if checkout_hits id v then set_check_out_time now v else v)
              (visits t))),
   k).

(** [SELECT * FROM users WHERE email = ?] *)
Definition users_by_email `{Platform} (email : option string) (t : tables)
  : list user :=
  filter (fun u => sql_eq (Some (u_email u)) email) (users t).

(* ================================================================== *)
(** ** POST /api/visits (check-in) *)

(** The block that sets [host_id] from the caller's role.  The result is
    either the response of an early [return] (sent after a rollback) or
    the resolved [host_id]. *)
Definition resolve_host `{Platform} (caller : principal)
    (hostName : option string) : M (response + Z) :=
  match p_role caller with
  | Host =>
      hostUser <- query (users_by_id (p_id caller)) ;;
      match hostUser with
      | [] =>
          rollback ;;;
          ret (inl (json 403 "Hosts can only check in visitors for themselves."))
      | u :: _ =>
          match hostName with
          | None => fun c => (Throw TypeError, c)
          | Some hn =>
              if negb (String.eqb (toLowerCase (u_name u)) (toLowerCase hn))
              then
                rollback ;;;
                ret (inl (json 403 "Hosts can only check in visitors for themselves."))
              else ret (inr (p_id caller))
          end
      end
  | Admin =>
      adminUser <- query (users_by_id (p_id caller)) ;;
      match adminUser with
      | [] =>
          rollback ;;;
          ret (inl (json 400 "Admin company information not found."))
      | a :: _ =>
          if falsy (u_company_name a)
          then
            rollback ;;;
            ret (inl (json 400 "Admin company information not found."))
          else
            let adminCompanyName := u_company_name a in
            hostRows <- query (hosts_by_name hostName adminCompanyName) ;;
            match hostRows with
            | [] =>
                rollback ;;;
                ret (inl (json 404 "Host not found in your company."))
            | h :: _ => ret (inr (u_id h))
            end
      end
  | OtherRole =>
      rollback ;;;
      ret (inl (json 403 "Unauthorized access."))
  end.

(** The rest of the transaction once [host_id] is known. *)
Definition checkin_for_host `{Platform} (b : checkin_body) (now host_id : Z)
  : M response :=
  hostCompanyInfo <- query (users_by_id host_id) ;;
  match hostCompanyInfo with
  | [] =>
      rollback ;;;
      ret (json 400 "Host company information not found.")
  | hc :: _ =>
      let hostCompanyName := u_company_name hc in
      activeVisits <- query (active_visits (b_email b) hostCompanyName) ;;
      if (0 <? List.length activeVisits)%nat
      then
        rollback ;;;
        ret (json 409 ("This visitor is already checked in to "
                       ++ js_string hostCompanyName
                       ++ " and has not checked out yet. Please check out first before checking in again to the same company."))
      else
        visitor_id <- execute (insert_visitor b) ;;
        let check_in_time := now in
        visitId <- execute (insert_visit visitor_id host_id (b_reason b)
                              (b_itemsCarried b) check_in_time) ;;
        commit ;;;
        ret (mkResponse 201 (CheckedIn visitId))
  end.

(** [!name || !email || !hostName || !idCardNumber] *)
Definition missing_fields (b : checkin_body) : bool :=
  falsy (b_name b) || falsy (b_email b) || falsy (b_hostName b)
  || falsy (b_idCardNumber b).

(** The handler; [now] is the value of [new Date()].  The connection is
    released in [finally] on every path, which changes nothing here. *)
Definition checkin `{Platform} (caller : principal) (b : checkin_body)
    (now : Z) : M response :=
  if missing_fields b
  then ret (json 400 "Missing required fields for check-in.")
  else
    try_catch
      (beginTransaction ;;;
       r <- resolve_host caller (b_hostName b) ;;
       match r with
       | inl early => ret early
       | inr host_id => checkin_for_host b now host_id
       end)
      (fun _ =>
         rollback ;;;
         ret (json 500 "Database transaction failed.")).

(* ================================================================== *)
(** ** PUT /api/visits/:id/checkout *)

(** The conditional UPDATE and the response chosen from [affectedRows]. *)
Definition checkout_update (id now : Z) : M response :=
  try_catch
    (affectedRows <- execute (update_check_out now id) ;;
     if (0 <? affectedRows)%nat
     then ret (json 200 "Check-out successful.")
     else ret (json 404 "Visit not found or visitor already checked out."))
    (fun _ => ret (json 500 "Failed to check out visitor.")).

(** The handler; [id] is the number the [:id] segment of the path
    spells.  The host's SELECT is outside the [try]: a failure there is
    thrown to the caller of the handler. *)
Definition checkout (caller : principal) (id now : Z) : M response :=
  match p_role caller with
  | Host =>
      visitRows <- query (visits_by_id id) ;;
      match visitRows with
      | [] => ret (json 403 "Hosts can only check out their own visitors.")
      | v :: _ =>
          if negb (v_host_id v =? p_id caller)
          then ret (json 403 "Hosts can only check out their own visitors.")
          else checkout_update id now
      end
  | _ => checkout_update id now
  end.

(* ================================================================== *)
(** ** POST /api/login *)

(** [user.company_name || null] *)
Definition or_null (o : option string) : option string :=
  if falsy o then None else o.

(** JavaScript's [a === b] of a stored string and a request field. *)
Definition strict_eq (a : string) (b : option string) : bool :=
  match b with
  | Some s => String.eqb a s
  | None => false
  end.

Definition login `{Platform} (email password : option string) : M response :=
  try_catch
    (rows <- query (users_by_email email) ;;
     match rows with
     | [] => ret (json 401 "Invalid email or password.")
     | user :: _ =>
         if negb (strict_eq (u_password user) password)
         then ret (json 401 "Invalid email or password.")
         else if negb (role_eqb (u_role user) Host) && negb (u_is_verified user)
         then ret (json 403 "Please verify your email address before logging in.")
         else
           let companyInfo := or_null (u_company_name user) in
           let token := mkPrincipal (u_id user) (u_role user) in
           ret (mkResponse 200
                  (Session token (u_id user) (u_name user) (u_email user)
                           (u_role user) companyInfo))
     end)
    (fun _ => ret (json 500 "Server error during login.")).

(* ================================================================== *)
(** ** POST /api/register, POST /api/registerCompany, GET /api/verify-email *)

(** [SELECT company_name FROM companies WHERE id = ?] *)
Definition companies_by_id (id : Z) (t : tables) : list company :=
  filter (fun c => c_id c =? id) (companies t).

(** [INSERT INTO users (name, email, password, role, company_name)
    VALUES (?, ?, ?, ?, ?)]; [email] is UNIQUE, [email] and [password]
    are NOT NULL, [is_verified] takes its default. *)
Definition insert_user `{Platform} (name : string) (email password : option string)
    (r : role) (company_name : option string) (t : tables) (k : counters)
  : result (Z * tables) * counters :=
  match email, password with
  | Some e, Some p =>
      let id := next_user k in
      let k' := mkCounters (id + 1) (next_visitor k) (next_visit k) in
      if existsb (fun u => str_eq (u_email u) e) (users t)
      then (Throw ER_DUP_ENTRY, k')
      else
        let row := mkUser id name e p r company_name false in
        (Ok (id, mkTables (users t ++ [row]) (companies t) (visitors t) (visits t)),
         k')
  | _, _ => (Throw ER_BAD_NULL_ERROR, k)
  end.

(** [INSERT INTO companies (id, firstname, lastname, email, password,
    role, company_name, mobile_number, created_at, admin_company_id)];
    [id] is the primary key and a foreign key to [users], as is
    [admin_company_id] when it is not NULL. *)
Definition insert_company (id : Z) (firstname lastname email password : option string)
    (r : role) (company_name mobile_number : option string)
    (admin_company_id : option Z) (t : tables) (k : counters)
  : result (unit * tables) * counters :=
  match firstname, email, password, company_name with
  | Some f, Some e, Some p, Some cn =>
      if existsb (fun c => c_id c =? id) (companies t)
      then (Throw ER_DUP_ENTRY, k)
      else if negb (existsb (fun u => u_id u =? id) (users t))
              || match admin_company_id with
                 | Some a => negb (existsb (fun u => u_id u =? a) (users t))
                 | None => false
                 end
      then (Throw ER_NO_REFERENCED_ROW, k)
      else
        let row := mkCompany id f lastname e p r cn mobile_number admin_company_id in
        (Ok (tt, mkTables (users t) (companies t ++ [row]) (visitors t) (visits t)),
         k)
  | _, _, _, _ => (Throw ER_BAD_NULL_ERROR, k)
  end.

(** The fields of the two registration forms. *)
Record register_body := mkRegister {
  g_email : option string;
  g_firstName : option string;
  g_lastName : option string;
  g_password : option string;
  g_companyName : option string;
  g_mobileNumber : option string
}.

(** [POST /api/register]: the two INSERTs go through the pool, each in
    its own implicit transaction. *)
Definition register `{Platform} (caller : principal) (b : register_body)
  : M response :=
  if negb (role_eqb (p_role caller) Admin)
  then ret (json 403 "Only admins can create new users.")
  else if falsy (g_email b) || falsy (g_firstName b) || falsy (g_password b)
  then ret (json 400 "Please provide email, first name, and password.")
  else
    try_catch
      (let name := trim (js_string (g_firstName b) ++ " " ++ js_string (g_lastName b)) in
       adminCompany <- query (companies_by_id (p_id caller)) ;;
       match adminCompany with
       | [] => ret (json 400 "Admin company information not found.")
       | ac :: _ =>
           let companyName := Some (c_company_name ac) in
           insertId <- execute (insert_user name (g_email b) (g_password b)
                                  Host companyName) ;;
           execute (insert_company insertId (g_firstName b) (g_lastName b)
                      (g_email b) (g_password b) Host companyName None
                      (Some (p_id caller))) ;;;
           ret (mkResponse 201
                  (Registered insertId name (g_email b) Host companyName))
       end)
      (fun e =>
         if is_dup_entry e
         then ret (json 409 "An account with this email already exists.")
         else ret (json 500 "Server error during registration.")).

(** [POST /api/registerCompany]: the INSERTs are in one transaction; the
    verification mail is sent after the commit. *)
Definition registerCompany `{Platform} (b : register_body) : M response :=
  if falsy (g_email b) || falsy (g_firstName b) || falsy (g_password b)
     || falsy (g_companyName b)
  then ret (json 400 "Please provide email, first name, password, and company name.")
  else
    try_catch
      (beginTransaction ;;;
       let name := trim (js_string (g_firstName b) ++ " " ++ js_string (g_lastName b)) in
       userId <- execute (insert_user name (g_email b) (g_password b)
                            Admin (g_companyName b)) ;;
       execute (insert_company userId (g_firstName b) (g_lastName b)
                  (g_email b) (g_password b) Admin (g_companyName b)
                  (or_null (g_mobileNumber b)) None) ;;;
       commit ;;;
       external MailFailure ;;;
       ret (mkResponse 201
              (Registered userId name (g_email b) Host (g_companyName b))))
      (fun e =>
         rollback ;;;
         if is_dup_entry e
         then ret (json 409 "An account with this email already exists.")
         else ret (json 500 "Server error during registration.")).

(** The [token] query parameter, as [jwt.verify] reads it. *)
Inductive token_param :=
| NoToken
| BadToken
| GoodToken (id : Z).

(** [UPDATE users SET is_verified = ? WHERE id = ?] with [true]. *)
Definition update_verified (id : Z) (t : tables) (k : counters)
  : result (unit * tables) * counters :=
  (Ok (tt,
       mkTables
         (map (fun u => if u_id u =? id
                        then mkUser (u_id u) (u_name u) (u_email u) (u_password u)
                                    (u_role u) (u_company_name u) true
                        else u)
              (users t))
         (companies t) (visitors t) (visits t)),
   k).

Definition verifyEmail (token : token_param) : M response :=
  match token with
  | NoToken => ret (mkResponse 400 (Page "Verification Failed"))
  | _ =>
      try_catch
        (userId <- (match token with
                    | GoodToken id => ret id
                    | _ => fun c => (Throw JsonWebTokenError, c)
                    end) ;;
         execute (update_verified userId) ;;;
         ret (mkResponse 200 (Page "Email Verified Successfully!")))
        (fun _ => ret (mkResponse 400 (Page "Verification Failed")))
  end.

(* ================================================================== *)
(** ** GET /api/visits and GET /api/host-visits *)

(** SQL's [s LIKE p] with the default escape character: [%] matches any
    run of characters, [_] any one character, and a backslash takes the
    character after it literally. *)
Fixpoint like `{Platform} (p s : string) {struct p} : bool :=
  match p with
  | EmptyString =>
      match s with
      | EmptyString => true
      | String _ _ => false
      end
  | String c p' =>
      if Ascii.eqb c "%" then
        (fix any (s : string) : bool :=
           like p' s
           || match s with
              | EmptyString => false
              | String _ s' => any s'
              end) s
      else if Ascii.eqb c "_" then
        match s with
        | EmptyString => false
        | String _ s' => like p' s'
        end
      else if Ascii.eqb c "\" then
        match p' with
        | EmptyString =>
            match s with
            | String x EmptyString => chr_eq x c
            | _ => false
            end
        | String e p'' =>
            match s with
            | EmptyString => false
            | String x s' => chr_eq x e && like p'' s'
            end
        end
      else
        match s with
        | EmptyString => false
        | String x s' => chr_eq x c && like p' s'
        end
  end.

(** [DATE(t)]: the calendar day of a time, as a day number. *)
Definition DATE (t : Z) : Z := t / 86400.

(** The query string of [GET /api/visits]: [hostId] is the number it
    spells and a date is a day number; a parameter that is absent or
    empty is not supplied. *)
Record visit_filters := mkFilters {
  q_hostId : option Z;
  q_startDate : option Z;
  q_endDate : option Z;
  q_hostName : option string;
  q_visitorName : option string
}.

Definition project (with_company : bool) (j : visit * visitor * user) : visit_row :=
  let '(v, vis, h) := j in
  mkRow (v_id v) (v_reason v) (v_itemsCarried v) (v_check_in_time v)
        (v_check_out_time v)
        (vis_id vis) (vis_name vis) (vis_email vis) (vis_phone vis)
        (vis_designation vis) (vis_company vis) (vis_photo vis)
        (vis_idCardPhoto vis) (vis_idCardNumber vis)
        (u_id h) (u_name h)
        (if with_company then u_company_name h else None).

(** The WHERE clause the handler assembles: the company condition and one
    condition for each filter that is truthy. *)
Definition admin_where `{Platform} (company : option string) (f : visit_filters)
    (j : visit * visitor * user) : bool :=
  let '(v, vis, h) := j in
  sql_eq (u_company_name h) company
  && match q_hostId f with
     | Some hostId => v_host_id v =? hostId
     | None => true
     end
  && match q_startDate f with
     | Some startDate => startDate <=? DATE (v_check_in_time v)
     | None => true
     end
  && match q_endDate f with
     | Some endDate => DATE (v_check_in_time v) <=? endDate
     | None => true
     end
  && (if falsy (q_hostName f) then true
      else like ("%" ++ js_string (q_hostName f) ++ "%") (u_name h))
  && (if falsy (q_visitorName f) then true
      else like ("%" ++ js_string (q_visitorName f) ++ "%") (vis_name vis)).

Definition visit_row_eq_dec (a b : visit_row) : {a = b} + {a <> b}.
Proof.
  decide equality;
    try apply Z.eq_dec; try apply string_dec;
    decide equality; try apply Z.eq_dec; apply string_dec.
Defined.

(** [ORDER BY v.check_in_time DESC], by insertion. *)
Fixpoint insert_desc (r : visit_row) (l : list visit_row) : list visit_row :=
  match l with
  | [] => [r]
  | x :: l' =>
      if r_check_in_time x <=? r_check_in_time r
      then r :: l
      else x :: insert_desc r l'
  end.

Definition order_by_check_in_desc (l : list visit_row) : list visit_row :=
  fold_right insert_desc [] l.

(** [SELECT DISTINCT ... FROM visits v JOIN ... WHERE h.company_name = ?
     AND ... ORDER BY v.check_in_time DESC] *)
Definition select_admin_visits `{Platform} (company : option string)
    (f : visit_filters) (t : tables) : list visit_row :=
  order_by_check_in_desc
    (nodup visit_row_eq_dec
       (map (project true) (filter (admin_where company f) (visits_joined t)))).

(** [SELECT ... FROM visits v JOIN ... WHERE v.host_id = ?
     ORDER BY v.check_in_time DESC] *)
Definition select_host_visits (hostId : Z) (t : tables) : list visit_row :=
  order_by_check_in_desc
    (map (project false)
       (filter (fun j => v_host_id (fst (fst j)) =? hostId) (visits_joined t))).

Definition getVisits `{Platform} (caller : principal) (f : visit_filters)
  : M response :=
  if negb (role_eqb (p_role caller) Admin)
  then ret (json 403 "Admin access required.")
  else
    try_catch
      (adminUser <- query (users_by_id (p_id caller)) ;;
       match adminUser with
       | [] => ret (json 400 "Admin company information not found.")
       | a :: _ =>
           if falsy (u_company_name a)
           then ret (json 400 "Admin company information not found.")
           else
             let adminCompanyName := u_company_name a in
             visits <- query (select_admin_visits adminCompanyName f) ;;
             ret (mkResponse 200 (VisitList visits))
       end)
      (fun _ => ret (json 500 "Failed to fetch visits.")).

Definition getHostVisits (caller : principal) : M response :=
  if negb (role_eqb (p_role caller) Host)
  then ret (json 403 "Host access required.")
  else
    let hostId := p_id caller in
    try_catch
      (visits <- query (select_host_visits hostId) ;;
       ret (mkResponse 200 (VisitList visits)))
      (fun _ => ret (json 500 "Failed to fetch visits.")).

(* ================================================================== *)
(** ** The server: one request at a time *)

Inductive request :=
| PostRegister (caller : principal) (b : register_body)
| PostRegisterCompany (b : register_body)
| GetVerifyEmail (token : token_param)
| PostLogin (email password : option string)
| PostVisits (caller : principal) (b : checkin_body) (now : Z)
| GetVisits (caller : principal) (f : visit_filters)
| GetHostVisits (caller : principal)
| PutCheckout (caller : principal) (id now : Z).

Definition handler `{Platform} (r : request) : M response :=
  match r with
  | PostRegister caller b => register caller b
  | PostRegisterCompany b => registerCompany b
  | GetVerifyEmail token => verifyEmail token
  | PostLogin email password => login email password
  | PostVisits caller b now => checkin caller b now
  | GetVisits caller f => getVisits caller f
  | GetHostVisits caller => getHostVisits caller
  | PutCheckout caller id now => checkout caller id now
  end.

(** What the client gets: a response, or none when the handler threw. *)
Definition reply (r : result response) : option response :=
  match r with
  | Ok resp => Some resp
  | Throw _ => None
  end.

(** Running a handler on a fresh connection: the reply and the state the
    next request finds. *)
Definition run (h : M response) (f : nat -> bool) (s : server)
  : option response * server :=
  let '(res, c) := h (connect s f) in
  (reply res, mkServer (committed c) (autoinc c)).

Definition serve `{Platform} (r : request) (f : nat -> bool) (s : server)
  : option response * server :=
  run (handler r) f s.

(** The states the server reaches from [s0] when it serves its requests
    one after another, each on a connection of its own, whatever fails
    while they are served.  Requests that are in flight together are
    treated further down. *)
Inductive reachable `{Platform} (s0 : server) : server -> Prop :=
| reach_start : reachable s0 s0
| reach_serve : forall s r f,
    reachable s0 s -> reachable s0 (snd (serve r f s)).

(* ================================================================== *)
(** ** The invariant of the workflow *)

(** A visit is active for the visitor email [E] at the company [C]: it
    has no check-out time, its visitor row has the email [E] and its
    host's [company_name] is [C] (both as the database compares them). *)
Definition active_at `{Platform} (E C : string) (t : tables) (v : visit) : bool :=
  is_null (v_check_out_time v)
  && existsb (fun vis => (v_visitor_id v =? vis_id vis) && str_eq (vis_email vis) E)
             (visitors t)
  && existsb (fun h => (v_host_id v =? u_id h) && sql_eq (u_company_name h) (Some C))
             (users t).

Definition active_for `{Platform} (E C : string) (t : tables) : list visit :=
  filter (active_at E C t) (visits t).

(** The keys of the tables: a user id occurs once, and every id in use
    lies below its AUTO_INCREMENT counter. *)
Record keys_ok (s : server) : Prop := mkKeys {
  users_nodup : NoDup (map u_id (users (db s)));
  users_below : Forall (fun u => u_id u < next_user (seqs s)) (users (db s));
  visitors_below : Forall (fun vis => vis_id vis < next_visitor (seqs s))
                          (visitors (db s));
  visits_below : Forall (fun v => v_host_id v < next_user (seqs s)
                                  /\ v_visitor_id v < next_visitor (seqs s))
                        (visits (db s))
}.

(** The database after the schema scripts: users, and no visit yet. *)
Definition installed (s : server) : Prop :=
  keys_ok s /\ visits (db s) = [].

Definition counters_le (k k' : counters) : Prop :=
  next_user k <= next_user k'
  /\ next_visitor k <= next_visitor k'
  /\ next_visit k <= next_visit k'.

(** The tables after a check-in that was committed. *)
Definition checked_in (b : checkin_body) (now host_id : Z) (s : server)
    (t' : tables) : Prop :=
  exists n e r,
    b_name b = Some n /\ b_email b = Some e /\ b_reason b = Some r /\
    t' = mkTables (users (db s)) (companies (db s))
           (visitors (db s)
            ++ [mkVisitor (next_visitor (seqs s)) n e (b_phone b)
                  (b_designation b) (b_company b) (b_companyTel b)
                  (b_website b) (b_address b) (b_photo b) (b_idCardPhoto b)
                  (b_idCardNumber b)])
           (visits (db s)
            ++ [mkVisit (next_visit (seqs s)) (next_visitor (seqs s)) host_id r
                  (b_itemsCarried b) now None]).

(** The connection of a check-in once its transaction is open. *)
Definition in_transaction (s : server) (f : nat -> bool) : conn :=
  mkConn (db s) (Some (db s)) (seqs s) f 1.

(** A name contains the text [x]: some run of its characters matches
    [x], character by character. *)
Fixpoint matches_at `{Platform} (x s : string) : bool :=
  match x, s with
  | EmptyString, _ => true
  | String _ _, EmptyString => false
  | String a x', String b s' => chr_eq b a && matches_at x' s'
  end.

Fixpoint contains `{Platform} (x s : string) : bool :=
  matches_at x s
  || match s with
     | EmptyString => false
     | String _ s' => contains x s'
     end.

(* ================================================================== *)
(** ** Notions the statements use *)

(** The tables after the conditional UPDATE of a checkout. *)
Definition after_check_out (now id : Z) (t : tables) : tables :=
  mkTables (users t) (companies t) (visitors t)
    (map (fun v => if checkout_hits id v then set_check_out_time now v else v)
         (visits t)).

(** The response the handler chooses from [affectedRows]. *)
Definition checkout_reply (id : Z) (t : tables) : response :=
  if (0 <? List.length (filter (checkout_hits id) (visits t)))%nat
  then json 200 "Check-out successful."
  else json 404 "Visit not found or visitor already checked out.".

(** What the host's gate lets through. *)
Definition passes_gate (caller : principal) (id : Z) (t : tables) : bool :=
  match p_role caller with
  | Host =>
      match visits_by_id id t with
      | [] => false
      | v :: _ => v_host_id v =? p_id caller
      end
  | _ => true
  end.

(** The invariant: the keys are in order, and no visitor email has two
    active visits at one company. *)
Record invariant `{Platform} (s : server) : Prop := mkInvariant {
  inv_keys : keys_ok s;
  inv_one : forall E C, (List.length (active_for E C (db s)) <= 1)%nat
}.

(** [UPDATE users SET is_verified = true WHERE id = ?] on the table. *)
Definition after_verified (id : Z) (t : tables) : tables :=
  mkTables
    (map (fun u => if u_id u =? id
                   then mkUser (u_id u) (u_name u) (u_email u) (u_password u)
                               (u_role u) (u_company_name u) true
                   else u)
         (users t))
    (companies t) (visitors t) (visits t).

(** What a request that is neither a check-in nor a checkout can do to
    the state: nothing but advance counters, add one user under the next
    id (with or without its company row), or mark a user verified. *)
Inductive users_step (s : server) : server -> Prop :=
| step_idle : forall k',
    counters_le (seqs s) k' -> users_step s (mkServer (db s) k')
| step_user : forall u cs,
    u_id u = next_user (seqs s) ->
    users_step s
      (mkServer
         (mkTables (users (db s) ++ [u]) cs (visitors (db s)) (visits (db s)))
         (mkCounters (next_user (seqs s) + 1) (next_visitor (seqs s))
            (next_visit (seqs s))))
| step_verify : forall id,
    users_step s (mkServer (after_verified id (db s)) (seqs s)).

(** The characters [LIKE] does not take literally. *)
Definition wildcard (c : ascii) : bool :=
  Ascii.eqb c "%" || Ascii.eqb c "_" || Ascii.eqb c "\".

Fixpoint plain (x : string) : bool :=
  match x with
  | EmptyString => true
  | String c x' => negb (wildcard c) && plain x'
  end.

(** The order of a listing: later check-ins first. *)
Definition newer_first (r1 r2 : visit_row) : Prop :=
  r_check_in_time r2 <= r_check_in_time r1.

(** The condition of a listing row as the specification words it: the
    host's company is the admin's, and every filter that is supplied
    holds, a name filter holding when the name contains its text. *)
Definition selected `{Platform} (company : option string) (q : visit_filters)
    (j : visit * visitor * user) : Prop :=
  let '(v, vis, h) := j in
  sql_eq (u_company_name h) company = true
  /\ (forall hostId, q_hostId q = Some hostId -> v_host_id v = hostId)
  /\ (forall day, q_startDate q = Some day -> day <= DATE (v_check_in_time v))
  /\ (forall day, q_endDate q = Some day -> DATE (v_check_in_time v) <= day)
  /\ (forall x, q_hostName q = Some x -> x <> "" ->
      contains x (u_name h) = true)
  /\ (forall x, q_visitorName q = Some x -> x <> "" ->
      contains x (vis_name vis) = true).

(* ================================================================== *)
(** ** A sample database *)

Module Sample.

#[local] Existing Instance ascii_platform.

Definition ann := mkUser 1 "Ann" "ann@acme.com" "secret" Admin (Some "Acme") true.
Definition bob := mkUser 2 "Bob" "bob@acme.com" "secret" Host (Some "Acme") false.
Definition gina := mkUser 3 "Gina" "gina@globex.com" "secret" Host (Some "Globex") false.
Definition nico := mkUser 4 "Nico" "nico@initech.com" "secret" Admin None false.

Definition as_ann := mkPrincipal 1 Admin.
Definition as_bob := mkPrincipal 2 Host.
Definition as_gina := mkPrincipal 3 Host.
Definition as_nico := mkPrincipal 4 Admin.

(** Nobody has checked in yet. *)
Definition s0 : server :=
  mkServer (mkTables [ann; bob; gina; nico] [] [] []) (mkCounters 5 1 1).

(** Alice's form, addressed to the host [hostName]. *)
Definition alice (hostName : string) (reason : option string) : checkin_body :=
  mkCheckin (Some "Alice") (Some "alice@x.com") None None None None None None
            (Some hostName) reason None None None (Some "ID-1").

(** Alice is checked in with Bob (Acme). *)
Definition s1 : server :=
  Eval vm_compute in
    snd (serve (PostVisits as_bob (alice "bob" (Some "meeting")) 100) no_faults s0).

(** Alice is also checked in with Gina (Globex). *)
Definition s3 : server :=
  Eval vm_compute in
    snd (serve (PostVisits as_gina (alice "Gina" (Some "audit")) 150) no_faults s1).

(** Bob has checked Alice out. *)
Definition s2 : server :=
  Eval vm_compute in snd (serve (PutCheckout as_bob 1 200) no_faults s1).

End Sample.

(* ================================================================== *)
(** ** The authentication middleware *)

(** [s.split(sep)] for a one-character separator. *)
Fixpoint split (sep : ascii) (s : string) : list string :=
  match s with
  | EmptyString => [EmptyString]
  | String c s' =>
      if Ascii.eqb c sep then EmptyString :: split sep s'
      else match split sep s' with
           | [] => [String c EmptyString]
           | w :: ws => String c w :: ws
           end
  end.

(** [authHeader && authHeader.split(' ')[1]] *)
Definition header_token (authHeader : option string) : option string :=
  match authHeader with
  | None => None
  | Some h => nth_error (split " " h) 1
  end.

(** [authenticateToken]: [verify] stands for [jwt.verify] with the
    server's secret ([None] when it reports an error), [next] for the
    handler behind the middleware. *)
Definition authenticateToken (verify : string -> option principal)
    (authHeader : option string) (next : principal -> M response) : M response :=
  let token := header_token authHeader in
  if falsy token
  then ret (json 401 "Access token required.")
  else
    match verify (js_string token) with
    | None => ret (json 403 "Invalid or expired token.")
    | Some user => next user
    end.

(** The client's [request]: the [Authorization] header it adds when
    local storage holds a token. *)
Definition client_authorization (token : option string) : option string :=
  if falsy token then None else Some ("Bearer " ++ js_string token).

(* ================================================================== *)
(** ** GET /api/users and GET /api/hosts *)

(** The order the database sorts character columns by; the schema names
    no collation, so any total preorder is allowed. *)
Class CollationOrder := {
  str_leb : string -> string -> bool;
  str_leb_total : forall a b, str_leb a b = true \/ str_leb b a = true;
  str_leb_trans : forall a b c,
      str_leb a b = true -> str_leb b c = true -> str_leb a c = true
}.

(** The binary collation's order: byte-wise comparison. *)
Definition binary_order : CollationOrder.
Proof.
  refine {| str_leb := String.leb; str_leb_total := String.leb_total |}.
  unfold String.leb.
  induction a as [|x a IH]; intros [|y b] [|z c]; simpl;
    try (intros; reflexivity); try (intros; discriminate).
  unfold Ascii.compare.
  destruct (N.compare_spec (N_of_ascii x) (N_of_ascii y)) as [Hxy|Hxy|Hxy];
    destruct (N.compare_spec (N_of_ascii y) (N_of_ascii z)) as [Hyz|Hyz|Hyz];
    destruct (N.compare_spec (N_of_ascii x) (N_of_ascii z)) as [Hxz|Hxz|Hxz];
    intros H1 H2; try discriminate; try reflexivity; try lia.
  exact (IH b c H1 H2).
Defined.

(** A row of the two user listings: the columns of their select lists
    ([role] is selected by [GET /api/users] only). *)
Record user_info := mkInfo {
  i_id : Z;
  i_name : string;
  i_email : string;
  i_role : option role;
  i_company_name : option string
}.

(** [SELECT u.id, u.name, u.email, u.role, u.company_name] *)
Definition users_columns (u : user) : user_info :=
  mkInfo (u_id u) (u_name u) (u_email u) (Some (u_role u)) (u_company_name u).

(** [SELECT u.id, u.name, u.email, u.company_name] *)
Definition hosts_columns (u : user) : user_info :=
  mkInfo (u_id u) (u_name u) (u_email u) None (u_company_name u).

(** The position of a value of [ENUM('admin','host')], which is what
    [ORDER BY u.role] compares; the empty value comes first. *)
Definition role_rank (r : role) : nat :=
  match r with
  | OtherRole => 0
  | Admin => 1
  | Host => 2
  end.

(** [ORDER BY u.role, u.name] *)
Definition by_role_name `{CollationOrder} (a b : user) : bool :=
  (role_rank (u_role a) <? role_rank (u_role b))%nat
  || ((role_rank (u_role a) =? role_rank (u_role b))%nat
      && str_leb (u_name a) (u_name b)).

(** [ORDER BY u.name] *)
Definition by_name `{CollationOrder} (a b : user) : bool :=
  str_leb (u_name a) (u_name b).

Fixpoint insert_by (leb : user -> user -> bool) (u : user) (l : list user)
  : list user :=
  match l with
  | [] => [u]
  | x :: l' => if leb u x then u :: l else x :: insert_by leb u l'
  end.

(** [ORDER BY], by insertion. *)
Definition order_by (leb : user -> user -> bool) (l : list user) : list user :=
  fold_right (insert_by leb) [] l.

(** [WHERE u.company_name = ?] *)
Definition of_company `{Platform} (company : option string) (u : user) : bool :=
  sql_eq (u_company_name u) company.

(** [WHERE u.role = 'host' AND u.company_name = ?] *)
Definition host_of_company `{Platform} (company : option string) (u : user)
  : bool :=
  role_eqb (u_role u) Host && sql_eq (u_company_name u) company.

(** [SELECT u.id, u.name, u.email, u.role, u.company_name FROM users u
     WHERE u.company_name = ? ORDER BY u.role, u.name] *)
Definition select_company_users `{Platform} `{CollationOrder}
    (company : option string) (t : tables) : list user_info :=
  map users_columns
      (order_by by_role_name (filter (of_company company) (users t))).

(** [SELECT u.id, u.name, u.email, u.company_name FROM users u
     WHERE u.role = 'host' AND u.company_name = ? ORDER BY u.name] *)
Definition select_company_hosts `{Platform} `{CollationOrder}
    (company : option string) (t : tables) : list user_info :=
  map hosts_columns
      (order_by by_name (filter (host_of_company company) (users t))).

(** [SELECT u.id, u.name, u.email, u.company_name FROM users u
     WHERE u.id = ?] *)
Definition select_host_self (id : Z) (t : tables) : list user_info :=
  map hosts_columns (users_by_id id t).

(** The reply of a listing: a JSON message with its status, or 200 with
    the rows. *)
Definition listing := (response + list user_info)%type.

Definition getUsers `{Platform} `{CollationOrder} (caller : principal)
  : M listing :=
  if negb (role_eqb (p_role caller) Admin)
  then ret (inl (json 403 "Admin access required."))
  else
    try_catch
      (adminUser <- query (users_by_id (p_id caller)) ;;
       match adminUser with
       | [] => ret (inl (json 400 "Admin company information not found."))
       | a :: _ =>
           if falsy (u_company_name a)
           then ret (inl (json 400 "Admin company information not found."))
           else
             let adminCompanyName := u_company_name a in
             users <- query (select_company_users adminCompanyName) ;;
             ret (inr users)
       end)
      (fun _ => ret (inl (json 500 "Failed to fetch users."))).

Definition getHosts `{Platform} `{CollationOrder} (caller : principal)
  : M listing :=
  try_catch
    (match p_role caller with
     | Admin =>
         adminUser <- query (users_by_id (p_id caller)) ;;
         match adminUser with
         | [] => ret (inl (json 400 "Admin company information not found."))
         | a :: _ =>
             if falsy (u_company_name a)
             then ret (inl (json 400 "Admin company information not found."))
             else
               let companyName := u_company_name a in
               hosts <- query (select_company_hosts companyName) ;;
               ret (inr hosts)
         end
     | Host =>
         hostUser <- query (select_host_self (p_id caller)) ;;
         ret (inr hostUser)
     | OtherRole => ret (inl (json 403 "Access denied."))
     end)
    (fun _ => ret (inl (json 500 "Failed to fetch hosts."))).

(** Running a listing handler on a fresh connection. *)
Definition run_listing (h : M listing) (f : nat -> bool) (s : server)
  : option listing * server :=
  let '(res, c) := h (connect s f) in
  (match res with Ok l => Some l | Throw _ => None end,
   mkServer (committed c) (autoinc c)).

(* ================================================================== *)
(** ** The client: the dashboard's helpers *)

(** [parts.join(sep)] *)
Fixpoint join (sep : string) (parts : list string) : string :=
  match parts with
  | [] => EmptyString
  | [x] => x
  | x :: rest => x ++ sep ++ join sep rest
  end.

(** [createUser] of the API client: the body it posts to
    [/api/register] for the dashboard's single [name] field. *)
Definition createUser (name : string) (email password : option string)
  : register_body :=
  match split " " name with
  | firstName :: lastNameParts =>
      mkRegister email (Some firstName) (Some (join " " lastNameParts))
                 password None None
  | [] => mkRegister email None (Some EmptyString) password None None
  end.

(** [self.findIndex(p)]: the first index whose element passes, or -1. *)
Fixpoint findIndex {A} (p : A -> bool) (self : list A) : Z :=
  match self with
  | [] => -1
  | x :: rest =>
      if p x then 0
      else let i := findIndex p rest in
           if i =? -1 then -1 else i + 1
  end.

(** [l.filter((x, index) => p x index)], from the index [index] on. *)
Fixpoint filter_from {A} (p : A -> Z -> bool) (index : Z) (l : list A) : list A :=
  match l with
  | [] => []
  | x :: rest =>
      if p x index then x :: filter_from p (index + 1) rest
      else filter_from p (index + 1) rest
  end.

(** The dashboard's [uniqueVisits]:
    [visitsData.filter((visit, index, self) =>
       index === self.findIndex(v => v.id === visit.id))] *)
Definition uniqueVisits (visitsData : list visit_row) : list visit_row :=
  filter_from
    (fun visit index =>
       index =? findIndex (fun v => r_id v =? r_id visit) visitsData)
    0 visitsData.

(* ================================================================== *)
(** ** More notions the statements use *)

(** A string without the character [c]. *)
Fixpoint without (c : ascii) (s : string) : bool :=
  match s with
  | EmptyString => true
  | String a s' => negb (Ascii.eqb a c) && without c s'
  end.

(** A rest of a header that is empty or begins a new word. *)
Definition word_end (rest : string) : Prop :=
  match rest with
  | EmptyString => True
  | String c _ => c = " "%char
  end.




(** Referential integrity of the visits table: a visit id occurs once
    and lies below its counter, no two visits share a visitor row, and
    every visit has its visitor row and its host row. *)
Record integrity (s : server) : Prop := mkIntegrity {
  visit_ids_nodup : NoDup (map v_id (visits (db s)));
  visit_ids_below : Forall (fun v => v_id v < next_visit (seqs s))
                           (visits (db s));
  visitor_ids_nodup : NoDup (map v_visitor_id (visits (db s)));
  visit_rows_exist : Forall (fun v =>
      existsb (fun vis => vis_id vis =? v_visitor_id v) (visitors (db s)) = true
      /\ existsb (fun u => u_id u =? v_host_id v) (users (db s)) = true)
    (visits (db s))
}.

(** The order of the user listings. *)
Definition in_order (leb : user -> user -> bool) (a b : user) : Prop :=
  leb a b = true.

(* ================================================================== *)
(** ** A second sample: a company that registers itself *)

Module Office.

#[local] Existing Instance ascii_platform.

(** An empty database. *)
Definition e0 : server :=
  mkServer (mkTables [] [] [] []) (mkCounters 1 1 1).

Definition ann_form : register_body :=
  mkRegister (Some "ann@acme.com") (Some "Ann") (Some "Lee") (Some "secret")
             (Some "Acme") None.

Definition as_ann := mkPrincipal 1 Admin.

(** Ann has registered Acme. *)
Definition e1 : server :=
  Eval vm_compute in snd (run (registerCompany ann_form) no_faults e0).

Definition bob_form : register_body :=
  mkRegister (Some "bob@acme.com") (Some "Bob") (Some "Ray") (Some "hunter2")
             None None.

(** Ann has added the host Bob. *)
Definition e2 : server :=
  Eval vm_compute in snd (run (register as_ann bob_form) no_faults e1).

End Office.

(* ================================================================== *)
(** ** A third sample: the users the schema script inserts *)

Module Seeded.

#[local] Existing Instance ascii_platform.

(** The rows of [database_schema.sql]; they have no [company_name]. *)
Definition admin_user :=
  mkUser 1 "Admin User" "admin@vms.com"
         "$2a$10$92IXUNpkjO0rOQ5byMi.Ye4oKoEa3Ro9llC/.og/at2.uheWG/igi"
         Admin None false.
Definition john :=
  mkUser 2 "John Doe" "john@company.com"
         "$2a$10$92IXUNpkjO0rOQ5byMi.Ye4oKoEa3Ro9llC/.og/at2.uheWG/igi"
         Host None false.
Definition jane :=
  mkUser 3 "Jane Smith" "jane@company.com"
         "$2a$10$92IXUNpkjO0rOQ5byMi.Ye4oKoEa3Ro9llC/.og/at2.uheWG/igi"
         Host None false.

Definition as_john := mkPrincipal 2 Host.

Definition d0 : server :=
  mkServer (mkTables [admin_user; john; jane] [] [] []) (mkCounters 4 1 1).

(** Carol's form, addressed to John. *)
Definition carol : checkin_body :=
  mkCheckin (Some "Carol") (Some "carol@x.com") None None None None None None
            (Some "John Doe") (Some "delivery") None None None (Some "ID-7").

End Seeded.

(* ================================================================== *)
(** ** Requests in flight together *)

(** The handlers [await] every call to the database, and meanwhile Node
    runs the handlers of other requests; a check-in has a connection of
    the pool to itself.  To let requests overlap, a handler is given
    once more as the sequence of its awaited calls. *)

(** One awaited call on a connection. *)
Inductive call : Type -> Type :=
| BeginTransaction : call unit
| Query : forall A : Type, (tables -> A) -> call A
| Execute : forall A : Type,
    (tables -> counters -> result (A * tables) * counters) -> call A
| Commit : call unit
| Rollback : call unit.
Arguments Query {A} q.
Arguments Execute {A} stmt.

(** What is left of a handler: its result, an exception that nothing
    caught, or an awaited call and what follows its outcome. *)
Inductive script (A : Type) : Type :=
| Return (a : A)
| Raise (e : error)
| Await (B : Type) (c : call B) (k : result B -> script A).
Arguments Return {A} a.
Arguments Raise {A} e.
Arguments Await {A B} c k.

Fixpoint and_then {A B} (m : script A) (k : A -> script B) : script B :=
  match m with
  | Return a => k a
  | Raise e => Raise e
  | Await c h => Await c (fun r => and_then (h r) k)
  end.

(** [try { m } catch (error) { h error }] *)
Fixpoint attempt {A} (m : script A) (h : error -> script A) : script A :=
  match m with
  | Return a => Return a
  | Raise e => h e
  | Await c k => Await c (fun r => attempt (k r) h)
  end.

(** [await c]: a call that fails throws. *)
Definition await {B} (c : call B) : script B :=
  Await c (fun r => match r with
                    | Ok b => Return b
                    | Throw e => Raise e
                    end).

Notation "x <~ m ;; k" := (and_then m (fun x => k))
  (at level 61, m at next level, right associativity).
Notation "m ~;; k" := (and_then m (fun _ => k))
  (at level 61, right associativity).

(** The block that sets [host_id], call by call. *)
Definition resolve_host_script `{Platform} (caller : principal)
    (hostName : option string) : script (response + Z) :=
  match p_role caller with
  | Host =>
      hostUser <~ await (Query (users_by_id (p_id caller))) ;;
      match hostUser with
      | [] =>
          await Rollback ~;;
          Return (inl (json 403 "Hosts can only check in visitors for themselves."))
      | u :: _ =>
          match hostName with
          | None => Raise TypeError
          | Some hn =>
              if negb (String.eqb (toLowerCase (u_name u)) (toLowerCase hn))
              then
                await Rollback ~;;
                Return (inl (json 403 "Hosts can only check in visitors for themselves."))
              else Return (inr (p_id caller))
          end
      end
  | Admin =>
      adminUser <~ await (Query (users_by_id (p_id caller))) ;;
      match adminUser with
      | [] =>
          await Rollback ~;;
          Return (inl (json 400 "Admin company information not found."))
      | a :: _ =>
          if falsy (u_company_name a)
          then
            await Rollback ~;;
            Return (inl (json 400 "Admin company information not found."))
          else
            let adminCompanyName := u_company_name a in
            hostRows <~ await (Query (hosts_by_name hostName adminCompanyName)) ;;
            match hostRows with
            | [] =>
                await Rollback ~;;
                Return (inl (json 404 "Host not found in your company."))
            | h :: _ => Return (inr (u_id h))
            end
      end
  | OtherRole =>
      await Rollback ~;;
      Return (inl (json 403 "Unauthorized access."))
  end.

(** The rest of the transaction, call by call. *)
Definition checkin_for_host_script `{Platform} (b : checkin_body)
    (now host_id : Z) : script response :=
  hostCompanyInfo <~ await (Query (users_by_id host_id)) ;;
  match hostCompanyInfo with
  | [] =>
      await Rollback ~;;
      Return (json 400 "Host company information not found.")
  | hc :: _ =>
      let hostCompanyName := u_company_name hc in
      activeVisits <~ await (Query (active_visits (b_email b) hostCompanyName)) ;;
      if (0 <? List.length activeVisits)%nat
      then
        await Rollback ~;;
        Return (json 409 ("This visitor is already checked in to "
                          ++ js_string hostCompanyName
                          ++ " and has not checked out yet. Please check out first before checking in again to the same company."))
      else
        visitor_id <~ await (Execute (insert_visitor b)) ;;
        let check_in_time := now in
        visitId <~ await (Execute (insert_visit visitor_id host_id (b_reason b)
                                     (b_itemsCarried b) check_in_time)) ;;
        await Commit ~;;
        Return (mkResponse 201 (CheckedIn visitId))
  end.

(** [POST /api/visits], call by call. *)
Definition checkin_script `{Platform} (caller : principal) (b : checkin_body)
    (now : Z) : script response :=
  if missing_fields b
  then Return (json 400 "Missing required fields for check-in.")
  else
    attempt
      (await BeginTransaction ~;;
       r <~ resolve_host_script caller (b_hostName b) ;;
       match r with
       | inl early => Return early
       | inr host_id => checkin_for_host_script b now host_id
       end)
      (fun _ =>
         await Rollback ~;;
         Return (json 500 "Database transaction failed.")).

(** The read view of a transaction and its own copy of the tables: the
    committed tables as they were at the transaction's first statement,
    and the same with the rows the transaction inserted since. *)
Record transaction := mkTransaction {
  began_on : tables;
  copy : tables
}.

(** A connection: in autocommit mode, with a transaction that has begun
    and made no statement yet, or with a transaction at work.  Under
    InnoDB's default isolation level, REPEATABLE READ, which the server
    never changes, the SELECTs of a transaction read the snapshot that
    its first read took, together with the transaction's own rows: they
    see neither the rows another transaction has not committed nor
    those committed after the snapshot. *)
Inductive link :=
| Autocommit
| Begun
| AtWork (w : transaction).

(** The rows a transaction inserted into a table. *)
Definition inserted {A} (before after : list A) : list A :=
  skipn (List.length before) after.

(** [COMMIT]: the rows the transaction inserted join the committed
    tables.  The transactions of this server only insert. *)
Definition committing (t : tables) (l : link) : tables :=
  match l with
  | AtWork w =>
      mkTables
        (users t ++ inserted (users (began_on w)) (users (copy w)))
        (companies t ++ inserted (companies (began_on w)) (companies (copy w)))
        (visitors t ++ inserted (visitors (began_on w)) (visitors (copy w)))
        (visits t ++ inserted (visits (began_on w)) (visits (copy w)))
  | _ => t
  end.

(** The tables a connection reads. *)
Definition seen (t : tables) (l : link) : tables :=
  match l with
  | AtWork w => copy w
  | _ => t
  end.

(** The connection after a statement that left its transaction's copy
    of the tables as [t']. *)
Definition at_work (t t' : tables) (l : link) : link :=
  match l with
  | Autocommit => Autocommit
  | Begun => AtWork (mkTransaction t t')
  | AtWork w => AtWork (mkTransaction (began_on w) t')
  end.

(** One call, made on the connection [l] of a server whose committed
    tables are [t] and whose AUTO_INCREMENT counters are [k]; the
    counters are shared by all connections and are not part of a
    transaction.  No call fails for a reason of the server's. *)
Definition perform {B} (c : call B) (t : tables) (k : counters) (l : link)
  : result B * (tables * counters * link) :=
  match c in call B return result B * (tables * counters * link) with
  | BeginTransaction => (Ok tt, (committing t l, k, Begun))
  | Query q => (Ok (q (seen t l)), (t, k, at_work t (seen t l) l))
  | Execute stmt =>
      match stmt (seen t l) k with
      | (Ok (a, t'), k') =>
          (Ok a,
           match l with
           | Autocommit => (t', k', Autocommit)
           | _ => (t, k', at_work t t' l)
           end)
      | (Throw e, k') => (Throw e, (t, k', at_work t (seen t l) l))
      end
  | Commit => (Ok tt, (committing t l, k, Autocommit))
  | Rollback => (Ok tt, (t, k, Autocommit))
  end.

(** A request in flight: its connection's transaction and what is left
    of its handler. *)
Record job := mkJob {
  tx : link;
  todo : script response
}.

(** The server with requests in flight. *)
Record pool := mkPool {
  shared : tables;
  ids : counters;
  jobs : list job
}.

(** The next call of a request. *)
Definition advance (j : job) (t : tables) (k : counters)
  : job * tables * counters :=
  match todo j with
  | Await c h =>
      let '(r, (t', k', tx')) := perform c t k (tx j) in
      (mkJob tx' (h r), t', k')
  | _ => (j, t, k)
  end.

Fixpoint put {A} (i : nat) (x : A) (l : list A) : list A :=
  match l, i with
  | [], _ => []
  | _ :: l', O => x :: l'
  | y :: l', S i' => y :: put i' x l'
  end.

(** The event loop resumes request [i]. *)
Definition step (i : nat) (p : pool) : pool :=
  match nth_error (jobs p) i with
  | Some j =>
      let '(j', t', k') := advance j (shared p) (ids p) in
      mkPool t' k' (put i j' (jobs p))
  | None => p
  end.

(** The requests are resumed in the order [order]. *)
Definition schedule (order : list nat) (p : pool) : pool :=
  fold_left (fun p i => step i p) order p.


(** The responses sent so far. *)
Definition replies (p : pool) : list (option response) :=
  map (fun j => match todo j with
                | Return r => Some r
                | _ => None
                end)
      (jobs p).

(** A request that has the server to itself: its calls follow one
    another with none of another request between them. *)
Fixpoint alone (m : script response) (t : tables) (k : counters)
    (tx : link) : option response * server :=
  match m with
  | Return r => (Some r, mkServer t k)
  | Raise _ => (None, mkServer t k)
  | Await c h =>
      let '(r, (t', k', tx')) := perform c t k tx in
      alone (h r) t' k' tx'
  end.

(* ================================================================== *)
(** ** Checkout *)


Unset Implicit Arguments.

(** Unfolding one run of a handler on a connection. *)
Ltac run_simpl :=
  unfold run, connect, try_catch, bind, query, execute, ret, rollback, commit,
    beginTransaction, external, view, store, tick;
  simpl.


Lemma checkout_update_conn (id now : Z) (t : tables) (k : counters) (n : nat) :
  checkout_update id now (mkConn t None k no_faults n) =
  (Ok (checkout_reply id t),
   mkConn (after_check_out now id t) None k no_faults (S n)).
Proof.
  unfold checkout_update, checkout_reply. run_simpl.
  destruct (0 <? List.length (filter (checkout_hits id) (visits t)))%nat;
    reflexivity.
Qed.

Lemma no_hits_unchanged (now id : Z) (l : list visit) :
  filter (checkout_hits id) l = [] ->
  map (fun v => if checkout_hits id v then set_check_out_time now v else v) l = l.
Proof.
  induction l as [|v l IH]; simpl; intros Hnone.
  - reflexivity.
  - destruct (checkout_hits id v) eqn:Hv.
    + discriminate.
    + rewrite IH by assumption. reflexivity.
Qed.

Lemma hits_found (id : Z) (l : list visit) (v : visit) :
  In v l -> v_id v = id -> v_check_out_time v = None ->
  (0 <? List.length (filter (checkout_hits id) l))%nat = true.
Proof.
  intros Hin Hid Hnull.
  assert (Hf : In v (filter (checkout_hits id) l)).
  { apply filter_In. split; [assumption|].
    unfold checkout_hits. rewrite Hid, Z.eqb_refl, Hnull. reflexivity. }
  destruct (filter (checkout_hits id) l); [destruct Hf | reflexivity].
Qed.

(** Once the UPDATE has run, no row with this id is left for it. *)
Lemma hits_gone (now id : Z) (l : list visit) :
  filter (checkout_hits id)
    (map (fun v => if checkout_hits id v then set_check_out_time now v else v) l)
  = [].
Proof.
  induction l as [|v l IH]; simpl.
  - reflexivity.
  - destruct (checkout_hits id v) eqn:Hv.
    + unfold checkout_hits at 1. simpl.
      rewrite andb_false_r. exact IH.
    + rewrite Hv. exact IH.
Qed.

Lemma visits_by_id_after (now id i : Z) (l : list visit) :
  map v_host_id
    (filter (fun v => v_id v =? i)
       (map (fun v => if checkout_hits id v then set_check_out_time now v else v) l))
  = map v_host_id (filter (fun v => v_id v =? i) l).
Proof.
  induction l as [|v l IH]; simpl.
  - reflexivity.
  - destruct (checkout_hits id v); simpl;
      destruct (v_id v =? i); simpl; rewrite IH; reflexivity.
Qed.


Lemma checkout_run (caller : principal) (id now : Z) (s : server) :
  run (checkout caller id now) no_faults s =
  if passes_gate caller id (db s)
  then (Some (checkout_reply id (db s)),
        mkServer (after_check_out now id (db s)) (seqs s))
  else (Some (json 403 "Hosts can only check out their own visitors."), s).
Proof.
  unfold passes_gate, checkout, run, connect.
  destruct s as [t k]. simpl.
  destruct (p_role caller); try (rewrite checkout_update_conn; reflexivity).
  unfold bind at 1, query, view, tick. simpl.
  destruct (visits_by_id id t) as [|v rest]; [reflexivity|].
  destruct (v_host_id v =? p_id caller); simpl; [|reflexivity].
  rewrite checkout_update_conn. reflexivity.
Qed.

Lemma passes_gate_after (caller : principal) (id i now : Z) (t : tables) :
  passes_gate caller i (after_check_out now id t) = passes_gate caller i t.
Proof.
  unfold passes_gate. destruct (p_role caller); try reflexivity.
  pose proof (visits_by_id_after now id i (visits t)) as Hm.
  unfold visits_by_id, after_check_out. simpl.
  destruct (filter (fun v => v_id v =? i) (visits t)) as [|v rest];
    destruct (filter _ (map _ (visits t))) as [|v' rest'];
    simpl in Hm; try discriminate; try reflexivity.
  injection Hm as Hh _. rewrite Hh. reflexivity.
Qed.

Lemma unknown_id_no_hits (id : Z) (l : list visit) :
  filter (fun v => v_id v =? id) l = [] -> filter (checkout_hits id) l = [].
Proof.
  induction l as [|v l IH]; simpl; intros Hnone.
  - reflexivity.
  - unfold checkout_hits at 1.
    destruct (v_id v =? id); [discriminate|]. simpl. auto.
Qed.

Lemma after_check_out_idle (now id : Z) (t : tables) :
  filter (checkout_hits id) (visits t) = [] -> after_check_out now id t = t.
Proof.
  intros Hnone. unfold after_check_out.
  rewrite no_hits_unchanged by assumption. destruct t; reflexivity.
Qed.

(** A checkout that finds no row to update: 404, and nothing changes. *)
Lemma checkout_no_hits (caller : principal) (id now : Z) (s : server) :
  passes_gate caller id (db s) = true ->
  filter (checkout_hits id) (visits (db s)) = [] ->
  run (checkout caller id now) no_faults s =
  (Some (json 404 "Visit not found or visitor already checked out."), s).
Proof.
  intros Hgate Hnone. rewrite checkout_run, Hgate.
  unfold checkout_reply. rewrite Hnone. simpl.
  rewrite after_check_out_idle by assumption. destruct s; reflexivity.
Qed.

(** C3 (as amended): after a successful checkout of a visit, a second
    attempt on the same visit by the same caller, or by any caller who
    is not a host, finds no row to update: it answers 404 and leaves the
    tables, and so the check-out time already set, as they are.  A
    caller who is not a host gets the same 404 for an unknown visit id;
    a host gets 403 for an unknown visit id. *)
Theorem checkout_twice (s : server) (caller1 caller2 : principal)
    (id now1 now2 : Z) :
  fst (run (checkout caller1 id now1) no_faults s)
  = Some (json 200 "Check-out successful.") ->
  p_role caller2 <> Host \/ caller2 = caller1 ->
  let s1 := snd (run (checkout caller1 id now1) no_faults s) in
  s1 = mkServer (after_check_out now1 id (db s)) (seqs s)
  /\ run (checkout caller2 id now2) no_faults s1
     = (Some (json 404 "Visit not found or visitor already checked out."), s1)
  /\ (forall id', visits_by_id id' (db s1) = [] ->
        run (checkout caller2 id' now2) no_faults s1
        = (Some (if role_eqb (p_role caller2) Host
                 then json 403 "Hosts can only check out their own visitors."
                 else json 404 "Visit not found or visitor already checked out."),
           s1)).
Proof.
  intros Hfirst Hwho s1.
  assert (Hgate1 : passes_gate caller1 id (db s) = true).
  { rewrite checkout_run in Hfirst.
    destruct (passes_gate caller1 id (db s)); [reflexivity|].
    simpl in Hfirst. discriminate. }
  assert (Hs1 : s1 = mkServer (after_check_out now1 id (db s)) (seqs s)).
  { subst s1. rewrite checkout_run, Hgate1. reflexivity. }
  split; [exact Hs1|]. rewrite Hs1. split.
  - apply checkout_no_hits; simpl.
    + rewrite passes_gate_after.
      destruct Hwho as [Hrole | ->]; [|exact Hgate1].
      unfold passes_gate. destruct (p_role caller2); congruence.
    + apply hits_gone.
  - intros id' Hunknown.
    destruct (role_eqb (p_role caller2) Host) eqn:Hrole.
    + rewrite checkout_run. unfold passes_gate.
      destruct (p_role caller2); try discriminate.
      rewrite Hunknown. reflexivity.
    + apply checkout_no_hits.
      * unfold passes_gate. destruct (p_role caller2); try reflexivity.
        discriminate.
      * apply unknown_id_no_hits. exact Hunknown.
Qed.

(** C4: a host who asks to check out a visit whose [host_id] is not the
    host's own id gets 403, and no row changes. *)
Theorem host_checkout_of_foreign_visit (s : server) (caller : principal)
    (id now : Z) (v : visit) (others : list visit) :
  p_role caller = Host ->
  visits_by_id id (db s) = v :: others ->
  v_host_id v <> p_id caller ->
  run (checkout caller id now) no_faults s
  = (Some (json 403 "Hosts can only check out their own visitors."), s).
Proof.
  intros Hrole Hrow Hforeign.
  rewrite checkout_run. unfold passes_gate. rewrite Hrole, Hrow.
  apply Z.eqb_neq in Hforeign. rewrite Hforeign. reflexivity.
Qed.

(** C9: for an admin the handler checks neither company nor ownership:
    any visit that is still open is checked out, whoever its host is.
    The reply is 200, and afterwards the visits table holds the visit
    with [check_out_time] set to the time of the call and every other
    column as it was, and no visit with that id is open any more. *)
Theorem admin_checks_out_any_visit (s : server) (caller : principal)
    (id now : Z) (v : visit) :
  p_role caller = Admin ->
  In v (visits (db s)) -> v_id v = id -> v_check_out_time v = None ->
  run (checkout caller id now) no_faults s
  = (Some (json 200 "Check-out successful."),
     mkServer (after_check_out now id (db s)) (seqs s))
  /\ In (set_check_out_time now v) (visits (after_check_out now id (db s)))
  /\ (let s1 := snd (run (checkout caller id now) no_faults s) in
      (exists v',
          In v' (visits (db s1))
          /\ v_id v' = id
          /\ v_check_out_time v' = Some now
          /\ v_visitor_id v' = v_visitor_id v
          /\ v_host_id v' = v_host_id v
          /\ v_reason v' = v_reason v
          /\ v_itemsCarried v' = v_itemsCarried v
          /\ v_check_in_time v' = v_check_in_time v)
      /\ (forall v', In v' (visits (db s1)) -> v_id v' = id ->
             v_check_out_time v' <> None)).
Proof.
  intros Hrole Hin Hid Hopen.
  assert (Hrun : run (checkout caller id now) no_faults s
                 = (Some (json 200 "Check-out successful."),
                    mkServer (after_check_out now id (db s)) (seqs s))).
  { rewrite checkout_run. unfold passes_gate. rewrite Hrole.
    unfold checkout_reply. rewrite (hits_found _ _ _ Hin Hid Hopen). reflexivity. }
  assert (Hset : In (set_check_out_time now v)
                    (visits (after_check_out now id (db s)))).
  { unfold after_check_out. simpl.
    apply in_map_iff. exists v. split; [|assumption].
    unfold checkout_hits. rewrite Hid, Z.eqb_refl, Hopen. reflexivity. }
  split; [exact Hrun|]. split; [exact Hset|].
  rewrite Hrun. cbn [snd db]. split.
  - exists (set_check_out_time now v). split; [exact Hset|].
    repeat split. exact Hid.
  - intros v' Hv' Hid'. unfold after_check_out in Hv'. simpl in Hv'.
    apply in_map_iff in Hv'. destruct Hv' as (w & Hw & _).
    destruct (checkout_hits id w) eqn:Hhit.
    + subst v'. discriminate.
    + subst v'. unfold checkout_hits in Hhit. rewrite Hid', Z.eqb_refl in Hhit.
      simpl in Hhit. destruct (v_check_out_time w); [discriminate | discriminate].
Qed.

(** Bob checks Alice out twice: 200, then 404 with nothing changed. *)
Lemma checkout_twice_witness :
  let s1 := snd (run (checkout Sample.as_bob 1 200) no_faults Sample.s1) in
  s1 = mkServer (after_check_out 200 1 (db Sample.s1)) (seqs Sample.s1)
  /\ run (checkout Sample.as_bob 1 300) no_faults s1
     = (Some (json 404 "Visit not found or visitor already checked out."), s1)
  /\ (forall id', visits_by_id id' (db s1) = [] ->
        run (checkout Sample.as_bob id' 300) no_faults s1
        = (Some (if role_eqb (p_role Sample.as_bob) Host
                 then json 403 "Hosts can only check out their own visitors."
                 else json 404 "Visit not found or visitor already checked out."),
           s1)).
Proof.
  apply (checkout_twice Sample.s1 Sample.as_bob Sample.as_bob 1 200 300).
  - reflexivity.
  - right. reflexivity.
Defined.

(** The claim as stated fails for a host: Bob's second checkout of his
    own visit 1 answers 404, but for the unknown visit id 99 Bob gets
    403, so the two cases are told apart. *)
Lemma checkout_unknown_id_differs_for_host :
  fst (run (checkout Sample.as_bob 1 200) no_faults Sample.s1)
  = Some (json 200 "Check-out successful.")
  /\ snd (run (checkout Sample.as_bob 1 200) no_faults Sample.s1) = Sample.s2
  /\ fst (run (checkout Sample.as_bob 1 300) no_faults Sample.s2)
     = Some (json 404 "Visit not found or visitor already checked out.")
  /\ visits_by_id 99 (db Sample.s2) = []
  /\ fst (run (checkout Sample.as_bob 99 300) no_faults Sample.s2)
     = Some (json 403 "Hosts can only check out their own visitors.")
  /\ fst (run (checkout Sample.as_bob 1 300) no_faults Sample.s2)
     <> fst (run (checkout Sample.as_bob 99 300) no_faults Sample.s2).
Proof.
  repeat split; try reflexivity.
  vm_compute. discriminate.
Qed.

(** Gina (Globex) asks to check out Alice's visit to Bob (Acme). *)
Lemma host_checkout_of_foreign_visit_witness :
  run (checkout Sample.as_gina 1 200) no_faults Sample.s1
  = (Some (json 403 "Hosts can only check out their own visitors."), Sample.s1).
Proof.
  apply (host_checkout_of_foreign_visit Sample.s1 Sample.as_gina 1 200
           (mkVisit 1 1 2 "meeting" None 100 None) []).
  - reflexivity.
  - reflexivity.
  - simpl. lia.
Defined.

(** Ann, an admin of Acme, checks out Alice's visit to Gina of Globex. *)
Lemma admin_checks_out_any_visit_witness :
  run (checkout Sample.as_ann 2 300) no_faults Sample.s3
  = (Some (json 200 "Check-out successful."),
     mkServer (after_check_out 300 2 (db Sample.s3)) (seqs Sample.s3))
  /\ In (mkVisit 2 2 3 "audit" None 150 (Some 300))
        (visits (db (snd (run (checkout Sample.as_ann 2 300) no_faults
                            Sample.s3))))
  /\ (forall v',
        In v' (visits (db (snd (run (checkout Sample.as_ann 2 300) no_faults
                                  Sample.s3)))) ->
        v_id v' = 2 -> v_check_out_time v' <> None).
Proof.
  destruct (admin_checks_out_any_visit Sample.s3 Sample.as_ann 2 300
              (mkVisit 2 2 3 "audit" None 150 None)
              eq_refl (or_intror (or_introl eq_refl)) eq_refl eq_refl)
    as (Hrun & _ & _ & Hclosed).
  split; [exact Hrun|]. split; [|exact Hclosed].
  right. left. reflexivity.
Defined.

(* ================================================================== *)
(** ** Login *)

(** The reply of a login whose email and password match the row [u]. *)
Lemma login_run `{Platform} (s : server) (email password : option string)
    (u : user) (others : list user) :
  users_by_email email (db s) = u :: others ->
  strict_eq (u_password u) password = true ->
  run (login email password) no_faults s =
  (Some (if negb (role_eqb (u_role u) Host) && negb (u_is_verified u)
         then json 403 "Please verify your email address before logging in."
         else mkResponse 200
                (Session (mkPrincipal (u_id u) (u_role u)) (u_id u)
                   (u_name u) (u_email u) (u_role u)
                   (or_null (u_company_name u)))),
   s).
Proof.
  intros Hrow Hpw. unfold login. run_simpl. rewrite Hrow, Hpw. simpl.
  destruct (negb (role_eqb (u_role u) Host) && negb (u_is_verified u));
    destruct s; reflexivity.
Qed.

(** C10: once email and password match, a host gets a token whatever
    [is_verified] says, and a user of another role who is not verified
    gets 403 and no token. *)
Theorem login_verification_gate `{Platform} (s : server)
    (email password : option string) (u : user) (others : list user) :
  users_by_email email (db s) = u :: others ->
  strict_eq (u_password u) password = true ->
  (u_role u = Host ->
   fst (run (login email password) no_faults s)
   = Some (mkResponse 200
             (Session (mkPrincipal (u_id u) Host) (u_id u) (u_name u)
                (u_email u) Host (or_null (u_company_name u)))))
  /\ (u_role u <> Host -> u_is_verified u = false ->
      fst (run (login email password) no_faults s)
      = Some (json 403 "Please verify your email address before logging in.")).
Proof.
  intros Hrow Hpw.
  rewrite (login_run s email password u others Hrow Hpw). simpl.
  split.
  - intros Hhost. rewrite Hhost. reflexivity.
  - intros Hother Hunverified. rewrite Hunverified.
    destruct (u_role u); try reflexivity. contradiction.
Qed.

(** Bob, a host who never verified his address, logs in. *)
Lemma login_verification_gate_witness :
  (u_role Sample.bob = Host ->
   fst (run (login (H := ascii_platform) (Some "bob@acme.com") (Some "secret"))
            no_faults Sample.s0)
   = Some (mkResponse 200
             (Session (mkPrincipal 2 Host) 2 "Bob" "bob@acme.com" Host
                (Some "Acme"))))
  /\ (u_role Sample.bob <> Host -> u_is_verified Sample.bob = false ->
      fst (run (login (H := ascii_platform) (Some "bob@acme.com") (Some "secret"))
               no_faults Sample.s0)
      = Some (json 403 "Please verify your email address before logging in.")).
Proof.
  apply (login_verification_gate (H := ascii_platform) Sample.s0
           (Some "bob@acme.com") (Some "secret") Sample.bob []).
  - reflexivity.
  - reflexivity.
Defined.

(* ================================================================== *)
(** ** Check-in: resolving the host *)

Lemma hosts_by_name_sound `{Platform} (hostName company : option string)
    (t : tables) (h : user) (hs : list user) :
  hosts_by_name hostName company t = h :: hs ->
  In h (users t)
  /\ sql_eq (Some (u_name h)) hostName = true
  /\ u_role h = Host
  /\ sql_eq (u_company_name h) company = true.
Proof.
  intros Hrows.
  assert (Hin : In h (hosts_by_name hostName company t))
    by (rewrite Hrows; left; reflexivity).
  apply filter_In in Hin. destruct Hin as [Hin Hcond].
  apply andb_prop in Hcond. destruct Hcond as [Hcond Hcompany].
  apply andb_prop in Hcond. destruct Hcond as [Hname Hrole].
  repeat split; try assumption.
  destruct (u_role h); try discriminate. reflexivity.
Qed.




(* ================================================================== *)
(** ** Check-in: the transaction *)

Lemma counters_le_refl (k : counters) : counters_le k k.
Proof. unfold counters_le. lia. Qed.

Lemma counters_le_trans (k1 k2 k3 : counters) :
  counters_le k1 k2 -> counters_le k2 k3 -> counters_le k1 k3.
Proof. unfold counters_le. lia. Qed.

(** Resolving the host reads only: it ends with the transaction as it
    found it, or rolled back when it answers early. *)
Lemma resolve_host_tx `{Platform} (caller : principal) (hn : option string)
    (t w : tables) (k : counters) (f : nat -> bool) (n : nat) :
  let run1 := resolve_host caller hn (mkConn t (Some w) k f n) in
  committed (snd run1) = t /\ autoinc (snd run1) = k /\ faults (snd run1) = f
  /\ match fst run1 with
     | Ok (inl early) => pending (snd run1) = None /\ status early <> 201
     | Ok (inr _) => pending (snd run1) = Some w
     | Throw _ => True
     end.
Proof.
  unfold resolve_host.
  destruct (p_role caller); run_simpl.
  - destruct (f n); simpl; [auto|].
    destruct (users_by_id (p_id caller) w) as [|a rest]; simpl;
      [repeat split; lia|].
    destruct (falsy (u_company_name a)); simpl; [repeat split; lia|].
    destruct (f (S n)); simpl; [auto|].
    destruct (hosts_by_name hn (u_company_name a) w); simpl;
      repeat split; lia.
  - destruct (f n); simpl; [auto|].
    destruct (users_by_id (p_id caller) w) as [|u rest]; simpl;
      [repeat split; lia|].
    destruct hn as [hn|]; simpl; [|auto].
    destruct (toLowerCase (u_name u) =? toLowerCase hn)%string; simpl;
      repeat split; lia.
  - repeat split; lia.
Qed.

(** What the rest of the transaction can do, whatever fails: it throws
    with nothing committed, or it answers with the transaction closed,
    having committed either nothing or the visitor row and the visit row
    together. *)
Lemma checkin_for_host_tx `{Platform} (b : checkin_body) (now hid : Z)
    (t w : tables) (k : counters) (f : nat -> bool) (n : nat) :
  let run1 := checkin_for_host b now hid (mkConn t (Some w) k f n) in
  counters_le k (autoinc (snd run1))
  /\ match fst run1 with
     | Throw _ => committed (snd run1) = t
     | Ok resp =>
         pending (snd run1) = None
         /\ ((committed (snd run1) = t /\ status resp <> 201)
             \/ (exists hc rest,
                    users_by_id hid w = hc :: rest
                    /\ active_visits (b_email b) (u_company_name hc) w = []
                    /\ resp = mkResponse 201 (CheckedIn (next_visit k))
                    /\ checked_in b now hid (mkServer w k) (committed (snd run1))
                    /\ autoinc (snd run1)
                       = mkCounters (next_user k) (next_visitor k + 1)
                                    (next_visit k + 1)))
     end.
Proof.
  unfold checkin_for_host. run_simpl.
  destruct (f n); simpl; [split; [apply counters_le_refl | reflexivity]|].
  destruct (users_by_id hid w) as [|hc rest] eqn:Hhost; simpl.
  { split; [apply counters_le_refl|]. split; [reflexivity|].
    left. split; [reflexivity | lia]. }
  destruct (f (S n)); simpl; [split; [apply counters_le_refl | reflexivity]|].
  destruct (active_visits (b_email b) (u_company_name hc) w) as [|x xs]
    eqn:Hactive; simpl.
  2:{ split; [apply counters_le_refl|]. split; [reflexivity|].
      left. split; [reflexivity | lia]. }
  destruct (f (S (S n))); simpl; [split; [apply counters_le_refl | reflexivity]|].
  unfold insert_visitor.
  destruct (b_name b) as [nm|] eqn:Hname; simpl;
    [|split; [apply counters_le_refl | reflexivity]].
  destruct (b_email b) as [e|] eqn:Hemail; simpl;
    [|split; [apply counters_le_refl | reflexivity]].
  destruct (f (S (S (S n)))); simpl.
  { split; [unfold counters_le; simpl; lia | reflexivity]. }
  unfold insert_visit.
  destruct (b_reason b) as [r|] eqn:Hreason; simpl.
  2:{ split; [unfold counters_le; simpl; lia | reflexivity]. }
  match goal with |- context [if ?c then _ else _] => destruct c end; simpl.
  2:{ split; [unfold counters_le; simpl; lia | reflexivity]. }
  destruct (f (S (S (S (S n))))); simpl.
  { split; [unfold counters_le; simpl; lia | reflexivity]. }
  split; [unfold counters_le; simpl; lia|].
  split; [reflexivity|]. right.
  exists hc, rest. repeat split; try reflexivity; try assumption.
  exists nm, e, r. simpl. repeat split; try assumption; reflexivity.
Qed.

(** Every run of the check-in handler, whatever fails and wherever. *)
Lemma checkin_cases `{Platform} (caller : principal) (b : checkin_body)
    (now : Z) (f : nat -> bool) (s : server) :
  let run1 := checkin caller b now (connect s f) in
  pending (snd run1) = None
  /\ counters_le (seqs s) (autoinc (snd run1))
  /\ exists resp,
       fst run1 = Ok resp
       /\ ((committed (snd run1) = db s /\ status resp <> 201)
           \/ (exists hid hc rest,
                  users_by_id hid (db s) = hc :: rest
                  /\ active_visits (b_email b) (u_company_name hc) (db s) = []
                  /\ resp = mkResponse 201 (CheckedIn (next_visit (seqs s)))
                  /\ checked_in b now hid s (committed (snd run1))
                  /\ autoinc (snd run1)
                     = mkCounters (next_user (seqs s)) (next_visitor (seqs s) + 1)
                                  (next_visit (seqs s) + 1))).
Proof.
  unfold checkin. destruct s as [t k].
  destruct (missing_fields b).
  { simpl. split; [reflexivity|]. split; [apply counters_le_refl|].
    eexists. split; [reflexivity|]. left. simpl. split; [reflexivity | lia]. }
  unfold try_catch, bind, beginTransaction, connect, view. simpl.
  destruct (f 0%nat); simpl.
  { split; [reflexivity|]. split; [apply counters_le_refl|].
    eexists. split; [reflexivity|]. left. simpl. split; [reflexivity | lia]. }
  pose proof (resolve_host_tx caller (b_hostName b) t t k f 1) as Hres.
  simpl in Hres.
  destruct (resolve_host caller (b_hostName b) (mkConn t (Some t) k f 1))
    as [r c1].
  simpl in Hres. destruct Hres as (Hc & Hk & Hf & Hp).
  destruct r as [[early | hid] | e].
  - (* answered while resolving the host *)
    simpl. destruct Hp as [Hp Hst].
    split; [assumption|]. rewrite Hk. split; [apply counters_le_refl|].
    exists early. split; [reflexivity|]. left. split; assumption.
  - (* the host is known *)
    destruct c1 as [t1 p1 k1 f1 n1]. simpl in Hc, Hk, Hf, Hp. subst.
    pose proof (checkin_for_host_tx b now hid t t k f n1) as Hrun.
    simpl in Hrun.
    destruct (checkin_for_host b now hid (mkConn t (Some t) k f n1))
      as [r2 c2].
    simpl in Hrun. destruct Hrun as [Hle Hrun].
    destruct r2 as [resp | e].
    + simpl. destruct Hrun as [Hp2 Hrun].
      split; [assumption|]. split; [assumption|].
      exists resp. split; [reflexivity|].
      destruct Hrun as [Hsame | Hdone]; [left; exact Hsame|].
      right. exists hid. exact Hdone.
    + unfold rollback, ret. simpl.
      split; [reflexivity|]. split; [assumption|].
      eexists. split; [reflexivity|]. left. simpl. split; [assumption | lia].
  - simpl. split; [reflexivity|]. rewrite Hk. split; [apply counters_le_refl|].
    eexists. split; [reflexivity|]. left. simpl. split; [assumption | lia].
Qed.

(** C2: whatever fails and wherever, the check-in handler returns with
    its transaction closed and a response sent, and the committed tables
    are either the tables it found (and the response is not 201) or
    those tables with exactly one new visitor row and one new visit row
    that refers to it (and the response is 201 with the new visit id);
    a visitor row without its visit row is never committed. *)
Theorem checkin_atomic `{Platform} (caller : principal) (b : checkin_body)
    (now : Z) (f : nat -> bool) (s : server) :
  let run1 := checkin caller b now (connect s f) in
  pending (snd run1) = None
  /\ exists resp,
       fst run1 = Ok resp
       /\ ((status resp <> 201 /\ committed (snd run1) = db s)
           \/ (exists host_id,
                  resp = mkResponse 201 (CheckedIn (next_visit (seqs s)))
                  /\ checked_in b now host_id s (committed (snd run1)))).
Proof.
  destruct (checkin_cases caller b now f s) as (Hclosed & _ & resp & Hresp & Hcases).
  split; [exact Hclosed|].
  exists resp. split; [exact Hresp|].
  destruct Hcases as [[Hsame Hstatus] | (hid & hc & rest & _ & _ & H201 & Hin & _)].
  - left. split; assumption.
  - right. exists hid. split; assumption.
Qed.

(** A check-in without a reason: the visitor row is inserted, the visit
    row is refused ([reason] is NOT NULL), and the rollback takes the
    visitor row away again; only the counter keeps the trace. *)
Lemma checkin_without_reason_rolls_back :
  run (checkin (H := ascii_platform) Sample.as_bob (Sample.alice "bob" None) 100)
      no_faults Sample.s0
  = (Some (json 500 "Database transaction failed."),
     mkServer (db Sample.s0) (mkCounters 5 2 1)).
Proof. reflexivity. Qed.

Lemma present (o : option string) :
  falsy o = false -> exists x, o = Some x.
Proof.
  destruct o as [x|]; simpl; intros Hpresent; [exists x; reflexivity | discriminate].
Qed.

Lemma users_by_id_found (id : Z) (t : tables) (u : user) (rest : list user) :
  users_by_id id t = u :: rest -> In u (users t) /\ u_id u = id.
Proof.
  intros Hrows.
  assert (Hin : In u (users_by_id id t)) by (rewrite Hrows; left; reflexivity).
  apply filter_In in Hin. destruct Hin as [Hin Hid].
  apply Z.eqb_eq in Hid. split; assumption.
Qed.

(** With no fault, a known host and no active visit, the rest of the
    transaction commits both rows. *)
Lemma checkin_for_host_ok `{Platform} (b : checkin_body) (now hid : Z)
    (t w : tables) (k : counters) (n : nat) (hc : user) (rest : list user)
    (nm e r : string) :
  users_by_id hid w = hc :: rest ->
  active_visits (b_email b) (u_company_name hc) w = [] ->
  b_name b = Some nm -> b_email b = Some e -> b_reason b = Some r ->
  checkin_for_host b now hid (mkConn t (Some w) k no_faults n)
  = (Ok (mkResponse 201 (CheckedIn (next_visit k))),
     mkConn
       (mkTables (users w) (companies w)
          (visitors w
           ++ [mkVisitor (next_visitor k) nm e (b_phone b) (b_designation b)
                 (b_company b) (b_companyTel b) (b_website b) (b_address b)
                 (b_photo b) (b_idCardPhoto b) (b_idCardNumber b)])
          (visits w
           ++ [mkVisit (next_visit k) (next_visitor k) hid r (b_itemsCarried b)
                 now None]))
       None
       (mkCounters (next_user k) (next_visitor k + 1) (next_visit k + 1))
       no_faults (S (S (S (S (S n)))))).
Proof.
  intros Hhost Hactive Hname Hemail Hreason.
  unfold checkin_for_host. run_simpl.
  rewrite Hhost. simpl. rewrite Hactive. simpl.
  unfold insert_visitor. rewrite Hname, Hemail. simpl.
  unfold insert_visit. rewrite Hreason. simpl.
  rewrite existsb_app. simpl. rewrite Z.eqb_refl, orb_true_r. simpl.
  destruct (users_by_id_found _ _ _ _ Hhost) as [Hin Hid].
  assert (Hfk : existsb (fun u => u_id u =? hid) (users w) = true).
  { apply existsb_exists. exists hc. split; [assumption|].
    apply Z.eqb_eq. assumption. }
  rewrite Hfk. reflexivity.
Qed.

(** With no fault, a known host and an active visit, the request is
    answered 409 and the transaction is rolled back. *)
Lemma checkin_for_host_conflict `{Platform} (b : checkin_body) (now hid : Z)
    (t w : tables) (k : counters) (n : nat) (hc : user) (rest : list user) :
  users_by_id hid w = hc :: rest ->
  active_visits (b_email b) (u_company_name hc) w <> [] ->
  checkin_for_host b now hid (mkConn t (Some w) k no_faults n)
  = (Ok (json 409 ("This visitor is already checked in to "
                   ++ js_string (u_company_name hc)
                   ++ " and has not checked out yet. Please check out first before checking in again to the same company.")),
     mkConn t None k no_faults (S (S n))).
Proof.
  intros Hhost Hactive.
  unfold checkin_for_host. run_simpl.
  rewrite Hhost. simpl.
  destruct (active_visits (b_email b) (u_company_name hc) w);
    [contradiction | reflexivity].
Qed.

(** The handler up to the point where the host is known. *)
Lemma checkin_with_host `{Platform} (caller : principal) (b : checkin_body)
    (now hid : Z) (s : server) :
  missing_fields b = false ->
  fst (resolve_host caller (b_hostName b) (in_transaction s no_faults))
  = Ok (inr hid) ->
  exists n,
    checkin caller b now (connect s no_faults)
    = try_catch (checkin_for_host b now hid)
        (fun _ => rollback ;;; ret (json 500 "Database transaction failed."))
        (mkConn (db s) (Some (db s)) (seqs s) no_faults n).
Proof.
  intros Hfields Hres. unfold checkin. rewrite Hfields.
  pose proof (resolve_host_tx caller (b_hostName b) (db s) (db s) (seqs s)
                no_faults 1) as Htx.
  unfold in_transaction in Hres.
  unfold try_catch, bind, beginTransaction, connect, view. simpl.
  simpl in Htx.
  destruct (resolve_host caller (b_hostName b)
              (mkConn (db s) (Some (db s)) (seqs s) no_faults 1)) as [r c1].
  simpl in Hres, Htx. subst r.
  destruct Htx as (Hc & Hk & Hf & Hp).
  destruct c1 as [t1 p1 k1 f1 n1]. simpl in Hc, Hk, Hf, Hp. subst.
  exists n1. reflexivity.
Qed.

Lemma filter_none {A} (p : A -> bool) (l : list A) :
  (forall x, In x l -> p x = false) -> filter p l = [].
Proof.
  induction l as [|x l IH]; simpl; intros Hall.
  - reflexivity.
  - rewrite (Hall x (or_introl eq_refl)). apply IH.
    intros y Hy. apply Hall. right. assumption.
Qed.

(** The run of a check-in that passes every check. *)
Lemma checkin_succeeds `{Platform} (s : server) (caller : principal)
    (b : checkin_body) (now hid : Z) (hc : user) (rest : list user)
    (r : string) :
  missing_fields b = false ->
  b_reason b = Some r ->
  fst (resolve_host caller (b_hostName b) (in_transaction s no_faults))
  = Ok (inr hid) ->
  users_by_id hid (db s) = hc :: rest ->
  active_visits (b_email b) (u_company_name hc) (db s) = [] ->
  exists nm e,
    b_name b = Some nm /\ b_email b = Some e
    /\ run (checkin caller b now) no_faults s
       = (Some (mkResponse 201 (CheckedIn (next_visit (seqs s)))),
          mkServer
            (mkTables (users (db s)) (companies (db s))
               (visitors (db s)
                ++ [mkVisitor (next_visitor (seqs s)) nm e (b_phone b)
                      (b_designation b) (b_company b) (b_companyTel b)
                      (b_website b) (b_address b) (b_photo b)
                      (b_idCardPhoto b) (b_idCardNumber b)])
               (visits (db s)
                ++ [mkVisit (next_visit (seqs s)) (next_visitor (seqs s)) hid r
                      (b_itemsCarried b) now None]))
            (mkCounters (next_user (seqs s)) (next_visitor (seqs s) + 1)
               (next_visit (seqs s) + 1))).
Proof.
  intros Hfields Hreason Hres Hhost Hactive.
  assert (Hf := Hfields). unfold missing_fields in Hf.
  apply orb_false_elim in Hf. destruct Hf as [Hf _].
  apply orb_false_elim in Hf. destruct Hf as [Hf _].
  apply orb_false_elim in Hf. destruct Hf as [Hname Hemail].
  destruct (present _ Hname) as [nm Hnm].
  destruct (present _ Hemail) as [e He].
  exists nm, e. split; [assumption|]. split; [assumption|].
  destruct (checkin_with_host caller b now hid s Hfields Hres) as [n Hrun].
  unfold run. rewrite Hrun. unfold try_catch.
  rewrite (checkin_for_host_ok b now hid (db s) (db s) (seqs s) n hc rest nm e r
             Hhost Hactive Hnm He Hreason).
  reflexivity.
Qed.

(** C5: a check-in is refused only for an active visit at the company of
    the host it is addressed to.  When every active visit of the
    visitor's email is with hosts of other companies, the check-in gets
    201. *)
Theorem checkin_at_other_company `{Platform} (s : server) (caller : principal)
    (b : checkin_body) (now hid : Z) (hc : user) (rest : list user)
    (r : string) :
  missing_fields b = false ->
  b_reason b = Some r ->
  fst (resolve_host caller (b_hostName b) (in_transaction s no_faults))
  = Ok (inr hid) ->
  users_by_id hid (db s) = hc :: rest ->
  (forall v vis h,
      In (v, vis, h) (visits_joined (db s)) ->
      sql_eq (Some (vis_email vis)) (b_email b) = true ->
      v_check_out_time v = None ->
      sql_eq (u_company_name h) (u_company_name hc) = false) ->
  fst (run (checkin caller b now) no_faults s)
  = Some (mkResponse 201 (CheckedIn (next_visit (seqs s)))).
Proof.
  intros Hfields Hreason Hres Hhost Helsewhere.
  assert (Hactive : active_visits (b_email b) (u_company_name hc) (db s) = []).
  { unfold active_visits. rewrite filter_none; [reflexivity|].
    intros [[v vis] h] Hin.
    destruct (sql_eq (Some (vis_email vis)) (b_email b)) eqn:Hmail;
      [|reflexivity].
    destruct (v_check_out_time v) eqn:Hout; [reflexivity|].
    rewrite (Helsewhere v vis h Hin Hmail Hout). reflexivity. }
  destruct (checkin_succeeds s caller b now hid hc rest r
              Hfields Hreason Hres Hhost Hactive) as (nm & e & _ & _ & Hrun).
  rewrite Hrun. reflexivity.
Qed.

(** Alice is checked in with Bob of Acme; Gina of Globex checks her in. *)
Lemma checkin_at_other_company_witness :
  active_visits (H := ascii_platform) (Some "alice@x.com") (Some "Acme")
    (db Sample.s1) = [1]
  /\ fst (run (checkin (H := ascii_platform) Sample.as_gina
                 (Sample.alice "Gina" (Some "audit")) 150)
              no_faults Sample.s1)
     = Some (mkResponse 201 (CheckedIn 2)).
Proof.
  split; [reflexivity|].
  apply (checkin_at_other_company (H := ascii_platform) Sample.s1
           Sample.as_gina (Sample.alice "Gina" (Some "audit")) 150 3
           Sample.gina [] "audit").
  - reflexivity.
  - reflexivity.
  - reflexivity.
  - reflexivity.
  - intros v vis h Hin Hmail Hout. simpl in Hin.
    destruct Hin as [Hin | []]. inversion Hin. reflexivity.
Defined.

(** C8: the handler never reuses or changes a visitor row: whatever
    happens, the visitors table it leaves is the one it found, or that
    table with one row appended, made of the submitted fields under the
    next id.  And a check-in that passes the checks does append that row
    and gets 201, whether or not a row with the same email exists. *)
Theorem checkin_inserts_new_visitor `{Platform} (s : server)
    (caller : principal) (b : checkin_body) (now : Z) :
  (forall f,
      let after := committed (snd (checkin caller b now (connect s f))) in
      visitors after = visitors (db s)
      \/ exists nm e,
           b_name b = Some nm /\ b_email b = Some e
           /\ visitors after
              = (visitors (db s)
                 ++ [mkVisitor (next_visitor (seqs s)) nm e (b_phone b)
                       (b_designation b) (b_company b) (b_companyTel b)
                       (b_website b) (b_address b) (b_photo b)
                       (b_idCardPhoto b) (b_idCardNumber b)])%list)
  /\ (forall hid hc rest r,
        missing_fields b = false ->
        b_reason b = Some r ->
        fst (resolve_host caller (b_hostName b) (in_transaction s no_faults))
        = Ok (inr hid) ->
        users_by_id hid (db s) = hc :: rest ->
        active_visits (b_email b) (u_company_name hc) (db s) = [] ->
        exists nm e,
          b_name b = Some nm /\ b_email b = Some e
          /\ fst (run (checkin caller b now) no_faults s)
             = Some (mkResponse 201 (CheckedIn (next_visit (seqs s))))
          /\ visitors (db (snd (run (checkin caller b now) no_faults s)))
             = (visitors (db s)
                ++ [mkVisitor (next_visitor (seqs s)) nm e (b_phone b)
                      (b_designation b) (b_company b) (b_companyTel b)
                      (b_website b) (b_address b) (b_photo b)
                      (b_idCardPhoto b) (b_idCardNumber b)])%list).
Proof.
  split.
  - intros f after. subst after.
    destruct (checkin_cases caller b now f s) as (_ & _ & resp & _ & Hcases).
    destruct Hcases as [[Hsame _] | (hid & hc & rest & _ & _ & _ & Hin & _)].
    + left. rewrite Hsame. reflexivity.
    + right. destruct Hin as (nm & e & r & Hnm & He & _ & Hafter).
      exists nm, e. rewrite Hafter. repeat split; assumption.
  - intros hid hc rest r Hfields Hreason Hres Hhost Hactive.
    destruct (checkin_succeeds s caller b now hid hc rest r
                Hfields Hreason Hres Hhost Hactive) as (nm & e & Hnm & He & Hrun).
    exists nm, e. rewrite Hrun. repeat split; assumption.
Qed.

(** Alice has checked out; she checks in with Bob again and gets a
    second visitor row with the same email. *)
Lemma checkin_inserts_new_visitor_witness :
  map vis_email (visitors (db Sample.s2)) = ["alice@x.com"]
  /\ exists nm e,
       b_name (Sample.alice "Bob" (Some "follow-up")) = Some nm
       /\ b_email (Sample.alice "Bob" (Some "follow-up")) = Some e
       /\ fst (run (checkin (H := ascii_platform) Sample.as_ann
                      (Sample.alice "Bob" (Some "follow-up")) 500)
                   no_faults Sample.s2)
          = Some (mkResponse 201 (CheckedIn 2))
       /\ visitors (db (snd (run (checkin (H := ascii_platform) Sample.as_ann
                                    (Sample.alice "Bob" (Some "follow-up")) 500)
                                 no_faults Sample.s2)))
          = (visitors (db Sample.s2)
             ++ [mkVisitor 2 nm e None None None None None None None None
                   (Some "ID-1")])%list.
Proof.
  split; [reflexivity|].
  apply (proj2 (checkin_inserts_new_visitor (H := ascii_platform) Sample.s2
                  Sample.as_ann (Sample.alice "Bob" (Some "follow-up")) 500)
           2 Sample.bob [] "follow-up");
    reflexivity.
Defined.

(* ================================================================== *)
(** ** The invariant is kept by every request *)


Lemma existsb_ext_in {A} (p q : A -> bool) (l : list A) :
  (forall x, In x l -> p x = q x) -> existsb p l = existsb q l.
Proof.
  induction l as [|x l IH]; simpl; intros Hsame.
  - reflexivity.
  - rewrite (Hsame x (or_introl eq_refl)). f_equal.
    apply IH. intros y Hy. apply Hsame. right. assumption.
Qed.

Lemma filter_ext_in' {A} (p q : A -> bool) (l : list A) :
  (forall x, In x l -> p x = q x) -> filter p l = filter q l.
Proof.
  induction l as [|x l IH]; simpl; intros Hsame.
  - reflexivity.
  - rewrite (Hsame x (or_introl eq_refl)).
    rewrite IH; [reflexivity|]. intros y Hy. apply Hsame. right. assumption.
Qed.

(** A visit's status does not depend on rows it does not point to. *)
Lemma active_at_frame `{Platform} (E C : string) (t t' : tables) (v : visit) :
  existsb (fun vis => (v_visitor_id v =? vis_id vis) && str_eq (vis_email vis) E)
          (visitors t')
  = existsb (fun vis => (v_visitor_id v =? vis_id vis) && str_eq (vis_email vis) E)
            (visitors t) ->
  existsb (fun h => (v_host_id v =? u_id h) && sql_eq (u_company_name h) (Some C))
          (users t')
  = existsb (fun h => (v_host_id v =? u_id h) && sql_eq (u_company_name h) (Some C))
            (users t) ->
  active_at E C t' v = active_at E C t v.
Proof.
  intros Hvis Hhost. unfold active_at. rewrite Hvis, Hhost. reflexivity.
Qed.

Lemma existsb_snoc_other {A} (p : A -> bool) (l : list A) (x : A) :
  p x = false -> existsb p (l ++ [x]) = existsb p l.
Proof.
  intros Hx. rewrite existsb_app. simpl. rewrite Hx.
  rewrite orb_false_r. reflexivity.
Qed.

Lemma visits_joined_in (t : tables) (v : visit) (vis : visitor) (h : user) :
  In (v, vis, h) (visits_joined t) <->
  In v (visits t) /\ In vis (visitors t) /\ In h (users t)
  /\ v_visitor_id v = vis_id vis /\ v_host_id v = u_id h.
Proof.
  unfold visits_joined. rewrite in_flat_map. split.
  - intros (v' & Hv & Hin). apply in_flat_map in Hin.
    destruct Hin as (vis' & Hvis & Hin).
    destruct (v_visitor_id v' =? vis_id vis') eqn:Hk1; [|destruct Hin].
    apply in_flat_map in Hin. destruct Hin as (h' & Hh & Hin).
    destruct (v_host_id v' =? u_id h') eqn:Hk2; [|destruct Hin].
    destruct Hin as [Heq | []]. inversion Heq; subst.
    apply Z.eqb_eq in Hk1, Hk2. repeat split; assumption.
  - intros (Hv & Hvis & Hh & Hk1 & Hk2).
    exists v. split; [assumption|]. apply in_flat_map.
    exists vis. split; [assumption|].
    apply Z.eqb_eq in Hk1. rewrite Hk1. apply in_flat_map.
    exists h. split; [assumption|].
    apply Z.eqb_eq in Hk2. rewrite Hk2. left. reflexivity.
Qed.

(** The handler's query finds every visit that is active at [C] for [E],
    whichever equivalent spelling of the email and the company it is
    asked with. *)
Lemma active_visits_complete `{Platform} (E C e : string) (company : option string)
    (t : tables) (v : visit) :
  In v (visits t) -> active_at E C t v = true ->
  str_eq e E = true -> sql_eq company (Some C) = true ->
  active_visits (Some e) company t <> [].
Proof.
  intros Hv Hactive He Hc.
  unfold active_at in Hactive.
  apply andb_prop in Hactive. destruct Hactive as [Hactive Hhost].
  apply andb_prop in Hactive. destruct Hactive as [Hopen Hvisitor].
  apply existsb_exists in Hvisitor. destruct Hvisitor as (vis & Hvis & Hcv).
  apply existsb_exists in Hhost. destruct Hhost as (h & Hh & Hch).
  apply andb_prop in Hcv. destruct Hcv as [Hk1 Hmail].
  apply andb_prop in Hch. destruct Hch as [Hk2 Hco].
  apply Z.eqb_eq in Hk1, Hk2.
  assert (Hin : In (v_id v) (active_visits (Some e) company t)).
  { unfold active_visits. apply in_map_iff. exists (v, vis, h).
    split; [reflexivity|]. apply filter_In. split.
    - apply visits_joined_in. repeat split; assumption.
    - rewrite Hopen. simpl.
      assert (Hm : str_eq (vis_email vis) e = true).
      { apply str_eq_trans with E; [assumption|]. apply str_eq_sym. assumption. }
      rewrite Hm. simpl.
      destruct (u_company_name h) as [c1|]; [|discriminate].
      destruct company as [c2|]; [|discriminate]. simpl in *.
      apply str_eq_trans with C; [assumption|]. apply str_eq_sym. assumption. }
  intros Hnone. rewrite Hnone in Hin. destruct Hin.
Qed.

Lemma users_by_id_unique (t : tables) (id : Z) (u h : user) (rest : list user) :
  NoDup (map u_id (users t)) ->
  users_by_id id t = u :: rest -> In h (users t) -> u_id h = id -> h = u.
Proof.
  unfold users_by_id. intros Hnd Hrows Hin Hid. subst id.
  revert Hnd Hrows Hin. generalize (users t) as l.
  induction l as [|x l IH]; simpl; intros Hnd Hrows Hin.
  - destruct Hin.
  - inversion Hnd as [|? ? Hnotin Hnd']; subst.
    destruct (u_id x =? u_id h) eqn:Hx.
    + injection Hrows as Hu _. subst x.
      destruct Hin as [Heq | Hin]; [symmetry; assumption|].
      exfalso. apply Hnotin. apply Z.eqb_eq in Hx. rewrite Hx.
      apply in_map. assumption.
    + destruct Hin as [Heq | Hin].
      * subst x. rewrite Z.eqb_refl in Hx. discriminate.
      * apply IH; assumption.
Qed.

(** Committing a check-in that passed the duplicate check keeps the
    invariant. *)
Lemma checked_in_invariant `{Platform} (s : server) (b : checkin_body)
    (now hid : Z) (hc : user) (rest : list user) (t' : tables) :
  invariant s ->
  users_by_id hid (db s) = hc :: rest ->
  active_visits (b_email b) (u_company_name hc) (db s) = [] ->
  checked_in b now hid s t' ->
  invariant (mkServer t' (mkCounters (next_user (seqs s))
                            (next_visitor (seqs s) + 1)
                            (next_visit (seqs s) + 1))).
Proof.
  intros [[Hnd Hub Hvb Hvsb] Hone] Hhost Hactive (nm & e & r & Hnm & He & Hr & ->).
  destruct (users_by_id_found _ _ _ _ Hhost) as [Hhc Hhid].
  assert (Hold : forall E C v, In v (visits (db s)) ->
            active_at E C
              (mkTables (users (db s)) (companies (db s))
                 (visitors (db s)
                  ++ [mkVisitor (next_visitor (seqs s)) nm e (b_phone b)
                        (b_designation b) (b_company b) (b_companyTel b)
                        (b_website b) (b_address b) (b_photo b)
                        (b_idCardPhoto b) (b_idCardNumber b)])
                 (visits (db s)
                  ++ [mkVisit (next_visit (seqs s)) (next_visitor (seqs s)) hid r
                        (b_itemsCarried b) now None])) v
            = active_at E C (db s) v).
  { intros E C v Hv. apply active_at_frame; simpl; [|reflexivity].
    apply existsb_snoc_other. simpl.
    rewrite Forall_forall in Hvsb. destruct (Hvsb v Hv) as [_ Hlt].
    assert (Hne : (v_visitor_id v =? next_visitor (seqs s)) = false)
      by (apply Z.eqb_neq; lia).
    rewrite Hne. reflexivity. }
  split.
  - (* keys *)
    split; simpl.
    + assumption.
    + assumption.
    + apply Forall_app. split.
      * eapply Forall_impl; [|exact Hvb]. simpl. intros; lia.
      * constructor; [simpl; lia | constructor].
    + apply Forall_app. split.
      * eapply Forall_impl; [|exact Hvsb]. simpl. intros; lia.
      * constructor; [|constructor]. simpl.
        rewrite Forall_forall in Hub. specialize (Hub hc Hhc). lia.
  - (* at most one active visit *)
    intros E C. unfold active_for. simpl.
    rewrite filter_app.
    rewrite (filter_ext_in' _ (active_at E C (db s)) (visits (db s)))
      by (intros v Hv; apply Hold; assumption).
    simpl.
    match goal with |- context [if ?c then _ else _] => destruct c eqn:Hnew end.
    2:{ rewrite app_nil_r. apply Hone. }
    (* the new visit is active for (E, C): no old visit was *)
    assert (Hnone : active_for E C (db s) = []).
    { destruct (active_for E C (db s)) as [|v vs] eqn:Hact; [reflexivity|].
      exfalso.
      assert (Hv : In v (active_for E C (db s))) by (rewrite Hact; left; reflexivity).
      apply filter_In in Hv. destruct Hv as [Hv Hva].
      unfold active_at in Hnew. simpl in Hnew.
      apply andb_prop in Hnew. destruct Hnew as [Hnv Hnh].
      apply existsb_exists in Hnv. destruct Hnv as (vis & Hvis & Hcv).
      apply existsb_exists in Hnh. destruct Hnh as (h & Hh & Hch).
      apply andb_prop in Hcv. destruct Hcv as [Hk1 Hmail].
      apply andb_prop in Hch. destruct Hch as [Hk2 Hco].
      apply Z.eqb_eq in Hk1, Hk2.
      (* the visitor row is the new one *)
      apply in_app_or in Hvis. destruct Hvis as [Hvis | [Hvis | []]].
      { rewrite Forall_forall in Hvb. specialize (Hvb vis Hvis). lia. }
      subst vis. simpl in Hmail.
      (* the host row is the one the handler read *)
      assert (h = hc) by (eapply users_by_id_unique; eauto). subst h.
      rewrite He in Hactive.
      exact (active_visits_complete E C e (u_company_name hc) (db s) v
               Hv Hva Hmail Hco Hactive). }
    unfold active_for in Hnone. rewrite Hnone. simpl. lia.
Qed.



Ltac no_inner_match x :=
  lazymatch x with
  | context [match _ with _ => _ end] => fail
  | _ => idtac
  end.

Ltac break_run :=
  repeat (simpl;
          match goal with
          | |- context [match ?x with _ => _ end] => no_inner_match x; destruct x eqn:?
          end);
  simpl.

Ltac close_step :=
  first [ apply step_idle; unfold counters_le; simpl; lia
        | apply step_user; reflexivity
        | apply step_verify ].

Lemma register_step `{Platform} (caller : principal) (b : register_body)
    (f : nat -> bool) (s : server) :
  users_step s (snd (run (register caller b) f s)).
Proof.
  destruct s as [t k].
  unfold register, insert_user, insert_company. run_simpl.
  break_run; close_step.
Qed.

Lemma registerCompany_step `{Platform} (b : register_body)
    (f : nat -> bool) (s : server) :
  users_step s (snd (run (registerCompany b) f s)).
Proof.
  destruct s as [t k].
  unfold registerCompany, insert_user, insert_company. run_simpl.
  break_run; close_step.
Qed.

Lemma verifyEmail_step (token : token_param) (f : nat -> bool) (s : server) :
  users_step s (snd (run (verifyEmail token) f s)).
Proof.
  destruct s as [t k].
  unfold verifyEmail, update_verified. run_simpl.
  break_run; close_step.
Qed.

Lemma login_step `{Platform} (email password : option string)
    (f : nat -> bool) (s : server) :
  users_step s (snd (run (login email password) f s)).
Proof.
  destruct s as [t k]. unfold login. run_simpl.
  break_run; close_step.
Qed.

Lemma getVisits_step `{Platform} (caller : principal) (q : visit_filters)
    (f : nat -> bool) (s : server) :
  users_step s (snd (run (getVisits caller q) f s)).
Proof.
  destruct s as [t k]. unfold getVisits. run_simpl.
  break_run; close_step.
Qed.

Lemma getHostVisits_step (caller : principal) (f : nat -> bool) (s : server) :
  users_step s (snd (run (getHostVisits caller) f s)).
Proof.
  destruct s as [t k]. unfold getHostVisits. run_simpl.
  break_run; close_step.
Qed.

Lemma NoDup_snoc {A} (l : list A) (x : A) :
  NoDup l -> ~ In x l -> NoDup (l ++ [x]).
Proof.
  induction l as [|y l IH]; simpl; intros Hnd Hx.
  - constructor; [intros [] | constructor].
  - inversion Hnd as [|? ? Hy Hnd']; subst. constructor.
    + intros Hin. apply in_app_or in Hin. destruct Hin as [Hin | [Hin | []]].
      * contradiction.
      * apply Hx. left. symmetry. assumption.
    + apply IH; [assumption|]. intros Hin. apply Hx. right. assumption.
Qed.

Lemma existsb_map {A B} (p : B -> bool) (g : A -> B) (l : list A) :
  existsb p (map g l) = existsb (fun x => p (g x)) l.
Proof.
  induction l as [|x l IH]; simpl; [reflexivity | rewrite IH; reflexivity].
Qed.

Lemma keys_ok_counters (t : tables) (k k' : counters) :
  counters_le k k' -> keys_ok (mkServer t k) -> keys_ok (mkServer t k').
Proof.
  unfold counters_le. intros (Hu & Hv & _) [Hnd Hub Hvb Hvsb]. simpl in *.
  split; simpl.
  - assumption.
  - eapply Forall_impl; [|exact Hub]. simpl. intros; lia.
  - eapply Forall_impl; [|exact Hvb]. simpl. intros; lia.
  - eapply Forall_impl; [|exact Hvsb]. simpl. intros; lia.
Qed.

(** Requests that touch users only keep the invariant. *)
Lemma users_step_invariant `{Platform} (s s' : server) :
  users_step s s' -> invariant s -> invariant s'.
Proof.
  intros Hstep [Hkeys Hone].
  destruct Hstep as [k' Hle | u cs Hid | id].
  - split; simpl.
    + apply keys_ok_counters with (seqs s); [assumption|].
      destruct s; assumption.
    + exact Hone.
  - destruct Hkeys as [Hnd Hub Hvb Hvsb]. split.
    + split; simpl.
      * rewrite map_app. simpl. apply NoDup_snoc; [assumption|].
        intros Hin. apply in_map_iff in Hin. destruct Hin as (x & Hx & Hin).
        rewrite Forall_forall in Hub. specialize (Hub x Hin). lia.
      * apply Forall_app. split.
        -- eapply Forall_impl; [|exact Hub]. simpl. intros; lia.
        -- constructor; [lia | constructor].
      * assumption.
      * eapply Forall_impl; [|exact Hvsb]. simpl. intros; lia.
    + intros E C. unfold active_for. simpl.
      rewrite (filter_ext_in' _ (active_at E C (db s)) (visits (db s))).
      * apply Hone.
      * intros v Hv. apply active_at_frame; simpl; [reflexivity|].
        apply existsb_snoc_other.
        rewrite Forall_forall in Hvsb. destruct (Hvsb v Hv) as [Hlt _].
        assert (Hne : (v_host_id v =? u_id u) = false)
          by (apply Z.eqb_neq; lia).
        rewrite Hne. reflexivity.
  - destruct Hkeys as [Hnd Hub Hvb Hvsb]. split.
    + split; simpl.
      * rewrite map_map.
        rewrite (map_ext _ u_id); [assumption|].
        intros u. destruct (u_id u =? id); reflexivity.
      * apply Forall_map. eapply Forall_impl; [|exact Hub].
        intros u Hu. destruct (u_id u =? id); assumption.
      * assumption.
      * assumption.
    + intros E C. unfold active_for. simpl.
      rewrite (filter_ext_in' _ (active_at E C (db s)) (visits (db s))).
      * apply Hone.
      * intros v Hv. apply active_at_frame; simpl; [reflexivity|].
        rewrite existsb_map. apply existsb_ext_in.
        intros u _. destruct (u_id u =? id); reflexivity.
Qed.

Lemma checkout_cases (caller : principal) (id now : Z) (f : nat -> bool)
    (s : server) :
  snd (run (checkout caller id now) f s) = s
  \/ snd (run (checkout caller id now) f s)
     = mkServer (after_check_out now id (db s)) (seqs s).
Proof.
  destruct s as [t k].
  unfold checkout, checkout_update, update_check_out, after_check_out. run_simpl.
  break_run; auto.
Qed.

Lemma filter_map_shrinks {A} (p q : A -> bool) (g : A -> A) (l : list A) :
  (forall x, q (g x) = true -> p x = true) ->
  (List.length (filter q (map g l)) <= List.length (filter p l))%nat.
Proof.
  intros Hqp. induction l as [|x l IH]; simpl.
  - lia.
  - destruct (q (g x)) eqn:Hq.
    + rewrite (Hqp x Hq). simpl. lia.
    + destruct (p x); simpl; lia.
Qed.

(** A checkout only closes visits: the invariant is kept. *)
Lemma after_check_out_invariant `{Platform} (now id : Z) (s : server) :
  invariant s -> invariant (mkServer (after_check_out now id (db s)) (seqs s)).
Proof.
  intros [[Hnd Hub Hvb Hvsb] Hone]. split.
  - split; simpl; try assumption.
    apply Forall_map. eapply Forall_impl; [|exact Hvsb].
    intros v Hv. destruct (checkout_hits id v); assumption.
  - intros E C. unfold active_for. simpl.
    eapply Nat.le_trans; [|apply (Hone E C)].
    apply filter_map_shrinks. intros v.
    destruct (checkout_hits id v).
    + unfold active_at. simpl. discriminate.
    + intros Hv. exact Hv.
Qed.

(** No handler returns with a transaction open, so the next request
    finds the connection as [connect] gives it. *)
Lemma handler_closes `{Platform} (r : request) (f : nat -> bool) (s : server) :
  pending (snd (handler r (connect s f))) = None.
Proof.
  destruct r as [caller b | b | token | email password | caller b now
                | caller q | caller | caller id now]; simpl.
  - unfold register, insert_user, insert_company. run_simpl.
    break_run; reflexivity.
  - unfold registerCompany, insert_user, insert_company. run_simpl.
    break_run; reflexivity.
  - unfold verifyEmail, update_verified. run_simpl. break_run; reflexivity.
  - unfold login. run_simpl. break_run; reflexivity.
  - apply (checkin_cases caller b now f s).
  - unfold getVisits. run_simpl. break_run; reflexivity.
  - unfold getHostVisits. run_simpl. break_run; reflexivity.
  - unfold checkout, checkout_update, update_check_out. run_simpl.
    break_run; reflexivity.
Qed.

(** Every request keeps the invariant, whatever fails while it is
    served. *)
Lemma serve_invariant `{Platform} (r : request) (f : nat -> bool) (s : server) :
  invariant s -> invariant (snd (serve r f s)).
Proof.
  intros Hinv. unfold serve.
  destruct r as [caller b | b | token | email password | caller b now
                | caller q | caller | caller id now]; simpl.
  - eapply users_step_invariant; [apply register_step | assumption].
  - eapply users_step_invariant; [apply registerCompany_step | assumption].
  - eapply users_step_invariant; [apply verifyEmail_step | assumption].
  - eapply users_step_invariant; [apply login_step | assumption].
  - destruct (checkin_cases caller b now f s)
      as (_ & Hle & resp & _ & Hcases).
    unfold run.
    destruct (checkin caller b now (connect s f)) as [res c]. simpl in *.
    destruct Hcases as [[Hsame _] | (hid & hc & rest & Hhost & Hactive & _ & Hin & Hk)].
    + rewrite Hsame. eapply users_step_invariant; [|exact Hinv].
      apply step_idle. assumption.
    + rewrite Hk. eapply checked_in_invariant; eassumption.
  - eapply users_step_invariant; [apply getVisits_step | assumption].
  - eapply users_step_invariant; [apply getHostVisits_step | assumption].
  - destruct (checkout_cases caller id now f s) as [Hsame | Hout];
      [rewrite Hsame | rewrite Hout].
    + assumption.
    + apply after_check_out_invariant. assumption.
Qed.

Lemma installed_invariant `{Platform} (s : server) :
  installed s -> invariant s.
Proof.
  intros [Hkeys Hnone]. split; [assumption|].
  intros E C. unfold active_for. rewrite Hnone. simpl. lia.
Qed.

Lemma reachable_invariant `{Platform} (s0 s : server) :
  installed s0 -> reachable s0 s -> invariant s.
Proof.
  intros Hstart Hreach. induction Hreach as [|s r f Hreach IH].
  - apply installed_invariant. assumption.
  - apply serve_invariant. assumption.
Qed.


Lemma sample_installed : installed Sample.s0.
Proof.
  split; [|reflexivity].
  split; simpl.
  - repeat constructor; simpl; intuition discriminate.
  - repeat constructor; simpl; lia.
  - constructor.
  - constructor.
Defined.


(* ================================================================== *)
(** ** Check-ins in flight together *)

Lemma inserted_none {A} (l : list A) : inserted l l = [].
Proof. unfold inserted. apply skipn_all. Qed.

Lemma inserted_one {A} (l : list A) (x : A) : inserted l (l ++ [x]) = [x].
Proof.
  unfold inserted. induction l as [|y l IH]; [reflexivity | exact IH].
Qed.

(** The rest of a check-in's transaction with the server to itself. *)
Lemma checkin_for_host_alone `{Platform} (b : checkin_body) (now hid : Z)
    (t : tables) (k : counters) (n : nat) :
  alone (attempt (checkin_for_host_script b now hid)
           (fun _ =>
              await Rollback ~;;
              Return (json 500 "Database transaction failed.")))
        t k (AtWork (mkTransaction t t))
  = (let '(r, c) := checkin_for_host b now hid (mkConn t (Some t) k no_faults n) in
     (Some match r with
           | Ok resp => resp
           | Throw _ => json 500 "Database transaction failed."
           end,
      mkServer (committed c) (autoinc c))).
Proof.
  unfold checkin_for_host_script, checkin_for_host, insert_visitor, insert_visit.
  run_simpl.
  destruct (users_by_id hid t) as [|hc rest]; simpl; [reflexivity|].
  destruct (0 <? List.length (active_visits (b_email b) (u_company_name hc) t))%nat;
    simpl; [reflexivity|].
  destruct (b_name b) as [nm|]; simpl; [|reflexivity].
  destruct (b_email b) as [e|]; simpl; [|reflexivity].
  destruct (b_reason b) as [r|]; simpl; [|reflexivity].
  destruct (existsb (fun vis => vis_id vis =? next_visitor k) _
            && existsb (fun u => u_id u =? hid) (users t)); simpl;
    [|reflexivity].
  unfold committing, inserted. simpl.
  rewrite !skipn_all, !app_nil_r.
  rewrite !skipn_app, !skipn_all, !Nat.sub_diag. simpl.
  destruct t; reflexivity.
Qed.

(** A check-in that has the server to itself is the check-in of the
    handler served in one piece. *)
Lemma checkin_alone `{Platform} (caller : principal) (b : checkin_body)
    (now : Z) (s : server) :
  alone (checkin_script caller b now) (db s) (seqs s) Autocommit
  = run (checkin caller b now) no_faults s.
Proof.
  destruct s as [t k].
  unfold checkin_script, checkin, resolve_host_script, resolve_host.
  destruct (missing_fields b); [reflexivity|].
  remember (checkin_for_host_script b now) as rest_script eqn:Hscript.
  remember (checkin_for_host b now) as rest_run eqn:Hrun.
  run_simpl.
  destruct (p_role caller); simpl.
  - destruct (users_by_id (p_id caller) t) as [|a rest]; simpl;
      [reflexivity|].
    destruct (falsy (u_company_name a)); simpl; [reflexivity|].
    destruct (hosts_by_name (b_hostName b) (u_company_name a) t)
      as [|h hs]; simpl; [reflexivity|].
    subst rest_script rest_run.
    rewrite (checkin_for_host_alone b now (u_id h) t k 3).
    destruct (checkin_for_host b now (u_id h) (mkConn t (Some t) k no_faults 3))
      as [[resp|e] c]; reflexivity.
  - destruct (users_by_id (p_id caller) t) as [|u rest]; simpl;
      [reflexivity|].
    destruct (b_hostName b) as [hn|]; simpl; [|reflexivity].
    destruct (toLowerCase (u_name u) =? toLowerCase hn)%string; simpl;
      [|reflexivity].
    subst rest_script rest_run.
    rewrite (checkin_for_host_alone b now (p_id caller) t k 2).
    destruct (checkin_for_host b now (p_id caller)
                (mkConn t (Some t) k no_faults 2))
      as [[resp|e] c]; reflexivity.
  - reflexivity.
Qed.

(** Having the server to itself is being the only request the event
    loop resumes. *)
Lemma alone_schedule (m : script response) (t : tables) (k : counters)
    (w : link) :
  exists n,
    let p := schedule (repeat 0%nat n) (mkPool t k [mkJob w m]) in
    replies p = [fst (alone m t k w)]
    /\ mkServer (shared p) (ids p) = snd (alone m t k w).
Proof.
  revert t k w. induction m as [r | e | B c h IH]; intros t k w.
  - exists 0%nat. split; reflexivity.
  - exists 0%nat. split; reflexivity.
  - destruct (perform c t k w) as [r [[t' k'] w']] eqn:Hcall.
    destruct (IH r t' k' w') as [n Hn].
    assert (Hstep : step 0 (mkPool t k [mkJob w (Await c h)])
                    = mkPool t' k' [mkJob w' (h r)]).
    { unfold step, advance. cbn [jobs nth_error shared ids todo tx].
      rewrite Hcall. reflexivity. }
    exists (S n). unfold schedule in *. cbn [repeat fold_left alone].
    rewrite Hstep, Hcall.
    exact Hn.
Qed.


(* ================================================================== *)
(** ** The visit listings *)


Lemma like_percent `{Platform} (s : string) : like "%" s = true.
Proof.
  induction s as [|c s IH]; simpl; [reflexivity|].
  simpl in IH. exact IH.
Qed.

Lemma like_plain_prefix `{Platform} (x s : string) :
  plain x = true -> like (x ++ "%") s = matches_at x s.
Proof.
  revert s. induction x as [|a x IH]; intros s Hplain.
  - rewrite like_percent. destruct s; reflexivity.
  - simpl in Hplain. apply andb_prop in Hplain. destruct Hplain as [Ha Hx].
    unfold wildcard in Ha. apply negb_true_iff in Ha.
    apply orb_false_elim in Ha. destruct Ha as [Ha Hback].
    apply orb_false_elim in Ha. destruct Ha as [Hpct Hund].
    simpl. rewrite Hpct, Hund, Hback.
    destruct s as [|b s]; [reflexivity|].
    rewrite IH by assumption. reflexivity.
Qed.

(** A pattern [%x%] whose text has no wildcard selects the names that
    contain [x]. *)
Lemma like_contains `{Platform} (x s : string) :
  plain x = true -> like ("%" ++ x ++ "%") s = contains x s.
Proof.
  intros Hplain. simpl.
  induction s as [|c s IH]; simpl.
  - rewrite like_plain_prefix by assumption. rewrite orb_false_r. reflexivity.
  - rewrite like_plain_prefix by assumption. rewrite IH. reflexivity.
Qed.

Lemma insert_desc_perm (r : visit_row) (l : list visit_row) :
  Permutation (insert_desc r l) (r :: l).
Proof.
  induction l as [|x l IH]; simpl.
  - apply Permutation_refl.
  - destruct (r_check_in_time x <=? r_check_in_time r).
    + apply Permutation_refl.
    + eapply Permutation_trans; [apply perm_skip; exact IH | apply perm_swap].
Qed.

Lemma order_by_perm (l : list visit_row) :
  Permutation (order_by_check_in_desc l) l.
Proof.
  induction l as [|r l IH]; simpl.
  - apply Permutation_refl.
  - eapply Permutation_trans; [apply insert_desc_perm|].
    apply perm_skip. exact IH.
Qed.

Lemma insert_desc_sorted (r : visit_row) (l : list visit_row) :
  StronglySorted newer_first l -> StronglySorted newer_first (insert_desc r l).
Proof.
  induction l as [|x l IH]; simpl; intros Hs.
  - constructor; constructor.
  - inversion Hs as [|? ? Hl Hx]; subst.
    destruct (r_check_in_time x <=? r_check_in_time r) eqn:Hle.
    + apply Z.leb_le in Hle. constructor; [assumption|].
      constructor; [exact Hle|].
      eapply Forall_impl; [|exact Hx].
      unfold newer_first. intros y Hy. lia.
    + apply Z.leb_gt in Hle. constructor; [apply IH; assumption|].
      apply Forall_forall. intros y Hy.
      apply (Permutation_in _ (insert_desc_perm r l)) in Hy.
      destruct Hy as [<- | Hy].
      * unfold newer_first. lia.
      * rewrite Forall_forall in Hx. apply Hx. assumption.
Qed.

Lemma order_by_sorted (l : list visit_row) :
  StronglySorted newer_first (order_by_check_in_desc l).
Proof.
  induction l as [|r l IH]; simpl.
  - constructor.
  - apply insert_desc_sorted. exact IH.
Qed.

Lemma order_by_in (l : list visit_row) (r : visit_row) :
  In r (order_by_check_in_desc l) <-> In r l.
Proof.
  split; apply Permutation_in;
    [apply order_by_perm | apply Permutation_sym, order_by_perm].
Qed.


Lemma name_filter `{Platform} (o : option string) (name : string) :
  (forall x, o = Some x -> plain x = true) ->
  (if falsy o then true else like ("%" ++ js_string o ++ "%") name) = true
  <-> (forall x, o = Some x -> x <> "" -> contains x name = true).
Proof.
  intros Hplain. destruct o as [x|]; unfold falsy, js_string.
  - destruct (String.eqb_spec x "") as [-> | Hne].
    + split; [|reflexivity]. intros _ y Hy Hne. injection Hy as <-.
      contradiction.
    + rewrite (like_contains x name (Hplain x eq_refl)).
      split.
      * intros Hc y Hy _. injection Hy as <-. exact Hc.
      * intros Hc. apply (Hc x eq_refl Hne).
  - split; [|reflexivity]. intros _ x Hx. discriminate.
Qed.

Lemma admin_where_selected `{Platform} (company : option string)
    (q : visit_filters) (j : visit * visitor * user) :
  (forall x, q_hostName q = Some x -> plain x = true) ->
  (forall x, q_visitorName q = Some x -> plain x = true) ->
  admin_where company q j = true <-> selected company q j.
Proof.
  intros Hh Hv. destruct j as [[v vis] h]. unfold admin_where, selected.
  rewrite !andb_true_iff.
  rewrite (name_filter (q_hostName q) (u_name h) Hh).
  rewrite (name_filter (q_visitorName q) (vis_name vis) Hv).
  assert (Hid : match q_hostId q with
                | Some hostId => v_host_id v =? hostId
                | None => true
                end = true
                <-> (forall hostId, q_hostId q = Some hostId -> v_host_id v = hostId)).
  { destruct (q_hostId q) as [i|].
    - rewrite Z.eqb_eq. split.
      + intros Hi k Hk. injection Hk as <-. exact Hi.
      + intros Hi. apply Hi. reflexivity.
    - split; [intros _ k Hk; discriminate | reflexivity]. }
  assert (Hs : match q_startDate q with
               | Some startDate => startDate <=? DATE (v_check_in_time v)
               | None => true
               end = true
               <-> (forall day, q_startDate q = Some day ->
                    day <= DATE (v_check_in_time v))).
  { destruct (q_startDate q) as [d|].
    - rewrite Z.leb_le. split.
      + intros Hd k Hk. injection Hk as <-. exact Hd.
      + intros Hd. apply Hd. reflexivity.
    - split; [intros _ k Hk; discriminate | reflexivity]. }
  assert (He : match q_endDate q with
               | Some endDate => DATE (v_check_in_time v) <=? endDate
               | None => true
               end = true
               <-> (forall day, q_endDate q = Some day ->
                    DATE (v_check_in_time v) <= day)).
  { destruct (q_endDate q) as [d|].
    - rewrite Z.leb_le. split.
      + intros Hd k Hk. injection Hk as <-. exact Hd.
      + intros Hd. apply Hd. reflexivity.
    - split; [intros _ k Hk; discriminate | reflexivity]. }
  rewrite Hid, Hs, He. tauto.
Qed.

(** C7 (as amended): for an admin whose [company_name] is set, and
    filter texts without [LIKE] wildcards, the listing holds exactly the
    rows of the joined visits whose host is of the admin's company and
    which pass every supplied filter, each once, later check-ins first;
    an admin with no row or no [company_name] gets 400; a host gets
    exactly the joined visits whose [host_id] is the host's own id,
    later check-ins first. *)
Theorem visit_listings `{Platform} (s : server) (caller : principal)
    (q : visit_filters) :
  (p_role caller = Admin ->
   match users_by_id (p_id caller) (db s) with
   | a :: _ =>
       (falsy (u_company_name a) = false ->
        (forall x, q_hostName q = Some x -> plain x = true) ->
        (forall x, q_visitorName q = Some x -> plain x = true) ->
        exists rows,
          run (getVisits caller q) no_faults s
          = (Some (mkResponse 200 (VisitList rows)), s)
          /\ (forall r, In r rows <->
                exists j, In j (visits_joined (db s))
                          /\ selected (u_company_name a) q j
                          /\ r = project true j)
          /\ NoDup rows
          /\ StronglySorted newer_first rows)
       /\ (falsy (u_company_name a) = true ->
           run (getVisits caller q) no_faults s
           = (Some (json 400 "Admin company information not found."), s))
   | [] =>
       run (getVisits caller q) no_faults s
       = (Some (json 400 "Admin company information not found."), s)
   end)
  /\ (p_role caller = Host ->
      exists rows,
        run (getHostVisits caller) no_faults s
        = (Some (mkResponse 200 (VisitList rows)), s)
        /\ (forall r, In r rows <->
              exists j, In j (visits_joined (db s))
                        /\ v_host_id (fst (fst j)) = p_id caller
                        /\ r = project false j)
        /\ StronglySorted newer_first rows).
Proof.
  destruct s as [t k]. split.
  - intros Hrole. unfold getVisits. rewrite Hrole. run_simpl.
    destruct (users_by_id (p_id caller) t) as [|a rest]; [reflexivity|].
    split.
    + intros Hco Hh Hv. rewrite Hco.
      eexists. split; [reflexivity|]. split; [|split].
      * intros r. unfold select_admin_visits.
        rewrite order_by_in, nodup_In, in_map_iff. split.
        -- intros (j & Hr & Hj). apply filter_In in Hj. destruct Hj as [Hj Hw].
           exists j. split; [assumption|]. split; [|symmetry; assumption].
           apply admin_where_selected; assumption.
        -- intros (j & Hj & Hsel & Hr). exists j. split; [symmetry; assumption|].
           apply filter_In. split; [assumption|].
           apply admin_where_selected; assumption.
      * eapply Permutation_NoDup;
          [apply Permutation_sym, order_by_perm | apply NoDup_nodup].
      * apply order_by_sorted.
    + intros Hco. rewrite Hco. reflexivity.
  - intros Hrole. unfold getHostVisits. rewrite Hrole. run_simpl.
    eexists. split; [reflexivity|]. split.
    + intros r. unfold select_host_visits.
      rewrite order_by_in, in_map_iff. split.
      * intros (j & Hr & Hj). apply filter_In in Hj. destruct Hj as [Hj Hw].
        exists j. split; [assumption|]. split; [|symmetry; assumption].
        apply Z.eqb_eq. assumption.
      * intros (j & Hj & Hid & Hr). exists j. split; [symmetry; assumption|].
        apply filter_In. split; [assumption|]. apply Z.eqb_eq. assumption.
    + apply order_by_sorted.
Qed.

(** Ann lists the visits of Acme whose host name contains "Bo". *)
Lemma visit_listings_witness :
  exists rows,
    run (getVisits (H := ascii_platform) Sample.as_ann
           (mkFilters None None None (Some "Bo") None))
        no_faults Sample.s3
    = (Some (mkResponse 200 (VisitList rows)), Sample.s3)
    /\ NoDup rows
    /\ StronglySorted newer_first rows.
Proof.
  pose proof (proj1 (visit_listings (H := ascii_platform) Sample.s3
                       Sample.as_ann (mkFilters None None None (Some "Bo") None))
                eq_refl) as Hadmin.
  simpl in Hadmin. destruct Hadmin as [Hset _].
  destruct (Hset eq_refl) as (rows & Hrun & _ & Hnodup & Hsorted).
  - intros x Hx. injection Hx as <-. reflexivity.
  - intros x Hx. discriminate.
  - exists rows. repeat split; assumption.
Defined.

(** The claim as stated fails in two places.  A host-name filter is a
    [LIKE] pattern, not a text to look for: Ann's filter "_" selects the
    visit to Bob, whose name has no underscore.  And an admin with no
    [company_name] gets no listing at all: Nico is answered 400. *)
Lemma listing_is_not_by_substring :
  fst (run (getVisits (H := ascii_platform) Sample.as_ann
              (mkFilters None None None (Some "_") None))
           no_faults Sample.s1)
  = Some (mkResponse 200
            (VisitList
               [mkRow 1 "meeting" None 100 None 1 "Alice" "alice@x.com" None
                  None None None None (Some "ID-1") 2 "Bob" (Some "Acme")]))
  /\ contains (H := ascii_platform) "_" "Bob" = false
  /\ p_role Sample.as_nico = Admin
  /\ fst (run (getVisits (H := ascii_platform) Sample.as_nico
                 (mkFilters None None None None None))
              no_faults Sample.s1)
     = Some (json 400 "Admin company information not found.").
Proof. repeat split. Qed.

(* ================================================================== *)
(** ** The authentication middleware *)

Lemma append_empty (s : string) : s ++ "" = s.
Proof. induction s as [|a s IH]; simpl; [reflexivity | rewrite IH; reflexivity]. Qed.

Lemma append_assoc (a b c : string) : (a ++ b) ++ c = a ++ (b ++ c).
Proof. induction a as [|x a IH]; simpl; [reflexivity | rewrite IH; reflexivity]. Qed.

Lemma split_whole (c : ascii) (s : string) :
  without c s = true -> split c s = [s].
Proof.
  induction s as [|a s IH]; simpl; intros Hs.
  - reflexivity.
  - apply andb_prop in Hs. destruct Hs as [Ha Hs].
    apply negb_true_iff in Ha. rewrite Ha, (IH Hs). reflexivity.
Qed.

Lemma split_first (c : ascii) (a b : string) :
  without c a = true -> split c (a ++ String c b) = a :: split c b.
Proof.
  induction a as [|x a IH]; simpl; intros Ha.
  - rewrite Ascii.eqb_refl. reflexivity.
  - apply andb_prop in Ha. destruct Ha as [Hx Ha].
    apply negb_true_iff in Hx. rewrite Hx, (IH Ha). reflexivity.
Qed.

(** The second word of a header is its token, whatever the first is. *)
Lemma header_token_second (scheme tok rest : string) :
  without " " scheme = true -> without " " tok = true -> word_end rest ->
  header_token (Some (scheme ++ " " ++ tok ++ rest)) = Some tok.
Proof.
  intros Hscheme Htok Hrest. unfold header_token.
  change (scheme ++ " " ++ tok ++ rest) with (scheme ++ String " " (tok ++ rest)).
  rewrite (split_first " " scheme (tok ++ rest) Hscheme).
  destruct rest as [|c rest]; simpl in Hrest.
  - rewrite append_empty, (split_whole " " tok Htok). reflexivity.
  - subst c. rewrite (split_first " " tok rest Htok). reflexivity.
Qed.

(** X1: the middleware takes the second space-separated word of the
    [Authorization] header as the token and never looks at the first:
    with any scheme word, a token that [jwt.verify] accepts lets the
    handler run as the token's user, and one it refuses is answered
    403. *)
Theorem token_scheme_ignored (verify : string -> option principal)
    (next : principal -> M response) (scheme tok rest : string) :
  without " " scheme = true -> without " " tok = true -> tok <> "" ->
  word_end rest ->
  authenticateToken verify (Some (scheme ++ " " ++ tok ++ rest)) next
  = match verify tok with
    | None => ret (json 403 "Invalid or expired token.")
    | Some user => next user
    end.
Proof.
  intros Hscheme Htok Hne Hrest. unfold authenticateToken.
  rewrite (header_token_second scheme tok rest Hscheme Htok Hrest). simpl.
  apply String.eqb_neq in Hne. rewrite Hne. reflexivity.
Qed.

Lemma token_scheme_ignored_witness :
  authenticateToken (fun t => if (t =? "abc")%string
                              then Some Sample.as_bob else None)
    (Some ("Basic" ++ " " ++ "abc" ++ ""))
    (fun user => checkout user 1 200)
  = checkout Sample.as_bob 1 200.
Proof.
  apply (token_scheme_ignored
           (fun t => if (t =? "abc")%string then Some Sample.as_bob else None)
           (fun user => checkout user 1 200) "Basic" "abc" "").
  - reflexivity.
  - reflexivity.
  - discriminate.
  - exact I.
Defined.

(** X2: a request with no [Authorization] header, with a header of one
    word, or with nothing (or a second space) right after the first
    word's space is answered 401: the token is not verified and the
    handler does not run. *)
Theorem token_missing (verify : string -> option principal)
    (next : principal -> M response) (authHeader : option string) :
  authHeader = None
  \/ (exists h, authHeader = Some h /\ without " " h = true)
  \/ (exists scheme rest,
        authHeader = Some (scheme ++ " " ++ rest)
        /\ without " " scheme = true /\ word_end rest) ->
  authenticateToken verify authHeader next
  = ret (json 401 "Access token required.").
Proof.
  intros [-> | [(h & -> & Hh) | (scheme & rest & -> & Hscheme & Hrest)]];
    unfold authenticateToken, header_token.
  - reflexivity.
  - rewrite (split_whole " " h Hh). reflexivity.
  - change (scheme ++ " " ++ rest) with (scheme ++ String " " rest).
    rewrite (split_first " " scheme rest Hscheme).
    destruct rest as [|c rest]; simpl in Hrest.
    + reflexivity.
    + subst c. reflexivity.
Qed.

Lemma token_missing_witness :
  authenticateToken (fun _ => Some Sample.as_ann) (Some ("Bearer" ++ " " ++ " abc"))
    (fun user => checkout user 1 200)
  = ret (json 401 "Access token required.").
Proof.
  apply (token_missing (fun _ => Some Sample.as_ann)
           (fun user => checkout user 1 200)).
  right. right. exists "Bearer", " abc". repeat split.
Defined.

(** X3: the header the client builds from its stored token gives the
    server that token back, when the token is not empty and has no
    space; a client with no stored token sends no header and is answered
    401. *)
Theorem client_token_round_trip (verify : string -> option principal)
    (next : principal -> M response) :
  (forall tok,
      tok <> "" -> without " " tok = true ->
      header_token (client_authorization (Some tok)) = Some tok
      /\ authenticateToken verify (client_authorization (Some tok)) next
         = match verify tok with
           | None => ret (json 403 "Invalid or expired token.")
           | Some user => next user
           end)
  /\ (forall token,
        falsy token = true ->
        authenticateToken verify (client_authorization token) next
        = ret (json 401 "Access token required.")).
Proof.
  split.
  - intros tok Hne Htok.
    assert (Hhead : client_authorization (Some tok)
                    = Some ("Bearer" ++ " " ++ tok ++ "")).
    { unfold client_authorization. simpl.
      apply String.eqb_neq in Hne. rewrite Hne, append_empty. reflexivity. }
    rewrite Hhead.
    assert (Htoken : header_token (Some ("Bearer" ++ " " ++ tok ++ "")) = Some tok)
      by (apply header_token_second; [reflexivity | assumption | exact I]).
    split; [exact Htoken|].
    unfold authenticateToken. rewrite Htoken. simpl.
    apply String.eqb_neq in Hne. rewrite Hne. reflexivity.
  - intros token Hnone. unfold client_authorization. rewrite Hnone. reflexivity.
Qed.

(* ================================================================== *)
(** ** Accounts: registration, verification and login together *)

Lemma users_by_email_fresh `{Platform} (e : string) (t : tables) :
  existsb (fun u => str_eq (u_email u) e) (users t) = false ->
  users_by_email (Some e) t = [].
Proof.
  intros Hfresh. unfold users_by_email. apply filter_none.
  intros u Hu. simpl.
  destruct (str_eq (u_email u) e) eqn:Hm; [|reflexivity].
  assert (Hex : existsb (fun u => str_eq (u_email u) e) (users t) = true)
    by (apply existsb_exists; exists u; split; assumption).
  rewrite Hex in Hfresh. discriminate.
Qed.

(** The row a login finds for a user that was just appended under an
    email no other user has. *)
Lemma users_by_email_new `{Platform} (e : string) (l : list user) (u : user)
    (cs : list company) (vs : list visitor) (ws : list visit) :
  existsb (fun x => str_eq (u_email x) e) l = false ->
  u_email u = e ->
  users_by_email (Some e) (mkTables (l ++ [u]) cs vs ws) = [u].
Proof.
  intros Hfresh He. unfold users_by_email. simpl.
  rewrite filter_app.
  pose proof (users_by_email_fresh e (mkTables l cs vs ws) Hfresh) as Hnone.
  unfold users_by_email in Hnone. simpl in Hnone. rewrite Hnone. simpl.
  rewrite He, str_eq_refl. reflexivity.
Qed.

(** The run of [POST /api/register] when nothing stands in its way. *)
Lemma register_ok `{Platform} (s : server) (caller : principal)
    (b : register_body) (ac : company) (acs : list company)
    (e p fn : string) :
  p_role caller = Admin ->
  g_email b = Some e -> e <> "" ->
  g_password b = Some p -> p <> "" ->
  g_firstName b = Some fn -> fn <> "" ->
  companies_by_id (p_id caller) (db s) = ac :: acs ->
  existsb (fun u => str_eq (u_email u) e) (users (db s)) = false ->
  existsb (fun c => c_id c =? next_user (seqs s)) (companies (db s)) = false ->
  existsb (fun u => u_id u =? p_id caller) (users (db s)) = true ->
  let name := trim (fn ++ " " ++ js_string (g_lastName b)) in
  let row := mkUser (next_user (seqs s)) name e p Host
                    (Some (c_company_name ac)) false in
  run (register caller b) no_faults s
  = (Some (mkResponse 201
             (Registered (next_user (seqs s)) name (Some e) Host
                         (Some (c_company_name ac)))),
     mkServer
       (mkTables (users (db s) ++ [row])
          (companies (db s)
           ++ [mkCompany (next_user (seqs s)) fn (g_lastName b) e p Host
                 (c_company_name ac) None (Some (p_id caller))])
          (visitors (db s)) (visits (db s)))
       (mkCounters (next_user (seqs s) + 1) (next_visitor (seqs s))
          (next_visit (seqs s)))).
Proof.
  intros Hrole He Hene Hp Hpne Hfn Hfnne Hco Hfresh Hpk Hadmin name row.
  subst name row.
  apply String.eqb_neq in Hene, Hpne, Hfnne.
  unfold register. rewrite Hrole, He, Hp, Hfn. simpl.
  rewrite Hene, Hpne, Hfnne. simpl.
  run_simpl. rewrite Hco. simpl.
  unfold insert_user. simpl. rewrite Hfresh. simpl.
  unfold insert_company. simpl. rewrite Hpk. simpl.
  rewrite !existsb_app. simpl. rewrite Z.eqb_refl, Hadmin. simpl.
  rewrite orb_true_r. reflexivity.
Qed.

(** X4: an admin who has a company row creates a host: the new user
    gets the next id, the role host and the company name of the admin's
    own company row, a company row linked to the admin is stored with
    it, and the new host can log in at once with the submitted password,
    without verifying an email address. *)
Theorem register_creates_host `{Platform} (s : server) (caller : principal)
    (b : register_body) (ac : company) (acs : list company)
    (e p fn : string) :
  p_role caller = Admin ->
  g_email b = Some e -> e <> "" ->
  g_password b = Some p -> p <> "" ->
  g_firstName b = Some fn -> fn <> "" ->
  companies_by_id (p_id caller) (db s) = ac :: acs ->
  existsb (fun u => str_eq (u_email u) e) (users (db s)) = false ->
  existsb (fun c => c_id c =? next_user (seqs s)) (companies (db s)) = false ->
  existsb (fun u => u_id u =? p_id caller) (users (db s)) = true ->
  let name := trim (fn ++ " " ++ js_string (g_lastName b)) in
  let s1 := snd (run (register caller b) no_faults s) in
  fst (run (register caller b) no_faults s)
  = Some (mkResponse 201
            (Registered (next_user (seqs s)) name (Some e) Host
                        (Some (c_company_name ac))))
  /\ users (db s1)
     = (users (db s)
        ++ [mkUser (next_user (seqs s)) name e p Host
              (Some (c_company_name ac)) false])%list
  /\ companies (db s1)
     = (companies (db s)
        ++ [mkCompany (next_user (seqs s)) fn (g_lastName b) e p Host
              (c_company_name ac) None (Some (p_id caller))])%list
  /\ fst (run (login (Some e) (Some p)) no_faults s1)
     = Some (mkResponse 200
               (Session (mkPrincipal (next_user (seqs s)) Host)
                  (next_user (seqs s)) name e Host
                  (or_null (Some (c_company_name ac))))).
Proof.
  intros Hrole He Hene Hp Hpne Hfn Hfnne Hco Hfresh Hpk Hadmin name s1.
  subst s1. fold name.
  rewrite (register_ok s caller b ac acs e p fn Hrole He Hene Hp Hpne Hfn Hfnne
             Hco Hfresh Hpk Hadmin).
  simpl. repeat split.
  rewrite (login_run _ (Some e) (Some p)
             (mkUser (next_user (seqs s)) name e p Host
                (Some (c_company_name ac)) false) []).
  - reflexivity.
  - simpl. apply users_by_email_new; [assumption | reflexivity].
  - simpl. apply String.eqb_refl.
Qed.

Lemma register_creates_host_witness :
  fst (run (register (H := ascii_platform) Office.as_ann Office.bob_form)
           no_faults Office.e1)
  = Some (mkResponse 201
            (Registered 2 "Bob Ray" (Some "bob@acme.com") Host (Some "Acme")))
  /\ fst (run (login (H := ascii_platform) (Some "bob@acme.com") (Some "hunter2"))
              no_faults Office.e2)
     = Some (mkResponse 200
               (Session (mkPrincipal 2 Host) 2 "Bob Ray" "bob@acme.com" Host
                  (Some "Acme"))).
Proof.
  destruct (register_creates_host (H := ascii_platform) Office.e1 Office.as_ann
              Office.bob_form
              (mkCompany 1 "Ann" (Some "Lee") "ann@acme.com" "secret" Admin
                 "Acme" None None)
              [] "bob@acme.com" "hunter2" "Bob")
    as (Hreply & _ & _ & Hlogin);
    try reflexivity; try discriminate.
  split; [exact Hreply | exact Hlogin].
Defined.

(** X5: [POST /api/register] is not a transaction: when the INSERT into
    [companies] fails, the reply is 500 but the user row of the new host
    stays, without a company row, and the host can log in. *)
Theorem register_keeps_user_on_failure `{Platform} (s : server)
    (caller : principal) (b : register_body) (ac : company)
    (acs : list company) (e p fn : string) (f : nat -> bool) :
  p_role caller = Admin ->
  g_email b = Some e -> e <> "" ->
  g_password b = Some p -> p <> "" ->
  g_firstName b = Some fn -> fn <> "" ->
  companies_by_id (p_id caller) (db s) = ac :: acs ->
  existsb (fun u => str_eq (u_email u) e) (users (db s)) = false ->
  f 0%nat = false -> f 1%nat = false -> f 2%nat = true ->
  let name := trim (fn ++ " " ++ js_string (g_lastName b)) in
  let s1 := snd (run (register caller b) f s) in
  fst (run (register caller b) f s)
  = Some (json 500 "Server error during registration.")
  /\ users (db s1)
     = (users (db s)
        ++ [mkUser (next_user (seqs s)) name e p Host
              (Some (c_company_name ac)) false])%list
  /\ companies (db s1) = companies (db s)
  /\ fst (run (login (Some e) (Some p)) no_faults s1)
     = Some (mkResponse 200
               (Session (mkPrincipal (next_user (seqs s)) Host)
                  (next_user (seqs s)) name e Host
                  (or_null (Some (c_company_name ac))))).
Proof.
  intros Hrole He Hene Hp Hpne Hfn Hfnne Hco Hfresh H0 H1 H2 name s1.
  subst name s1.
  apply String.eqb_neq in Hene, Hpne, Hfnne.
  assert (Hrun : run (register caller b) f s
                 = (Some (json 500 "Server error during registration."),
                    mkServer
                      (mkTables
                         (users (db s)
                          ++ [mkUser (next_user (seqs s))
                                (trim (fn ++ " " ++ js_string (g_lastName b)))
                                e p Host (Some (c_company_name ac)) false])
                         (companies (db s)) (visitors (db s)) (visits (db s)))
                      (mkCounters (next_user (seqs s) + 1)
                         (next_visitor (seqs s)) (next_visit (seqs s))))).
  { unfold register. rewrite Hrole, He, Hp, Hfn. simpl.
    rewrite Hene, Hpne, Hfnne. simpl.
    run_simpl. rewrite H0. simpl. rewrite Hco. simpl. rewrite H1. simpl.
    unfold insert_user. simpl. rewrite Hfresh. simpl. rewrite H2. reflexivity. }
  rewrite Hrun. simpl. repeat split.
  rewrite (login_run _ (Some e) (Some p)
             (mkUser (next_user (seqs s))
                (trim (fn ++ " " ++ js_string (g_lastName b))) e p Host
                (Some (c_company_name ac)) false) []).
  - reflexivity.
  - simpl. apply users_by_email_new; [assumption | reflexivity].
  - simpl. apply String.eqb_refl.
Qed.

Lemma register_keeps_user_on_failure_witness :
  fst (run (register (H := ascii_platform) Office.as_ann Office.bob_form)
           (fun n => Nat.eqb n 2) Office.e1)
  = Some (json 500 "Server error during registration.")
  /\ companies (db (snd (run (register (H := ascii_platform) Office.as_ann
                                Office.bob_form)
                             (fun n => Nat.eqb n 2) Office.e1)))
     = companies (db Office.e1)
  /\ fst (run (login (H := ascii_platform) (Some "bob@acme.com") (Some "hunter2"))
              no_faults
              (snd (run (register (H := ascii_platform) Office.as_ann
                           Office.bob_form)
                        (fun n => Nat.eqb n 2) Office.e1)))
     = Some (mkResponse 200
               (Session (mkPrincipal 2 Host) 2 "Bob Ray" "bob@acme.com" Host
                  (Some "Acme"))).
Proof.
  destruct (register_keeps_user_on_failure (H := ascii_platform) Office.e1
              Office.as_ann Office.bob_form
              (mkCompany 1 "Ann" (Some "Lee") "ann@acme.com" "secret" Admin
                 "Acme" None None)
              [] "bob@acme.com" "hunter2" "Bob" (fun n => Nat.eqb n 2))
    as (Hreply & _ & Hco & Hlogin);
    try reflexivity; try discriminate.
  split; [exact Hreply | split; [exact Hco | exact Hlogin]].
Defined.

(** X6: [POST /api/registerCompany] stores the admin's user row and its
    company row together or not at all, whatever fails and wherever: the
    two tables are either as they were, or each has one new row, both
    under the next user id, the user row an unverified admin.  It never
    touches visitors or visits. *)
Theorem registerCompany_atomic `{Platform} (b : register_body)
    (f : nat -> bool) (s : server) :
  let s1 := snd (run (registerCompany b) f s) in
  visitors (db s1) = visitors (db s)
  /\ visits (db s1) = visits (db s)
  /\ ((users (db s1) = users (db s) /\ companies (db s1) = companies (db s))
      \/ (exists u c,
             users (db s1) = (users (db s) ++ [u])%list
             /\ companies (db s1) = (companies (db s) ++ [c])%list
             /\ u_id u = next_user (seqs s) /\ c_id c = next_user (seqs s)
             /\ u_role u = Admin /\ u_is_verified u = false
             /\ u_company_name u = g_companyName b)).
Proof.
  destruct s as [t k].
  unfold registerCompany, insert_user, insert_company. run_simpl.
  break_run;
    (split; [reflexivity|]; split; [reflexivity|]);
    first [ left; split; reflexivity
          | right; eexists; eexists; repeat split; reflexivity ].
Qed.

(** The run of [POST /api/registerCompany] up to the commit, when the
    email is new; [mail] tells whether sending the mail fails. *)
Lemma registerCompany_committed `{Platform} (s : server) (b : register_body)
    (e p fn cn : string) (f : nat -> bool) :
  g_email b = Some e -> e <> "" ->
  g_password b = Some p -> p <> "" ->
  g_firstName b = Some fn -> fn <> "" ->
  g_companyName b = Some cn -> cn <> "" ->
  existsb (fun u => str_eq (u_email u) e) (users (db s)) = false ->
  existsb (fun c => c_id c =? next_user (seqs s)) (companies (db s)) = false ->
  f 0%nat = false -> f 1%nat = false -> f 2%nat = false -> f 3%nat = false ->
  let name := trim (fn ++ " " ++ js_string (g_lastName b)) in
  run (registerCompany b) f s
  = (Some (if f 4%nat
           then json 500 "Server error during registration."
           else mkResponse 201
                  (Registered (next_user (seqs s)) name (Some e) Host (Some cn))),
     mkServer
       (mkTables
          (users (db s)
           ++ [mkUser (next_user (seqs s)) name e p Admin (Some cn) false])
          (companies (db s)
           ++ [mkCompany (next_user (seqs s)) fn (g_lastName b) e p Admin cn
                 (or_null (g_mobileNumber b)) None])
          (visitors (db s)) (visits (db s)))
       (mkCounters (next_user (seqs s) + 1) (next_visitor (seqs s))
          (next_visit (seqs s)))).
Proof.
  intros He Hene Hp Hpne Hfn Hfnne Hcn Hcnne Hfresh Hpk H0 H1 H2 H3 name.
  subst name.
  apply String.eqb_neq in Hene, Hpne, Hfnne, Hcnne.
  unfold registerCompany. rewrite He, Hp, Hfn, Hcn. simpl.
  rewrite Hene, Hpne, Hfnne, Hcnne. simpl.
  run_simpl. rewrite H0. simpl. rewrite H1. simpl.
  unfold insert_user. simpl. rewrite Hfresh. simpl. rewrite H2. simpl.
  unfold insert_company. simpl. rewrite Hpk. simpl.
  rewrite existsb_app. simpl. rewrite Z.eqb_refl, orb_true_r. simpl.
  rewrite H3. simpl.
  destruct (f 4%nat); reflexivity.
Qed.

(** X7: when sending the verification mail fails, the reply of
    [POST /api/registerCompany] is 500 although the account was already
    committed; registering the same email again is then answered 409,
    and the tables stay as the failed attempt left them. *)
Theorem registerCompany_mail_failure `{Platform} (s : server)
    (b : register_body) (e p fn cn : string) (f : nat -> bool) :
  g_email b = Some e -> e <> "" ->
  g_password b = Some p -> p <> "" ->
  g_firstName b = Some fn -> fn <> "" ->
  g_companyName b = Some cn -> cn <> "" ->
  existsb (fun u => str_eq (u_email u) e) (users (db s)) = false ->
  existsb (fun c => c_id c =? next_user (seqs s)) (companies (db s)) = false ->
  f 0%nat = false -> f 1%nat = false -> f 2%nat = false -> f 3%nat = false ->
  f 4%nat = true ->
  let s1 := snd (run (registerCompany b) f s) in
  fst (run (registerCompany b) f s)
  = Some (json 500 "Server error during registration.")
  /\ users (db s1)
     = (users (db s)
        ++ [mkUser (next_user (seqs s))
              (trim (fn ++ " " ++ js_string (g_lastName b))) e p Admin
              (Some cn) false])%list
  /\ fst (run (registerCompany b) no_faults s1)
     = Some (json 409 "An account with this email already exists.")
  /\ db (snd (run (registerCompany b) no_faults s1)) = db s1.
Proof.
  intros He Hene Hp Hpne Hfn Hfnne Hcn Hcnne Hfresh Hpk H0 H1 H2 H3 H4 s1.
  subst s1.
  rewrite (registerCompany_committed s b e p fn cn f He Hene Hp Hpne Hfn Hfnne
             Hcn Hcnne Hfresh Hpk H0 H1 H2 H3).
  rewrite H4. simpl. split; [reflexivity|]. split; [reflexivity|].
  apply String.eqb_neq in Hene, Hpne, Hfnne, Hcnne.
  unfold registerCompany. rewrite He, Hp, Hfn, Hcn. simpl.
  rewrite Hene, Hpne, Hfnne, Hcnne. simpl.
  run_simpl. unfold insert_user. simpl.
  rewrite existsb_app. simpl. rewrite str_eq_refl, orb_true_r. simpl.
  split; reflexivity.
Qed.

Lemma registerCompany_mail_failure_witness :
  fst (run (registerCompany (H := ascii_platform) Office.ann_form)
           (fun n => Nat.eqb n 4) Office.e0)
  = Some (json 500 "Server error during registration.")
  /\ fst (run (registerCompany (H := ascii_platform) Office.ann_form) no_faults
              (snd (run (registerCompany (H := ascii_platform) Office.ann_form)
                        (fun n => Nat.eqb n 4) Office.e0)))
     = Some (json 409 "An account with this email already exists.").
Proof.
  destruct (registerCompany_mail_failure (H := ascii_platform) Office.e0
              Office.ann_form "ann@acme.com" "secret" "Ann" "Acme"
              (fun n => Nat.eqb n 4))
    as (Hreply & _ & Hagain & _);
    try reflexivity; try discriminate.
  split; [exact Hreply | exact Hagain].
Defined.

(** X8: the admin of a newly registered company cannot log in until the
    email address is verified: the login is answered 403, and after
    [GET /api/verify-email] with a token for the new user's id the same
    login is answered 200 with a token for an admin. *)
Theorem company_admin_must_verify `{Platform} (s : server) (b : register_body)
    (e p fn cn : string) :
  g_email b = Some e -> e <> "" ->
  g_password b = Some p -> p <> "" ->
  g_firstName b = Some fn -> fn <> "" ->
  g_companyName b = Some cn -> cn <> "" ->
  existsb (fun u => str_eq (u_email u) e) (users (db s)) = false ->
  existsb (fun c => c_id c =? next_user (seqs s)) (companies (db s)) = false ->
  let name := trim (fn ++ " " ++ js_string (g_lastName b)) in
  let s1 := snd (run (registerCompany b) no_faults s) in
  let s2 := snd (run (verifyEmail (GoodToken (next_user (seqs s)))) no_faults s1) in
  fst (run (registerCompany b) no_faults s)
  = Some (mkResponse 201
            (Registered (next_user (seqs s)) name (Some e) Host (Some cn)))
  /\ fst (run (login (Some e) (Some p)) no_faults s1)
     = Some (json 403 "Please verify your email address before logging in.")
  /\ fst (run (verifyEmail (GoodToken (next_user (seqs s)))) no_faults s1)
     = Some (mkResponse 200 (Page "Email Verified Successfully!"))
  /\ fst (run (login (Some e) (Some p)) no_faults s2)
     = Some (mkResponse 200
               (Session (mkPrincipal (next_user (seqs s)) Admin)
                  (next_user (seqs s)) name e Admin (Some cn))).
Proof.
  intros He Hene Hp Hpne Hfn Hfnne Hcn Hcnne Hfresh Hpk name s1 s2.
  subst s2 s1. fold name.
  rewrite (registerCompany_committed s b e p fn cn no_faults He Hene Hp Hpne
             Hfn Hfnne Hcn Hcnne Hfresh Hpk eq_refl eq_refl eq_refl eq_refl).
  fold name. change (no_faults 4%nat) with false. cbn [fst snd].
  split; [reflexivity|].
  set (row := mkUser (next_user (seqs s)) name e p Admin (Some cn) false).
  split.
  - rewrite (login_run _ (Some e) (Some p) row []).
    + reflexivity.
    + apply users_by_email_new; [assumption | reflexivity].
    + apply String.eqb_refl.
  - set (row' := mkUser (next_user (seqs s)) name e p Admin (Some cn) true).
    match goal with
    | |- context [run (verifyEmail ?tok) no_faults ?s1] =>
        assert (Hverify :
                  run (verifyEmail tok) no_faults s1
                  = (Some (mkResponse 200 (Page "Email Verified Successfully!")),
                     mkServer (after_verified (next_user (seqs s)) (db s1))
                              (seqs s1)))
          by reflexivity;
        rewrite Hverify
    end.
    cbn [fst snd]. split; [reflexivity|].
    rewrite (login_run _ (Some e) (Some p) row' []).
    + cbn. unfold or_null. simpl.
      apply String.eqb_neq in Hcnne. rewrite Hcnne. reflexivity.
    + unfold after_verified. cbn [db users companies visitors visits].
      rewrite map_app. cbn [map]. cbn [u_id row]. rewrite Z.eqb_refl.
      apply users_by_email_new; [|reflexivity].
      rewrite existsb_map.
      rewrite <- Hfresh. apply existsb_ext_in.
      intros u _. destruct (u_id u =? next_user (seqs s)); reflexivity.
    + apply String.eqb_refl.
Qed.

Lemma company_admin_must_verify_witness :
  fst (run (login (H := ascii_platform) (Some "ann@acme.com") (Some "secret"))
           no_faults Office.e1)
  = Some (json 403 "Please verify your email address before logging in.")
  /\ fst (run (login (H := ascii_platform) (Some "ann@acme.com") (Some "secret"))
              no_faults
              (snd (run (verifyEmail (GoodToken 1)) no_faults Office.e1)))
     = Some (mkResponse 200
               (Session (mkPrincipal 1 Admin) 1 "Ann Lee" "ann@acme.com" Admin
                  (Some "Acme"))).
Proof.
  destruct (company_admin_must_verify (H := ascii_platform) Office.e0
              Office.ann_form "ann@acme.com" "secret" "Ann" "Acme")
    as (_ & Hfirst & _ & Hthen);
    try reflexivity; try discriminate.
  split; [exact Hfirst | exact Hthen].
Defined.

Lemma verifyEmail_run (id : Z) (s : server) :
  run (verifyEmail (GoodToken id)) no_faults s
  = (Some (mkResponse 200 (Page "Email Verified Successfully!")),
     mkServer (after_verified id (db s)) (seqs s)).
Proof. reflexivity. Qed.

Lemma after_verified_unknown (id : Z) (t : tables) :
  users_by_id id t = [] -> after_verified id t = t.
Proof.
  unfold users_by_id, after_verified. destruct t as [us cs vs ws]. simpl.
  intros Hnone. f_equal.
  induction us as [|u us IH]; simpl in *; [reflexivity|].
  destruct (u_id u =? id); [discriminate|]. rewrite IH by assumption.
  reflexivity.
Qed.

Lemma after_verified_twice (id : Z) (t : tables) :
  after_verified id (after_verified id t) = after_verified id t.
Proof.
  unfold after_verified. simpl. f_equal.
  rewrite map_map. apply map_ext.
  intros u. destruct (u_id u =? id) eqn:Hid; simpl; rewrite Hid; reflexivity.
Qed.

(** X9: [GET /api/verify-email] does not look at the number of rows it
    updated: a valid token whose id no user has is still answered with
    the success page, and nothing changes.  Following the link a second
    time changes nothing more, and a missing or refused token is
    answered 400 with nothing changed. *)
Theorem verifyEmail_edges (s : server) (id : Z) :
  (users_by_id id (db s) = [] ->
   run (verifyEmail (GoodToken id)) no_faults s
   = (Some (mkResponse 200 (Page "Email Verified Successfully!")), s))
  /\ (let s1 := snd (run (verifyEmail (GoodToken id)) no_faults s) in
      run (verifyEmail (GoodToken id)) no_faults s1
      = (Some (mkResponse 200 (Page "Email Verified Successfully!")), s1))
  /\ (forall f,
        run (verifyEmail NoToken) f s
        = (Some (mkResponse 400 (Page "Verification Failed")), s)
        /\ run (verifyEmail BadToken) f s
           = (Some (mkResponse 400 (Page "Verification Failed")), s)).
Proof.
  split; [|split].
  - intros Hnone. rewrite verifyEmail_run, after_verified_unknown by assumption.
    destruct s; reflexivity.
  - intros s1. subst s1. rewrite (verifyEmail_run id s). cbn [snd].
    rewrite verifyEmail_run. cbn [db seqs].
    rewrite after_verified_twice. reflexivity.
  - intros f. destruct s. split; reflexivity.
Qed.

(** X10: a login with an email no user has and a login with a wrong
    password get the same reply, 401 with the same message, and neither
    touches the state. *)
Theorem login_same_refusal `{Platform} (s : server)
    (email password : option string) :
  users_by_email email (db s) = []
  \/ (exists u others,
         users_by_email email (db s) = u :: others
         /\ strict_eq (u_password u) password = false) ->
  run (login email password) no_faults s
  = (Some (json 401 "Invalid email or password."), s).
Proof.
  intros [Hnone | (u & others & Hrow & Hpw)]; unfold login; run_simpl.
  - rewrite Hnone. destruct s; reflexivity.
  - rewrite Hrow, Hpw. destruct s; reflexivity.
Qed.

Lemma login_same_refusal_witness :
  run (login (H := ascii_platform) (Some "bob@acme.com") (Some "guess"))
      no_faults Office.e2
  = (Some (json 401 "Invalid email or password."), Office.e2).
Proof.
  apply (login_same_refusal (H := ascii_platform) Office.e2).
  right.
  exists (mkUser 2 "Bob Ray" "bob@acme.com" "hunter2" Host (Some "Acme") false), [].
  split; reflexivity.
Defined.

(* ================================================================== *)
(** ** What no request ever does *)



















Lemma existsb_more {A} (p : A -> bool) (l more : list A) :
  existsb p l = true -> existsb p (l ++ more) = true.
Proof. intros Hl. rewrite existsb_app, Hl. reflexivity. Qed.

Lemma integrity_counters (t : tables) (k k' : counters) :
  counters_le k k' -> integrity (mkServer t k) -> integrity (mkServer t k').
Proof.
  unfold counters_le. intros (_ & _ & Hv) [Hnd Hbelow Hvnd Hex]. simpl in *.
  split; simpl; try assumption.
  eapply Forall_impl; [|exact Hbelow]. simpl. intros; lia.
Qed.

Lemma users_step_integrity (s s' : server) :
  users_step s s' -> integrity s -> integrity s'.
Proof.
  intros Hstep Hint. destruct Hstep as [k' Hle | u cs _ | id].
  - apply integrity_counters with (seqs s); [assumption|].
    destruct s; assumption.
  - destruct Hint as [Hnd Hbelow Hvnd Hex]. split; simpl; try assumption.
    eapply Forall_impl; [|exact Hex]. simpl. intros v [Hv Hu].
    split; [assumption|]. apply existsb_more. assumption.
  - destruct Hint as [Hnd Hbelow Hvnd Hex]. split; simpl; try assumption.
    eapply Forall_impl; [|exact Hex]. simpl. intros v [Hv Hu].
    split; [assumption|]. rewrite existsb_map. rewrite <- Hu.
    apply existsb_ext_in. intros u _. destruct (u_id u =? id); reflexivity.
Qed.

Lemma after_check_out_integrity (now id : Z) (s : server) :
  integrity s -> integrity (mkServer (after_check_out now id (db s)) (seqs s)).
Proof.
  intros [Hnd Hbelow Hvnd Hex].
  assert (Hsame : forall (g : visit -> Z),
             (forall v, g (set_check_out_time now v) = g v) ->
             map g (map (fun v => if checkout_hits id v
                                  then set_check_out_time now v else v)
                        (visits (db s)))
             = map g (visits (db s))).
  { intros g Hg. rewrite map_map. apply map_ext. intros v.
    destruct (checkout_hits id v); [apply Hg | reflexivity]. }
  split; simpl.
  - rewrite Hsame by reflexivity. assumption.
  - apply Forall_map. eapply Forall_impl; [|exact Hbelow].
    intros v Hv. destruct (checkout_hits id v); assumption.
  - rewrite Hsame by reflexivity. assumption.
  - apply Forall_map. eapply Forall_impl; [|exact Hex].
    intros v Hv. destruct (checkout_hits id v); assumption.
Qed.

Lemma checked_in_integrity (s : server) (b : checkin_body) (now hid : Z)
    (hc : user) (rest : list user) (t' : tables) :
  keys_ok s -> integrity s ->
  users_by_id hid (db s) = hc :: rest ->
  checked_in b now hid s t' ->
  integrity (mkServer t' (mkCounters (next_user (seqs s))
                            (next_visitor (seqs s) + 1)
                            (next_visit (seqs s) + 1))).
Proof.
  intros [_ _ _ Hvsb] [Hnd Hbelow Hvnd Hex] Hhost
         (nm & e & r & _ & _ & _ & ->).
  destruct (users_by_id_found _ _ _ _ Hhost) as [Hhc Hhid].
  split; simpl.
  - rewrite map_app. simpl. apply NoDup_snoc; [assumption|].
    intros Hin. apply in_map_iff in Hin. destruct Hin as (v & Hv & Hin).
    rewrite Forall_forall in Hbelow. specialize (Hbelow v Hin). lia.
  - apply Forall_app. split.
    + eapply Forall_impl; [|exact Hbelow]. simpl. intros; lia.
    + constructor; [simpl; lia | constructor].
  - rewrite map_app. simpl. apply NoDup_snoc; [assumption|].
    intros Hin. apply in_map_iff in Hin. destruct Hin as (v & Hv & Hin).
    rewrite Forall_forall in Hvsb. destruct (Hvsb v Hin) as [_ Hlt]. lia.
  - apply Forall_app. split.
    + eapply Forall_impl; [|exact Hex]. simpl. intros v [Hv Hu].
      split; [apply existsb_more|]; assumption.
    + constructor; [|constructor]. simpl. split.
      * rewrite existsb_app. simpl. rewrite Z.eqb_refl, orb_true_r. reflexivity.
      * apply existsb_exists. exists hc. split; [assumption|].
        apply Z.eqb_eq. assumption.
Qed.

Lemma serve_integrity `{Platform} (r : request) (f : nat -> bool) (s : server) :
  invariant s -> integrity s -> integrity (snd (serve r f s)).
Proof.
  intros Hinv Hint. unfold serve.
  destruct r as [caller b | b | token | email password | caller b now
                | caller q | caller | caller id now]; simpl.
  - eapply users_step_integrity; [apply register_step | assumption].
  - eapply users_step_integrity; [apply registerCompany_step | assumption].
  - eapply users_step_integrity; [apply verifyEmail_step | assumption].
  - eapply users_step_integrity; [apply login_step | assumption].
  - destruct (checkin_cases caller b now f s)
      as (_ & Hle & resp & _ & Hcases).
    unfold run.
    destruct (checkin caller b now (connect s f)) as [res c]. simpl in *.
    destruct Hcases as [[Hsame _] | (hid & hc & rest & Hhost & _ & _ & Hin & Hk)].
    + rewrite Hsame. eapply users_step_integrity; [|exact Hint].
      apply step_idle. assumption.
    + rewrite Hk. eapply checked_in_integrity; try eassumption.
      apply (inv_keys Hinv).
  - eapply users_step_integrity; [apply getVisits_step | assumption].
  - eapply users_step_integrity; [apply getHostVisits_step | assumption].
  - destruct (checkout_cases caller id now f s) as [Hsame | Hout];
      [rewrite Hsame | rewrite Hout].
    + assumption.
    + apply after_check_out_integrity. assumption.
Qed.

Lemma reachable_integrity `{Platform} (s0 s : server) :
  installed s0 -> reachable s0 s -> invariant s /\ integrity s.
Proof.
  intros Hstart Hreach. induction Hreach as [|s r f Hreach [IHinv IHint]].
  - split; [apply installed_invariant; assumption|].
    destruct Hstart as [_ Hnone].
    split; rewrite Hnone; simpl; constructor.
  - split; [apply serve_invariant | apply serve_integrity]; assumption.
Qed.

Lemma filter_by_key_short {A} (key : A -> Z) (p : A -> bool) (id : Z)
    (l : list A) :
  NoDup (map key l) -> (forall x, p x = true -> key x = id) ->
  (List.length (filter p l) <= 1)%nat.
Proof.
  intros Hnd Hp. induction l as [|x l IH]; simpl; [lia|].
  inversion Hnd as [|? ? Hnotin Hnd']; subst.
  destruct (p x) eqn:Hx; [|apply IH; assumption].
  assert (Hnone : filter p l = []).
  { apply filter_none. intros y Hy.
    destruct (p y) eqn:Hpy; [|reflexivity].
    exfalso. apply Hnotin. rewrite (Hp x Hx), <- (Hp y Hpy).
    apply in_map. assumption. }
  rewrite Hnone. simpl. lia.
Qed.

(** X14: in every state reached from an installed database the visits
    table keeps its references: a visit id occurs once, no two visits
    share a visitor row, and every visit has its visitor row and its
    host row.  So the UPDATE of a checkout changes at most one row. *)
Theorem visits_table_integrity `{Platform} (s0 s : server) :
  installed s0 -> reachable s0 s ->
  integrity s
  /\ (forall id,
        (List.length (filter (checkout_hits id) (visits (db s))) <= 1)%nat).
Proof.
  intros Hstart Hreach.
  destruct (reachable_integrity s0 s Hstart Hreach) as [_ Hint].
  split; [exact Hint|].
  intros id. apply (filter_by_key_short v_id _ id).
  - apply (visit_ids_nodup Hint).
  - intros v Hv. unfold checkout_hits in Hv. apply andb_prop in Hv.
    destruct Hv as [Hid _]. apply Z.eqb_eq. assumption.
Qed.

Lemma visits_table_integrity_witness :
  integrity Sample.s1
  /\ (forall id,
        (List.length (filter (checkout_hits id) (visits (db Sample.s1))) <= 1)%nat).
Proof.
  apply (visits_table_integrity (H := ascii_platform) Sample.s0 Sample.s1
           sample_installed
           (@reach_serve ascii_platform Sample.s0 Sample.s0
              (PostVisits Sample.as_bob (Sample.alice "bob" (Some "meeting")) 100)
              no_faults (@reach_start ascii_platform Sample.s0))).
Defined.

(* ================================================================== *)
(** ** Check-in and checkout together *)

(** Resolving the host reads the users table only. *)
Lemma resolve_host_same_users `{Platform} (caller : principal)
    (hn : option string) (s s' : server) :
  users (db s') = users (db s) ->
  fst (resolve_host caller hn (in_transaction s' no_faults))
  = fst (resolve_host caller hn (in_transaction s no_faults)).
Proof.
  intros Husers. unfold resolve_host, in_transaction.
  destruct (p_role caller); run_simpl; unfold users_by_id, hosts_by_name;
    try rewrite Husers.
  - destruct (filter (fun u => u_id u =? p_id caller) (users (db s)))
      as [|a rest]; simpl; [reflexivity|].
    destruct (falsy (u_company_name a)); simpl; [reflexivity|].
    rewrite Husers.
    set (found := filter _ (users (db s))).
    destruct found; reflexivity.
  - destruct (filter (fun u => u_id u =? p_id caller) (users (db s)))
      as [|u rest]; simpl; [reflexivity|].
    destruct hn as [hn|]; simpl; [|reflexivity].
    destruct (toLowerCase (u_name u) =? toLowerCase hn)%string; reflexivity.
  - reflexivity.
Qed.

(** What a resolved [host_id] is, whatever fails. *)
Lemma resolve_host_sound `{Platform} (caller : principal) (hn : option string)
    (t w : tables) (k : counters) (f : nat -> bool) (n : nat) (hid : Z) :
  fst (resolve_host caller hn (mkConn t (Some w) k f n)) = Ok (inr hid) ->
  (p_role caller = Host /\ hid = p_id caller)
  \/ (p_role caller = Admin
      /\ exists a rest h hs,
           users_by_id (p_id caller) w = a :: rest
           /\ hosts_by_name hn (u_company_name a) w = h :: hs
           /\ hid = u_id h).
Proof.
  unfold resolve_host.
  destruct (p_role caller); run_simpl.
  - destruct (f n); simpl; [discriminate|].
    destruct (users_by_id (p_id caller) w) as [|a rest] eqn:Ha; simpl;
      [discriminate|].
    destruct (falsy (u_company_name a)); simpl; [discriminate|].
    destruct (f (S n)); simpl; [discriminate|].
    destruct (hosts_by_name hn (u_company_name a) w) as [|h hs] eqn:Hh; simpl;
      [discriminate|].
    intros Heq. injection Heq as <-. right. split; [reflexivity|].
    exists a, rest, h, hs. repeat split; assumption.
  - destruct (f n); simpl; [discriminate|].
    destruct (users_by_id (p_id caller) w) as [|u rest]; simpl; [discriminate|].
    destruct hn as [hn|]; simpl; [|discriminate].
    destruct (toLowerCase (u_name u) =? toLowerCase hn)%string; simpl;
      [|discriminate].
    intros Heq. injection Heq as <-. left. split; reflexivity.
  - discriminate.
Qed.

Lemma active_visits_found `{Platform} (email company : option string)
    (t : tables) (v : visit) (vis : visitor) (h : user) :
  In (v, vis, h) (visits_joined t) ->
  sql_eq (Some (vis_email vis)) email = true ->
  v_check_out_time v = None ->
  sql_eq (u_company_name h) company = true ->
  active_visits email company t <> [].
Proof.
  intros Hin Hmail Hopen Hco.
  assert (Hid : In (v_id v) (active_visits email company t)).
  { unfold active_visits. apply in_map_iff. exists (v, vis, h).
    split; [reflexivity|]. apply filter_In. split; [assumption|].
    rewrite Hmail, Hopen, Hco. reflexivity. }
  intros Hnone. rewrite Hnone in Hid. destruct Hid.
Qed.

Lemma active_visits_none `{Platform} (email company : option string)
    (t : tables) :
  (forall v vis h,
      In (v, vis, h) (visits_joined t) ->
      sql_eq (Some (vis_email vis)) email = true ->
      v_check_out_time v = None ->
      sql_eq (u_company_name h) company = true -> False) ->
  active_visits email company t = [].
Proof.
  intros Hnone. unfold active_visits. rewrite filter_none; [reflexivity|].
  intros [[v vis] h] Hin.
  destruct (sql_eq (Some (vis_email vis)) email) eqn:Hmail; [|reflexivity].
  destruct (v_check_out_time v) eqn:Hopen; [reflexivity|].
  destruct (sql_eq (u_company_name h) company) eqn:Hco; [|reflexivity].
  exfalso. exact (Hnone v vis h Hin Hmail Hopen Hco).
Qed.

(** The duplicate check is void for a host without company. *)
Lemma active_visits_no_company `{Platform} (email : option string) (t : tables) :
  active_visits email None t = [].
Proof.
  apply active_visits_none. intros v vis h _ _ _ Hco.
  destruct (u_company_name h); discriminate.
Qed.

Lemma filter_old_ids (id : Z) (l : list visit) :
  Forall (fun v => v_id v < id) l -> filter (fun v => v_id v =? id) l = [].
Proof.
  intros Hbelow. apply filter_none. intros v Hv.
  rewrite Forall_forall in Hbelow. specialize (Hbelow v Hv).
  apply Z.eqb_neq. lia.
Qed.

(** X15: a visit from its check-in to the next one.  In a state whose
    keys are in order, when a check-in for a host with a company is
    answered 201 with the visit id [id]: checking the same visitor in
    again is answered 409; the caller's checkout of [id] is answered
    200; and after it the same check-in is answered 201 again, with the
    next visit id. *)
Theorem visit_round_trip `{Platform} (s : server) (caller : principal)
    (b : checkin_body) (now1 now2 now3 hid : Z) (hc : user)
    (rest : list user) (r cn : string) :
  keys_ok s ->
  Forall (fun v => v_id v < next_visit (seqs s)) (visits (db s)) ->
  missing_fields b = false ->
  b_reason b = Some r ->
  fst (resolve_host caller (b_hostName b) (in_transaction s no_faults))
  = Ok (inr hid) ->
  users_by_id hid (db s) = hc :: rest ->
  u_company_name hc = Some cn ->
  active_visits (b_email b) (Some cn) (db s) = [] ->
  let id := next_visit (seqs s) in
  let s1 := snd (run (checkin caller b now1) no_faults s) in
  let s2 := snd (run (checkout caller id now2) no_faults s1) in
  fst (run (checkin caller b now1) no_faults s)
  = Some (mkResponse 201 (CheckedIn id))
  /\ fst (run (checkin caller b now3) no_faults s1)
     = Some (json 409
               ("This visitor is already checked in to " ++ cn
                ++ " and has not checked out yet. Please check out first before checking in again to the same company."))
  /\ fst (run (checkout caller id now2) no_faults s1)
     = Some (json 200 "Check-out successful.")
  /\ fst (run (checkin caller b now3) no_faults s2)
     = Some (mkResponse 201 (CheckedIn (id + 1))).
Proof.
  intros Hkeys Hbelow Hfields Hreason Hres Hhost Hcn Hactive id s1 s2.
  assert (Hactive' : active_visits (b_email b) (u_company_name hc) (db s) = [])
    by (rewrite Hcn; exact Hactive).
  destruct (checkin_succeeds s caller b now1 hid hc rest r
              Hfields Hreason Hres Hhost Hactive') as (nm & e & Hnm & He & Hrun1).
  destruct (users_by_id_found _ _ _ _ Hhost) as [Hhc Hhid].
  set (nv := mkVisitor (next_visitor (seqs s)) nm e (b_phone b)
               (b_designation b) (b_company b) (b_companyTel b) (b_website b)
               (b_address b) (b_photo b) (b_idCardPhoto b) (b_idCardNumber b))
    in Hrun1.
  set (new := mkVisit (next_visit (seqs s)) (next_visitor (seqs s)) hid r
                (b_itemsCarried b) now1 None) in Hrun1.
  set (t1 := mkTables (users (db s)) (companies (db s))
               (visitors (db s) ++ [nv]) (visits (db s) ++ [new])) in Hrun1.
  set (k1 := mkCounters (next_user (seqs s)) (next_visitor (seqs s) + 1)
               (next_visit (seqs s) + 1)) in Hrun1.
  assert (Hs1 : s1 = mkServer t1 k1) by (subst s1; rewrite Hrun1; reflexivity).
  assert (Hres1 : fst (resolve_host caller (b_hostName b)
                         (in_transaction (mkServer t1 k1) no_faults))
                  = Ok (inr hid))
    by (rewrite <- Hres; apply resolve_host_same_users; reflexivity).
  assert (Hhost1 : users_by_id hid t1 = hc :: rest) by exact Hhost.
  assert (Hjoined : In (new, nv, hc) (visits_joined t1)).
  { apply visits_joined_in. simpl. repeat split.
    - apply in_or_app. right. left. reflexivity.
    - apply in_or_app. right. left. reflexivity.
    - assumption.
    - symmetry. assumption. }
  split; [rewrite Hrun1; reflexivity|]. split; [|split].
  - (* the second check-in *)
    rewrite Hs1.
    assert (Hfound : active_visits (b_email b) (u_company_name hc) t1 <> []).
    { apply (active_visits_found _ _ t1 new nv hc Hjoined).
      - rewrite He. simpl. apply str_eq_refl.
      - reflexivity.
      - rewrite Hcn. simpl. apply str_eq_refl. }
    destruct (checkin_with_host caller b now3 hid (mkServer t1 k1) Hfields Hres1)
      as [n Hrun].
    cbn [db seqs] in Hrun.
    unfold run. rewrite Hrun. unfold try_catch.
    rewrite (checkin_for_host_conflict b now3 hid t1 t1 k1 n hc rest
               Hhost1 Hfound).
    rewrite Hcn. reflexivity.
  - (* the checkout *)
    rewrite Hs1, checkout_run. cbn [db].
    assert (Hrows : visits_by_id id t1 = [new]).
    { unfold visits_by_id. simpl. rewrite filter_app.
      rewrite (filter_old_ids id (visits (db s)) Hbelow). simpl.
      subst id. rewrite Z.eqb_refl. reflexivity. }
    assert (Hgate : passes_gate caller id t1 = true).
    { unfold passes_gate. rewrite Hrows. simpl.
      unfold in_transaction in Hres.
      destruct (resolve_host_sound caller (b_hostName b) _ _ _ _ _ hid Hres)
        as [[Hrole ->] | [Hrole _]]; rewrite Hrole;
        [apply Z.eqb_refl | reflexivity]. }
    rewrite Hgate. cbn [fst]. unfold checkout_reply.
    rewrite (hits_found id (visits t1) new); try reflexivity.
    simpl. apply in_or_app. right. left. reflexivity.
  - (* the check-in after the checkout *)
    assert (Hgate : passes_gate caller id t1 = true).
    { assert (Hrows : visits_by_id id t1 = [new]).
      { unfold visits_by_id. simpl. rewrite filter_app.
        rewrite (filter_old_ids id (visits (db s)) Hbelow). simpl.
        subst id. rewrite Z.eqb_refl. reflexivity. }
      unfold passes_gate. rewrite Hrows. simpl.
      unfold in_transaction in Hres.
      destruct (resolve_host_sound caller (b_hostName b) _ _ _ _ _ hid Hres)
        as [[Hrole ->] | [Hrole _]]; rewrite Hrole;
        [apply Z.eqb_refl | reflexivity]. }
    assert (Hs2 : s2 = mkServer (after_check_out now2 id t1) k1).
    { subst s2. rewrite Hs1, checkout_run. cbn [db]. rewrite Hgate.
      reflexivity. }
    rewrite Hs2.
    assert (Hnone : active_visits (b_email b) (u_company_name hc)
                      (after_check_out now2 id t1) = []).
    { apply active_visits_none. intros v vis h Hin Hmail Hopen Hco.
      apply visits_joined_in in Hin. simpl in Hin.
      destruct Hin as (Hv & Hvis & Hh & Hk1 & Hk2).
      apply in_map_iff in Hv. destruct Hv as (v0 & Hv0 & Hin0).
      destruct (checkout_hits id v0) eqn:Hhit.
      { subst v. simpl in Hopen. discriminate. }
      subst v0.
      apply in_app_or in Hin0. destruct Hin0 as [Hold | [Hnew | []]].
      2:{ subst v. unfold checkout_hits in Hhit. simpl in Hhit.
          subst id. rewrite Z.eqb_refl in Hhit. discriminate. }
      apply in_app_or in Hvis. destruct Hvis as [Hvis | [Hvis | []]].
      2:{ subst vis. simpl in Hk1.
          pose proof (visits_below Hkeys) as Hvb.
          rewrite Forall_forall in Hvb. destruct (Hvb v Hold) as [_ Hlt]. lia. }
      apply (active_visits_found (b_email b) (u_company_name hc) (db s) v vis h);
        try assumption.
      apply visits_joined_in. repeat split; assumption. }
    destruct (checkin_succeeds (mkServer (after_check_out now2 id t1) k1)
                caller b now3 hid hc rest r Hfields Hreason)
      as (nm' & e' & _ & _ & Hrun2).
    + rewrite <- Hres. apply resolve_host_same_users. reflexivity.
    + exact Hhost.
    + exact Hnone.
    + rewrite Hrun2. reflexivity.
Qed.

Lemma visit_round_trip_witness :
  fst (run (checkin (H := ascii_platform) Sample.as_bob
              (Sample.alice "bob" (Some "meeting")) 100) no_faults Sample.s0)
  = Some (mkResponse 201 (CheckedIn 1))
  /\ fst (run (checkin (H := ascii_platform) Sample.as_bob
                 (Sample.alice "bob" (Some "meeting")) 300) no_faults Sample.s1)
     = Some (json 409
               "This visitor is already checked in to Acme and has not checked out yet. Please check out first before checking in again to the same company.")
  /\ fst (run (checkout Sample.as_bob 1 200) no_faults Sample.s1)
     = Some (json 200 "Check-out successful.")
  /\ fst (run (checkin (H := ascii_platform) Sample.as_bob
                 (Sample.alice "bob" (Some "meeting")) 300) no_faults Sample.s2)
     = Some (mkResponse 201 (CheckedIn 2)).
Proof.
  apply (visit_round_trip (H := ascii_platform) Sample.s0 Sample.as_bob
           (Sample.alice "bob" (Some "meeting")) 100 200 300 2 Sample.bob []
           "meeting" "Acme");
    try reflexivity.
  - apply (proj1 sample_installed).
  - constructor.
Defined.

(** X16: the duplicate check compares the host's [company_name] with
    SQL's [=], which is never true for NULL: for a host whose
    [company_name] is NULL (as for the hosts the schema script inserts)
    the same visitor can be checked in again while still checked in, and
    both visits stay open. *)
Theorem no_company_no_duplicate_check `{Platform} (s : server)
    (caller : principal) (b : checkin_body) (now1 now2 hid : Z) (hc : user)
    (rest : list user) (r : string) :
  missing_fields b = false ->
  b_reason b = Some r ->
  fst (resolve_host caller (b_hostName b) (in_transaction s no_faults))
  = Ok (inr hid) ->
  users_by_id hid (db s) = hc :: rest ->
  u_company_name hc = None ->
  let s1 := snd (run (checkin caller b now1) no_faults s) in
  let s2 := snd (run (checkin caller b now2) no_faults s1) in
  fst (run (checkin caller b now1) no_faults s)
  = Some (mkResponse 201 (CheckedIn (next_visit (seqs s))))
  /\ fst (run (checkin caller b now2) no_faults s1)
     = Some (mkResponse 201 (CheckedIn (next_visit (seqs s) + 1)))
  /\ visits (db s2)
     = (visits (db s)
        ++ [mkVisit (next_visit (seqs s)) (next_visitor (seqs s)) hid r
              (b_itemsCarried b) now1 None;
            mkVisit (next_visit (seqs s) + 1) (next_visitor (seqs s) + 1) hid r
              (b_itemsCarried b) now2 None])%list.
Proof.
  intros Hfields Hreason Hres Hhost Hnull s1 s2.
  destruct (checkin_succeeds s caller b now1 hid hc rest r Hfields Hreason Hres
              Hhost) as (nm & e & Hnm & He & Hrun1).
  { rewrite Hnull. apply active_visits_no_company. }
  assert (Hs1 : s1 = snd (run (checkin caller b now1) no_faults s))
    by reflexivity.
  rewrite Hrun1 in Hs1. cbn [snd] in Hs1.
  destruct (checkin_succeeds s1 caller b now2 hid hc rest r Hfields Hreason)
    as (nm' & e' & _ & _ & Hrun2).
  { rewrite <- Hres. apply resolve_host_same_users. rewrite Hs1. reflexivity. }
  { rewrite Hs1. exact Hhost. }
  { rewrite Hnull. apply active_visits_no_company. }
  split; [rewrite Hrun1; reflexivity|].
  split.
  - rewrite Hrun2, Hs1. reflexivity.
  - subst s2. rewrite Hrun2. rewrite Hs1. cbn.
    rewrite <- app_assoc. reflexivity.
Qed.

Lemma no_company_no_duplicate_check_witness :
  fst (run (checkin (H := ascii_platform) Seeded.as_john Seeded.carol 100)
           no_faults Seeded.d0)
  = Some (mkResponse 201 (CheckedIn 1))
  /\ fst (run (checkin (H := ascii_platform) Seeded.as_john Seeded.carol 101)
              no_faults
              (snd (run (checkin (H := ascii_platform) Seeded.as_john
                           Seeded.carol 100)
                        no_faults Seeded.d0)))
     = Some (mkResponse 201 (CheckedIn 2)).
Proof.
  destruct (no_company_no_duplicate_check (H := ascii_platform) Seeded.d0
              Seeded.as_john Seeded.carol 100 101 2 Seeded.john [] "delivery")
    as (Hfirst & Hsecond & _);
    try reflexivity.
  split; [exact Hfirst | exact Hsecond].
Defined.

(** Every run of the check-in handler that commits, with the host it
    resolved. *)
Lemma checkin_committed_host `{Platform} (caller : principal)
    (b : checkin_body) (now : Z) (f : nat -> bool) (s : server) :
  let run1 := checkin caller b now (connect s f) in
  committed (snd run1) = db s
  \/ exists hid,
       fst (resolve_host caller (b_hostName b)
              (mkConn (db s) (Some (db s)) (seqs s) f 1))
       = Ok (inr hid)
       /\ checked_in b now hid s (committed (snd run1)).
Proof.
  unfold checkin. destruct s as [t k].
  destruct (missing_fields b); [left; reflexivity|].
  unfold try_catch, bind, beginTransaction, connect, view. simpl.
  destruct (f 0%nat); simpl; [left; reflexivity|].
  pose proof (resolve_host_tx caller (b_hostName b) t t k f 1) as Hres.
  simpl in Hres.
  destruct (resolve_host caller (b_hostName b) (mkConn t (Some t) k f 1))
    as [r c1].
  simpl in Hres. destruct Hres as (Hc & Hk & Hf & Hp).
  destruct r as [[early | hid] | e]; simpl.
  - left. assumption.
  - destruct c1 as [t1 p1 k1 f1 n1]. simpl in Hc, Hk, Hf, Hp. subst.
    pose proof (checkin_for_host_tx b now hid t t k f n1) as Hrun.
    simpl in Hrun.
    destruct (checkin_for_host b now hid (mkConn t (Some t) k f n1))
      as [r2 c2].
    simpl in Hrun. destruct Hrun as [_ Hrun].
    destruct r2 as [resp | e]; simpl.
    + destruct Hrun as [_ [[Hsame _] | (hc & rest & _ & _ & _ & Hin & _)]].
      * left. assumption.
      * right. exists hid. split; [reflexivity | assumption].
    + left. assumption.
  - left. assumption.
Qed.

(** X17: whatever fails, a check-in can only add a visit within the
    caller's reach: the tables stay as they are, or one visit is added
    whose host is the caller (for a host), or a user with the submitted
    name, the role host and the admin's own [company_name] (for an
    admin).  A caller of any other role never adds a visit. *)
Theorem checkin_host_scope `{Platform} (caller : principal)
    (b : checkin_body) (now : Z) (f : nat -> bool) (s : server) :
  let after := committed (snd (checkin caller b now (connect s f))) in
  after = db s
  \/ exists v,
       visits after = (visits (db s) ++ [v])%list
       /\ ((p_role caller = Host /\ v_host_id v = p_id caller)
           \/ (p_role caller = Admin
               /\ exists a others h,
                    users_by_id (p_id caller) (db s) = a :: others
                    /\ In h (users (db s))
                    /\ u_id h = v_host_id v
                    /\ u_role h = Host
                    /\ sql_eq (u_company_name h) (u_company_name a) = true
                    /\ sql_eq (Some (u_name h)) (b_hostName b) = true)).
Proof.
  intros after. subst after.
  destruct (checkin_committed_host caller b now f s)
    as [Hsame | (hid & Hres & Hin)]; [left; assumption|].
  right. destruct Hin as (nm & e & r & _ & _ & _ & ->).
  eexists. split; [reflexivity|]. simpl.
  destruct (resolve_host_sound caller (b_hostName b) _ _ _ _ _ hid Hres)
    as [[Hrole ->] | (Hrole & a & others & h & hs & Ha & Hh & ->)].
  - left. split; [assumption | reflexivity].
  - right. split; [assumption|].
    destruct (hosts_by_name_sound _ _ _ _ _ Hh) as (Hin & Hname & Hhost & Hco).
    exists a, others, h. repeat split; assumption.
Qed.

(** X26: the handler does not ask for a [reason], the column does.  A
    form with every field the handler requires but no reason, sent for a
    host that resolves and a visitor with no active visit there, is
    answered 500: the visitor row that was already inserted is rolled
    back and no table changes, but the next visitor id is used up. *)
Theorem checkin_without_reason `{Platform} (s : server) (caller : principal)
    (b : checkin_body) (now hid : Z) (hc : user) (rest : list user) :
  missing_fields b = false ->
  b_reason b = None ->
  fst (resolve_host caller (b_hostName b) (in_transaction s no_faults))
  = Ok (inr hid) ->
  users_by_id hid (db s) = hc :: rest ->
  active_visits (b_email b) (u_company_name hc) (db s) = [] ->
  run (checkin caller b now) no_faults s
  = (Some (json 500 "Database transaction failed."),
     mkServer (db s)
       (mkCounters (next_user (seqs s)) (next_visitor (seqs s) + 1)
          (next_visit (seqs s)))).
Proof.
  intros Hfields Hreason Hres Hhost Hactive.
  assert (Hf := Hfields). unfold missing_fields in Hf.
  apply orb_false_elim in Hf. destruct Hf as [Hf _].
  apply orb_false_elim in Hf. destruct Hf as [Hf _].
  apply orb_false_elim in Hf. destruct Hf as [Hname Hemail].
  destruct (present _ Hname) as [nm Hnm].
  destruct (present _ Hemail) as [e He].
  destruct (checkin_with_host caller b now hid s Hfields Hres) as [n Hrun].
  unfold run. rewrite Hrun.
  unfold checkin_for_host. run_simpl.
  rewrite Hhost. simpl. rewrite Hactive. simpl.
  unfold insert_visitor. rewrite Hnm, He. simpl.
  unfold insert_visit. rewrite Hreason. reflexivity.
Qed.

Lemma checkin_without_reason_witness :
  run (checkin (H := ascii_platform) Sample.as_bob (Sample.alice "bob" None)
         100)
      no_faults Sample.s0
  = (Some (json 500 "Database transaction failed."),
     mkServer (db Sample.s0) (mkCounters 5 2 1)).
Proof.
  apply (checkin_without_reason (H := ascii_platform) Sample.s0 Sample.as_bob
           (Sample.alice "bob" None) 100 2 Sample.bob []);
    reflexivity.
Defined.

(* ================================================================== *)
(** ** The user listings *)

Lemma insert_by_perm (leb : user -> user -> bool) (u : user) (l : list user) :
  Permutation (insert_by leb u l) (u :: l).
Proof.
  induction l as [|x l IH]; simpl.
  - apply Permutation_refl.
  - destruct (leb u x).
    + apply Permutation_refl.
    + eapply perm_trans; [apply perm_skip, IH | apply perm_swap].
Qed.

Lemma order_users_perm (leb : user -> user -> bool) (l : list user) :
  Permutation (order_by leb l) l.
Proof.
  induction l as [|x l IH]; simpl.
  - apply perm_nil.
  - eapply perm_trans; [apply insert_by_perm | apply perm_skip, IH].
Qed.

Lemma order_users_in (leb : user -> user -> bool) (l : list user) (u : user) :
  In u (order_by leb l) <-> In u l.
Proof.
  split; apply Permutation_in;
    [apply order_users_perm | apply Permutation_sym, order_users_perm].
Qed.

Lemma insert_by_sorted (leb : user -> user -> bool) (u : user) (l : list user) :
  (forall a b, leb a b = true \/ leb b a = true) ->
  (forall a b c, leb a b = true -> leb b c = true -> leb a c = true) ->
  StronglySorted (in_order leb) l ->
  StronglySorted (in_order leb) (insert_by leb u l).
Proof.
  intros Htotal Htrans. induction l as [|x l IH]; simpl; intros Hsorted.
  - constructor; constructor.
  - inversion Hsorted as [|? ? Hrest Hall]; subst.
    destruct (leb u x) eqn:Hux.
    + constructor; [assumption|].
      constructor; [exact Hux|].
      eapply Forall_impl; [|exact Hall].
      intros y Hxy. exact (Htrans u x y Hux Hxy).
    + constructor; [apply IH; assumption|].
      apply Forall_forall. intros y Hy.
      apply (Permutation_in _ (insert_by_perm leb u l)) in Hy.
      destruct Hy as [<- | Hy].
      * destruct (Htotal u x) as [Hle | Hle]; [congruence | exact Hle].
      * rewrite Forall_forall in Hall. apply Hall. assumption.
Qed.

Lemma order_users_sorted (leb : user -> user -> bool) (l : list user) :
  (forall a b, leb a b = true \/ leb b a = true) ->
  (forall a b c, leb a b = true -> leb b c = true -> leb a c = true) ->
  StronglySorted (in_order leb) (order_by leb l).
Proof.
  intros Htotal Htrans. induction l as [|x l IH]; simpl.
  - constructor.
  - apply insert_by_sorted; assumption.
Qed.

Lemma by_name_total `{CollationOrder} (a b : user) :
  by_name a b = true \/ by_name b a = true.
Proof. apply str_leb_total. Qed.

Lemma by_name_trans `{CollationOrder} (a b c : user) :
  by_name a b = true -> by_name b c = true -> by_name a c = true.
Proof. apply str_leb_trans. Qed.

Lemma by_role_name_total `{CollationOrder} (a b : user) :
  by_role_name a b = true \/ by_role_name b a = true.
Proof.
  unfold by_role_name.
  destruct (Nat.lt_trichotomy (role_rank (u_role a)) (role_rank (u_role b)))
    as [Hlt | [Heq | Hgt]].
  - left. apply Nat.ltb_lt in Hlt. rewrite Hlt. reflexivity.
  - rewrite Heq, Nat.ltb_irrefl, Nat.eqb_refl. simpl. apply str_leb_total.
  - right. apply Nat.ltb_lt in Hgt. rewrite Hgt. reflexivity.
Qed.

Lemma by_role_name_trans `{CollationOrder} (a b c : user) :
  by_role_name a b = true -> by_role_name b c = true ->
  by_role_name a c = true.
Proof.
  unfold by_role_name. intros Hab Hbc.
  apply orb_true_iff in Hab. apply orb_true_iff in Hbc. apply orb_true_iff.
  rewrite andb_true_iff in *. rewrite Nat.ltb_lt, Nat.eqb_eq in *.
  destruct Hab as [Hab | [Hab Hnab]], Hbc as [Hbc | [Hbc Hnbc]].
  - left. lia.
  - left. lia.
  - left. lia.
  - right. split; [lia|]. exact (str_leb_trans _ _ _ Hnab Hnbc).
Qed.

(** One run of [GET /api/users], whatever fails. *)
Lemma getUsers_run `{Platform} `{CollationOrder} (caller : principal)
    (f : nat -> bool) (s : server) :
  run_listing (getUsers caller) f s
  = (Some
       (if negb (role_eqb (p_role caller) Admin)
        then inl (json 403 "Admin access required.")
        else if f 0%nat then inl (json 500 "Failed to fetch users.")
        else match users_by_id (p_id caller) (db s) with
             | [] => inl (json 400 "Admin company information not found.")
             | a :: _ =>
                 if falsy (u_company_name a)
                 then inl (json 400 "Admin company information not found.")
                 else if f 1%nat then inl (json 500 "Failed to fetch users.")
                 else inr (select_company_users (u_company_name a) (db s))
             end),
     s).
Proof.
  destruct s as [t k]. unfold run_listing, getUsers.
  destruct (negb (role_eqb (p_role caller) Admin)); [reflexivity|].
  run_simpl.
  destruct (f 0%nat); simpl; [reflexivity|].
  destruct (users_by_id (p_id caller) t) as [|a rest]; simpl; [reflexivity|].
  destruct (falsy (u_company_name a)); simpl; [reflexivity|].
  destruct (f 1%nat); reflexivity.
Qed.

(** One run of [GET /api/hosts], whatever fails. *)
Lemma getHosts_run `{Platform} `{CollationOrder} (caller : principal)
    (f : nat -> bool) (s : server) :
  run_listing (getHosts caller) f s
  = (Some
       (match p_role caller with
        | Admin =>
            if f 0%nat then inl (json 500 "Failed to fetch hosts.")
            else match users_by_id (p_id caller) (db s) with
                 | [] => inl (json 400 "Admin company information not found.")
                 | a :: _ =>
                     if falsy (u_company_name a)
                     then inl (json 400 "Admin company information not found.")
                     else if f 1%nat then inl (json 500 "Failed to fetch hosts.")
                     else inr (select_company_hosts (u_company_name a) (db s))
                 end
        | Host =>
            if f 0%nat then inl (json 500 "Failed to fetch hosts.")
            else inr (select_host_self (p_id caller) (db s))
        | OtherRole => inl (json 403 "Access denied.")
        end),
     s).
Proof.
  destruct s as [t k]. unfold run_listing, getHosts.
  destruct (p_role caller); run_simpl.
  - destruct (f 0%nat); simpl; [reflexivity|].
    destruct (users_by_id (p_id caller) t) as [|a rest]; simpl; [reflexivity|].
    destruct (falsy (u_company_name a)); simpl; [reflexivity|].
    destruct (f 1%nat); reflexivity.
  - destruct (f 0%nat); reflexivity.
  - reflexivity.
Qed.

Lemma sql_eq_refl `{Platform} (o : option string) :
  falsy o = false -> sql_eq o o = true.
Proof.
  destruct o as [x|]; simpl; intros Hpresent; [apply str_eq_refl | discriminate].
Qed.

(** X18: what an admin sees in [GET /api/users]: the users whose
    [company_name] equals the admin's own, each row once, the admin
    included, ordered by role and then by name, so that only hosts
    follow a host; the database stays as it is. *)
Theorem users_listing `{Platform} `{CollationOrder} (caller : principal)
    (s : server) (a : user) (rest : list user) :
  p_role caller = Admin ->
  users_by_id (p_id caller) (db s) = a :: rest ->
  falsy (u_company_name a) = false ->
  exists us,
    run_listing (getUsers caller) no_faults s
    = (Some (inr (map users_columns us)), s)
    /\ Permutation us (filter (of_company (u_company_name a)) (users (db s)))
    /\ StronglySorted (in_order by_role_name) us
    /\ In a us
    /\ (forall u v before between after,
          us = (before ++ u :: between ++ v :: after)%list ->
          u_role u = Host -> u_role v = Host).
Proof.
  intros Hrole Hrow Hcompany.
  exists (order_by by_role_name
            (filter (of_company (u_company_name a)) (users (db s)))).
  assert (Hsorted : StronglySorted (in_order by_role_name)
            (order_by by_role_name
               (filter (of_company (u_company_name a)) (users (db s))))).
  { apply order_users_sorted;
      [apply by_role_name_total | apply by_role_name_trans]. }
  split; [|split; [|split; [|split]]].
  - rewrite getUsers_run, Hrole, Hrow, Hcompany. reflexivity.
  - apply order_users_perm.
  - exact Hsorted.
  - apply order_users_in. apply filter_In.
    destruct (users_by_id_found _ _ _ _ Hrow) as [Hin _].
    split; [assumption | apply sql_eq_refl; assumption].
  - intros u v before between after Hus Hu.
    rewrite Hus in Hsorted.
    assert (Huv : in_order by_role_name u v).
    { clear Hus. induction before as [|x before IH]; simpl in Hsorted.
      - inversion Hsorted as [|? ? _ Hall]; subst.
        rewrite Forall_forall in Hall. apply Hall.
        apply in_or_app. right. left. reflexivity.
      - inversion Hsorted; subst. apply IH. assumption. }
    unfold in_order, by_role_name in Huv. rewrite Hu in Huv.
    destruct (u_role v); simpl in Huv; try reflexivity; discriminate.
Qed.

Lemma users_listing_witness :
  exists us,
    run_listing (getUsers (H := ascii_platform) (H0 := binary_order)
                   Sample.as_ann)
                no_faults Sample.s0
    = (Some (inr (map users_columns us)), Sample.s0)
    /\ In Sample.ann us.
Proof.
  destruct (users_listing (H := ascii_platform) (H0 := binary_order)
              Sample.as_ann Sample.s0 Sample.ann [])
    as (us & Hrun & _ & _ & Hin & _); try reflexivity.
  exists us. split; assumption.
Defined.

Lemma users_by_id_one (t : tables) (u : user) :
  NoDup (map u_id (users t)) -> In u (users t) ->
  users_by_id (u_id u) t = [u].
Proof.
  intros Hnd Hin.
  assert (Hu : In u (users_by_id (u_id u) t))
    by (apply filter_In; split; [assumption | apply Z.eqb_refl]).
  pose proof (filter_by_key_short u_id (fun x => u_id x =? u_id u) (u_id u)
                (users t) Hnd (fun x Hx => proj1 (Z.eqb_eq _ _) Hx)) as Hshort.
  unfold users_by_id in *.
  destruct (filter (fun x => u_id x =? u_id u) (users t)) as [|x [|y l]];
    simpl in *.
  - destruct Hu.
  - destruct Hu as [-> | []]. reflexivity.
  - lia.
Qed.

(** X19: what [GET /api/hosts] lists: for an admin the users with the
    role host and the admin's own [company_name], each row once, ordered
    by name; for a host the caller's own row and nothing else; any other
    role gets 403.  The database stays as it is. *)
Theorem hosts_listing `{Platform} `{CollationOrder} (caller : principal)
    (s : server) :
  keys_ok s ->
  match p_role caller with
  | Admin =>
      forall a rest,
        users_by_id (p_id caller) (db s) = a :: rest ->
        falsy (u_company_name a) = false ->
        exists hs,
          run_listing (getHosts caller) no_faults s
          = (Some (inr (map hosts_columns hs)), s)
          /\ Permutation hs
               (filter (host_of_company (u_company_name a)) (users (db s)))
          /\ StronglySorted (in_order by_name) hs
  | Host =>
      forall u,
        In u (users (db s)) -> u_id u = p_id caller ->
        run_listing (getHosts caller) no_faults s
        = (Some (inr [hosts_columns u]), s)
  | OtherRole =>
      run_listing (getHosts caller) no_faults s
      = (Some (inl (json 403 "Access denied.")), s)
  end.
Proof.
  intros Hkeys. rewrite getHosts_run.
  destruct (p_role caller); simpl.
  - intros a rest Hrow Hcompany. rewrite Hrow, Hcompany.
    exists (order_by by_name
              (filter (host_of_company (u_company_name a)) (users (db s)))).
    split; [reflexivity|]. split.
    + apply order_users_perm.
    + apply order_users_sorted; [apply by_name_total | apply by_name_trans].
  - intros u Hin Hid. unfold select_host_self.
    rewrite <- Hid, (users_by_id_one (db s) u (users_nodup Hkeys) Hin).
    reflexivity.
  - reflexivity.
Qed.

Lemma hosts_listing_witness :
  exists hs,
    run_listing (getHosts (H := ascii_platform) (H0 := binary_order)
                   Sample.as_ann)
                no_faults Sample.s0
    = (Some (inr (map hosts_columns hs)), Sample.s0)
    /\ Permutation hs [Sample.bob].
Proof.
  destruct (hosts_listing (H := ascii_platform) (H0 := binary_order)
              Sample.as_ann Sample.s0 (proj1 sample_installed)
              Sample.ann [] eq_refl eq_refl)
    as (hs & Hrun & Hperm & _).
  exists hs. split; assumption.
Defined.

(** X20: the two listings fail closed.  Whatever fails, each of them
    answers and leaves the database as it is; [GET /api/users] answers
    403 to every caller who is not an admin; and a row is only ever sent
    for a user of the caller's reach: of the admin's own [company_name]
    (and, in [GET /api/hosts], of the role host), or the calling host's
    own row. *)
Theorem listings_fail_closed `{Platform} `{CollationOrder}
    (caller : principal) (f : nat -> bool) (s : server) :
  (exists l,
     run_listing (getUsers caller) f s = (Some l, s)
     /\ (p_role caller <> Admin -> l = inl (json 403 "Admin access required."))
     /\ forall rows row,
          l = inr rows -> In row rows ->
          exists a rest u,
            users_by_id (p_id caller) (db s) = a :: rest
            /\ In u (users (db s))
            /\ row = users_columns u
            /\ sql_eq (u_company_name u) (u_company_name a) = true)
  /\ (exists l,
        run_listing (getHosts caller) f s = (Some l, s)
        /\ forall rows row,
             l = inr rows -> In row rows ->
             exists u,
               In u (users (db s))
               /\ row = hosts_columns u
               /\ ((p_role caller = Host /\ u_id u = p_id caller)
                   \/ (p_role caller = Admin
                       /\ u_role u = Host
                       /\ exists a rest,
                            users_by_id (p_id caller) (db s) = a :: rest
                            /\ sql_eq (u_company_name u) (u_company_name a)
                               = true))).
Proof.
  split.
  - eexists. split; [apply getUsers_run|]. split.
    + intros Hrole. destruct (p_role caller); try reflexivity. congruence.
    + intros rows row.
      destruct (negb (role_eqb (p_role caller) Admin)); [discriminate|].
      destruct (f 0%nat); [discriminate|].
      destruct (users_by_id (p_id caller) (db s)) as [|a rest];
        [discriminate|].
      destruct (falsy (u_company_name a)); [discriminate|].
      destruct (f 1%nat); [discriminate|].
      intros Hrows Hin. injection Hrows as <-.
      unfold select_company_users in Hin. apply in_map_iff in Hin.
      destruct Hin as (u & <- & Hin).
      apply order_users_in, filter_In in Hin. destruct Hin as [Hin Hco].
      exists a, rest, u. repeat split; assumption.
  - eexists. split; [apply getHosts_run|].
    intros rows row.
    destruct (p_role caller) eqn:Hrole.
    + destruct (f 0%nat); [discriminate|].
      destruct (users_by_id (p_id caller) (db s)) as [|a rest];
        [discriminate|].
      destruct (falsy (u_company_name a)); [discriminate|].
      destruct (f 1%nat); [discriminate|].
      intros Hrows Hin. injection Hrows as <-.
      unfold select_company_hosts in Hin. apply in_map_iff in Hin.
      destruct Hin as (u & <- & Hin).
      apply order_users_in, filter_In in Hin. destruct Hin as [Hin Hco].
      unfold host_of_company in Hco. apply andb_prop in Hco.
      destruct Hco as [Hhost Hco].
      exists u. split; [assumption|]. split; [reflexivity|].
      right. split; [reflexivity|]. split.
      * destruct (u_role u); try discriminate. reflexivity.
      * exists a, rest. split; [reflexivity | assumption].
    + destruct (f 0%nat); [discriminate|].
      intros Hrows Hin. injection Hrows as <-.
      unfold select_host_self in Hin. apply in_map_iff in Hin.
      destruct Hin as (u & <- & Hin).
      apply filter_In in Hin. destruct Hin as [Hin Hid].
      exists u. split; [assumption|]. split; [reflexivity|].
      left. split; [reflexivity | apply Z.eqb_eq; assumption].
    + discriminate.
Qed.

Lemma resolve_host_admin `{Platform} (caller : principal)
    (hn : option string) (t w : tables) (k : counters) (n : nat)
    (a h : user) (rest hs : list user) :
  p_role caller = Admin ->
  users_by_id (p_id caller) w = a :: rest ->
  falsy (u_company_name a) = false ->
  hosts_by_name hn (u_company_name a) w = h :: hs ->
  fst (resolve_host caller hn (mkConn t (Some w) k no_faults n))
  = Ok (inr (u_id h)).
Proof.
  intros Hrole Hrow Hcompany Hhosts. unfold resolve_host. rewrite Hrole.
  run_simpl. rewrite Hrow. simpl. rewrite Hcompany. simpl. rewrite Hhosts.
  reflexivity.
Qed.

Lemma resolve_host_self `{Platform} (caller : principal)
    (t w : tables) (k : counters) (n : nat) (u : user) (rest : list user) :
  p_role caller = Host ->
  users_by_id (p_id caller) w = u :: rest ->
  fst (resolve_host caller (Some (u_name u)) (mkConn t (Some w) k no_faults n))
  = Ok (inr (p_id caller)).
Proof.
  intros Hrole Hrow. unfold resolve_host. rewrite Hrole.
  run_simpl. rewrite Hrow. simpl. rewrite String.eqb_refl. reflexivity.
Qed.

(** A complete form whose host resolves is answered 201 or 409. *)
Lemma checkin_answers `{Platform} (s : server) (caller : principal)
    (b : checkin_body) (now hid : Z) (r : string) :
  missing_fields b = false ->
  b_reason b = Some r ->
  fst (resolve_host caller (b_hostName b) (in_transaction s no_faults))
  = Ok (inr hid) ->
  existsb (fun u => u_id u =? hid) (users (db s)) = true ->
  (fst (run (checkin caller b now) no_faults s)
   = Some (mkResponse 201 (CheckedIn (next_visit (seqs s))))
   /\ visits (db (snd (run (checkin caller b now) no_faults s)))
      = (visits (db s)
         ++ [mkVisit (next_visit (seqs s)) (next_visitor (seqs s)) hid r
               (b_itemsCarried b) now None])%list)
  \/ (exists m,
        run (checkin caller b now) no_faults s = (Some (json 409 m), s)).
Proof.
  intros Hfields Hreason Hres Hex.
  destruct (users_by_id hid (db s)) as [|hc rest] eqn:Hhost.
  { exfalso. apply existsb_exists in Hex. destruct Hex as (u & Hin & Hid).
    assert (Hu : In u (users_by_id hid (db s)))
      by (apply filter_In; split; assumption).
    rewrite Hhost in Hu. destruct Hu. }
  destruct (active_visits (b_email b) (u_company_name hc) (db s))
    as [|x xs] eqn:Hactive.
  - left.
    destruct (checkin_succeeds s caller b now hid hc rest r Hfields Hreason
                Hres Hhost Hactive) as (nm & e & _ & _ & Hrun).
    rewrite Hrun. split; reflexivity.
  - right.
    destruct (checkin_with_host caller b now hid s Hfields Hres) as [n Hrun].
    eexists. unfold run. rewrite Hrun. unfold try_catch.
    rewrite (checkin_for_host_conflict b now hid (db s) (db s) (seqs s) n hc
               rest Hhost).
    + destruct s; reflexivity.
    + rewrite Hactive. discriminate.
Qed.

(** X21: the host names the check-in form offers are accepted.  When a
    caller submits a complete form whose [hostName] is the name of a row
    that [GET /api/hosts] lists for that caller, the check-in is
    answered 201 or 409, never 403 or 404.  On 201 the visit goes to a
    user of that name, who is the listed row's user when no other listed
    row has an equal name. *)
Theorem listed_host_checks_in `{Platform} `{CollationOrder}
    (caller : principal) (s : server) (b : checkin_body) (now : Z)
    (rows : list user_info) (row : user_info) (r : string) :
  keys_ok s ->
  fst (run_listing (getHosts caller) no_faults s) = Some (inr rows) ->
  In row rows ->
  b_hostName b = Some (i_name row) ->
  missing_fields b = false ->
  b_reason b = Some r ->
  exists h,
    In h (users (db s))
    /\ str_eq (u_name h) (i_name row) = true
    /\ ((forall row', In row' rows ->
           str_eq (i_name row') (i_name row) = true -> i_id row' = i_id row) ->
        u_id h = i_id row)
    /\ ((fst (run (checkin caller b now) no_faults s)
         = Some (mkResponse 201 (CheckedIn (next_visit (seqs s))))
         /\ visits (db (snd (run (checkin caller b now) no_faults s)))
            = (visits (db s)
               ++ [mkVisit (next_visit (seqs s)) (next_visitor (seqs s))
                     (u_id h) r (b_itemsCarried b) now None])%list)
        \/ (exists m,
              run (checkin caller b now) no_faults s = (Some (json 409 m), s))).
Proof.
  intros Hkeys Hlist Hrow Hname Hfields Hreason.
  rewrite getHosts_run in Hlist. cbn [fst] in Hlist.
  change (no_faults 0%nat) with false in Hlist.
  change (no_faults 1%nat) with false in Hlist.
  destruct (p_role caller) eqn:Hrole.
  - (* an admin *)
    destruct (users_by_id (p_id caller) (db s)) as [|a rest] eqn:Ha;
      [discriminate|].
    destruct (falsy (u_company_name a)) eqn:Hcompany; [discriminate|].
    injection Hlist as <-.
    unfold select_company_hosts in Hrow. apply in_map_iff in Hrow.
    destruct Hrow as (u & <- & Hu).
    apply order_users_in, filter_In in Hu. destruct Hu as [Hu Hcond].
    unfold host_of_company in Hcond. apply andb_prop in Hcond.
    destruct Hcond as [Hhost Hco]. simpl in Hname |- *.
    assert (Hin : In u (hosts_by_name (Some (u_name u)) (u_company_name a)
                          (db s))).
    { apply filter_In. split; [assumption|].
      simpl. rewrite str_eq_refl, Hhost, Hco. reflexivity. }
    destruct (hosts_by_name (Some (u_name u)) (u_company_name a) (db s))
      as [|h hs] eqn:Hhosts; [destruct Hin|].
    destruct (hosts_by_name_sound _ _ _ _ _ Hhosts)
      as (Hh & Hhname & Hhrole & Hhco).
    exists h. split; [assumption|]. split; [exact Hhname|]. split.
    + intros Hunique.
      apply (Hunique (hosts_columns h)); [|exact Hhname].
      apply in_map. apply order_users_in, filter_In. split; [assumption|].
      unfold host_of_company. rewrite Hhrole, Hhco. reflexivity.
    + apply (checkin_answers s caller b now (u_id h) r Hfields Hreason).
      * rewrite Hname. unfold in_transaction.
        apply (resolve_host_admin caller _ _ _ _ _ a h rest hs); assumption.
      * apply existsb_exists. exists h. split; [assumption | apply Z.eqb_refl].
  - (* a host *)
    injection Hlist as <-.
    unfold select_host_self in Hrow. apply in_map_iff in Hrow.
    destruct Hrow as (u & <- & Hu).
    assert (Hu' := Hu). apply filter_In in Hu'. destruct Hu' as [Huin Hid].
    apply Z.eqb_eq in Hid. simpl in Hname |- *.
    assert (Hone : users_by_id (p_id caller) (db s) = [u])
      by (rewrite <- Hid; apply users_by_id_one;
          [apply (users_nodup Hkeys) | assumption]).
    exists u. split; [assumption|]. split; [apply str_eq_refl|]. split.
    + intros _. reflexivity.
    + rewrite Hid.
      apply (checkin_answers s caller b now (p_id caller) r Hfields Hreason).
      * rewrite Hname. unfold in_transaction.
        apply (resolve_host_self caller _ _ _ _ u []); assumption.
      * apply existsb_exists. exists u. split; [assumption|].
        apply Z.eqb_eq. assumption.
  - discriminate.
Qed.

Lemma listed_host_checks_in_witness :
  exists h,
    In h (users (db Sample.s0))
    /\ u_id h = 2
    /\ fst (run (checkin (H := ascii_platform) Sample.as_ann
                   (Sample.alice "Bob" (Some "meeting")) 100)
                no_faults Sample.s0)
       = Some (mkResponse 201 (CheckedIn 1)).
Proof.
  destruct (listed_host_checks_in (H := ascii_platform) (H0 := binary_order)
              Sample.as_ann Sample.s0 (Sample.alice "Bob" (Some "meeting")) 100
              [hosts_columns Sample.bob] (hosts_columns Sample.bob) "meeting"
              (proj1 sample_installed) eq_refl (or_introl eq_refl) eq_refl
              eq_refl eq_refl)
    as (h & Hin & _ & Hid & Hrun).
  exists h. split; [assumption|]. split.
  - apply Hid. intros row' [<- | []] _. reflexivity.
  - destruct Hrun as [[Hrun _] | [m Hrun]]; [exact Hrun|].
    vm_compute in Hrun. discriminate.
Defined.

(* ================================================================== *)
(** ** The client's helpers *)

Lemma findIndex_range {A} (p : A -> bool) (l : list A) :
  (findIndex p l = -1 /\ existsb p l = false)
  \/ (0 <= findIndex p l < Z.of_nat (List.length l) /\ existsb p l = true).
Proof.
  induction l as [|x l IH]; simpl.
  - left. split; reflexivity.
  - destruct (p x); simpl.
    + right. split; [lia | reflexivity].
    + destruct IH as [[-> Hnone] | [Hrange Hsome]].
      * left. split; [reflexivity | assumption].
      * right. split; [|assumption].
        destruct (findIndex p l =? -1) eqn:Heq; [apply Z.eqb_eq in Heq|]; lia.
Qed.

Lemma findIndex_app {A} (p : A -> bool) (pre l : list A) (x : A) :
  p x = true ->
  (Z.of_nat (List.length pre) =? findIndex p (pre ++ x :: l))
  = negb (existsb p pre).
Proof.
  intros Hx. induction pre as [|y pre IH].
  - simpl. rewrite Hx. reflexivity.
  - cbn [app findIndex existsb List.length]. destruct (p y) eqn:Hy; cbn [orb negb].
    + apply Z.eqb_neq. lia.
    + rewrite <- IH.
      destruct (findIndex_range p (pre ++ x :: l)) as [[Hnone Hex] | [Hrange _]].
      * rewrite existsb_app in Hex. simpl in Hex. rewrite Hx in Hex.
        rewrite orb_true_r in Hex. discriminate.
      * destruct (findIndex p (pre ++ x :: l) =? -1) eqn:Heq;
          [apply Z.eqb_eq in Heq; lia|].
        destruct (Z.of_nat (List.length pre) =? findIndex p (pre ++ x :: l))
          eqn:Hpos.
        -- apply Z.eqb_eq in Hpos. apply Z.eqb_eq. lia.
        -- apply Z.eqb_neq in Hpos. apply Z.eqb_neq. lia.
Qed.

(** The rows [uniqueVisits] keeps of a rest [l] of the list, [pre] being
    the rows before it. *)
Lemma uniqueVisits_from (pre l : list visit_row) :
  let kept :=
    filter_from
      (fun visit index =>
         index =? findIndex (fun v => r_id v =? r_id visit) (pre ++ l))
      (Z.of_nat (List.length pre)) l in
  NoDup (map r_id kept)
  /\ (forall r, In r kept ->
        In r l /\ existsb (fun v => r_id v =? r_id r) pre = false)
  /\ (forall r, In r l ->
        existsb (fun v => r_id v =? r_id r) pre = true
        \/ exists r', In r' kept /\ r_id r' = r_id r)
  /\ (NoDup (map r_id (pre ++ l)) -> kept = l).
Proof.
  revert pre. induction l as [|x l IH]; intros pre; cbn zeta.
  - simpl. split; [constructor|]. split; [intros r []|].
    split; [intros r []|]. reflexivity.
  - cbn [filter_from].
    rewrite (findIndex_app (fun v => r_id v =? r_id x) pre l x (Z.eqb_refl _)).
    specialize (IH (pre ++ [x])%list). cbn zeta in IH.
    rewrite <- app_assoc in IH. cbn [app] in IH.
    rewrite length_app in IH. cbn [List.length] in IH.
    replace (Z.of_nat (List.length pre + 1)) with (Z.of_nat (List.length pre) + 1)
      in IH by lia.
    set (kept := filter_from _ (Z.of_nat (List.length pre) + 1) l) in *.
    destruct IH as (Hnd & Hin & Hall & Hsame).
    assert (Hnew : forall r, In r kept -> r_id r <> r_id x).
    { intros r Hr Heq. destruct (Hin r Hr) as [_ Hpre].
      rewrite existsb_app in Hpre. simpl in Hpre. rewrite Heq in Hpre.
      rewrite Z.eqb_refl in Hpre. rewrite orb_true_r in Hpre. discriminate. }
    assert (Hold : forall r, In r kept ->
                     existsb (fun v => r_id v =? r_id r) pre = false).
    { intros r Hr. destruct (Hin r Hr) as [_ Hpre].
      rewrite existsb_app in Hpre. apply orb_false_elim in Hpre. tauto. }
    destruct (existsb (fun v => r_id v =? r_id x) pre) eqn:Hpre; cbn [negb].
    + (* an earlier row has the id of [x] *)
      split; [assumption|]. split; [|split].
      * intros r Hr.
        split; [right; apply Hin; assumption | apply Hold; assumption].
      * intros r [<- | Hr]; [left; assumption|].
        destruct (Hall r Hr) as [Hseen | Hkept]; [|right; assumption].
        left. rewrite existsb_app in Hseen. simpl in Hseen.
        rewrite orb_false_r in Hseen. apply orb_prop in Hseen.
        destruct Hseen as [Hseen | Hx]; [assumption|].
        apply Z.eqb_eq in Hx. rewrite <- Hx. assumption.
      * intros Hnodup. exfalso.
        rewrite map_app in Hnodup. simpl in Hnodup.
        apply NoDup_remove_2 in Hnodup. apply Hnodup.
        apply in_or_app. left.
        apply existsb_exists in Hpre. destruct Hpre as (y & Hy & Heq).
        apply Z.eqb_eq in Heq. rewrite <- Heq. apply in_map. assumption.
    + split; [|split; [|split]].
      * simpl. constructor; [|assumption].
        intros Hx. apply in_map_iff in Hx. destruct Hx as (r & Heq & Hr).
        exact (Hnew r Hr Heq).
      * intros r [<- | Hr].
        -- split; [left; reflexivity | assumption].
        -- split; [right; apply Hin; assumption | apply Hold; assumption].
      * intros r [<- | Hr].
        -- right. exists x. split; [left; reflexivity | reflexivity].
        -- destruct (Hall r Hr) as [Hseen | (r' & Hr' & Heq)].
           ++ rewrite existsb_app in Hseen. simpl in Hseen.
              rewrite orb_false_r in Hseen. apply orb_prop in Hseen.
              destruct Hseen as [Hseen | Hx]; [left; assumption | right].
              exists x. split; [left; reflexivity|].
              apply Z.eqb_eq in Hx. assumption.
           ++ right. exists r'. split; [right; assumption | assumption].
      * intros Hnodup. f_equal. apply Hsame. exact Hnodup.
Qed.

(** X22: the dashboard's [uniqueVisits] keeps the rows of the reply
    without repeating a visit id: every kept row is a row of the reply,
    no two kept rows share an id, every id of the reply is still there,
    and a reply whose ids are distinct is kept as it is. *)
Theorem uniqueVisits_ids (visitsData : list visit_row) :
  NoDup (map r_id (uniqueVisits visitsData))
  /\ (forall r, In r (uniqueVisits visitsData) -> In r visitsData)
  /\ (forall id, In id (map r_id visitsData) <->
                 In id (map r_id (uniqueVisits visitsData)))
  /\ (NoDup (map r_id visitsData) -> uniqueVisits visitsData = visitsData).
Proof.
  destruct (uniqueVisits_from [] visitsData) as (Hnd & Hin & Hall & Hsame).
  cbn [app List.length Z.of_nat] in Hnd, Hin, Hall, Hsame.
  fold (uniqueVisits visitsData) in Hnd, Hin, Hall, Hsame.
  split; [assumption|]. split; [|split].
  - intros r Hr. apply Hin. assumption.
  - intros id. rewrite !in_map_iff. split.
    + intros (r & <- & Hr).
      destruct (Hall r Hr) as [Hseen | (r' & Hr' & Heq)]; [discriminate|].
      exists r'. split; assumption.
    + intros (r & <- & Hr). exists r. split; [reflexivity|].
      apply Hin. assumption.
  - assumption.
Qed.

Lemma flat_map_none {A B} (F : A -> list B) (l : list A) :
  (forall x, In x l -> F x = []) -> flat_map F l = [].
Proof.
  induction l as [|x l IH]; simpl; intros Hall; [reflexivity|].
  rewrite (Hall x (or_introl eq_refl)). apply IH.
  intros y Hy. apply Hall. right. assumption.
Qed.

Lemma flat_map_by_key {A B} (key : A -> Z) (id : Z) (F : A -> list B)
    (l : list A) :
  NoDup (map key l) ->
  (forall x, key x <> id -> F x = []) ->
  (forall x, (List.length (F x) <= 1)%nat) ->
  (List.length (flat_map F l) <= 1)%nat.
Proof.
  intros Hnd Hother Hshort. induction l as [|x l IH]; simpl; [lia|].
  inversion Hnd as [|? ? Hnotin Hnd']; subst.
  rewrite length_app.
  destruct (Z.eq_dec (key x) id) as [Hx | Hx].
  - assert (Hnone : flat_map F l = []).
    { apply flat_map_none. intros y Hy. apply Hother. intros Heq.
      apply Hnotin. rewrite Hx, <- Heq. apply in_map. assumption. }
    rewrite Hnone. simpl. specialize (Hshort x). lia.
  - rewrite (Hother x Hx). simpl. apply IH. assumption.
Qed.

Lemma flat_map_keys_nodup {A B} (key : A -> Z) (g : B -> Z) (R : A -> list B)
    (l : list A) :
  NoDup (map key l) ->
  (forall x, (List.length (R x) <= 1)%nat) ->
  (forall x j, In j (R x) -> g j = key x) ->
  NoDup (map g (flat_map R l)).
Proof.
  intros Hnd Hshort Hkey. induction l as [|x l IH]; simpl; [constructor|].
  inversion Hnd as [|? ? Hnotin Hnd']; subst.
  rewrite map_app. apply NoDup_app.
  - specialize (Hshort x). destruct (R x) as [|j [|j' rest]]; simpl in *.
    + constructor.
    + constructor; [intros [] | constructor].
    + lia.
  - apply IH. assumption.
  - intros a Ha Hrest. apply Hnotin.
    apply in_map_iff in Ha. destruct Ha as (j & <- & Hj).
    rewrite (Hkey x j Hj) in Hrest.
    apply in_map_iff in Hrest. destruct Hrest as (j' & Heq & Hj').
    apply in_flat_map in Hj'. destruct Hj' as (y & Hy & Hj').
    rewrite (Hkey y j' Hj') in Heq. rewrite <- Heq. apply in_map. assumption.
Qed.

(** With primary keys in the three tables, the join has one row for a
    visit at most. *)
Lemma visits_joined_ids (t : tables) :
  NoDup (map v_id (visits t)) ->
  NoDup (map vis_id (visitors t)) ->
  NoDup (map u_id (users t)) ->
  NoDup (map (fun j => v_id (fst (fst j))) (visits_joined t)).
Proof.
  intros Hvisits Hvisitors Husers. unfold visits_joined.
  apply (flat_map_keys_nodup v_id); [assumption| |].
  - intros v. apply (flat_map_by_key vis_id (v_visitor_id v)); [assumption| |].
    + intros vis Hvis. destruct (v_visitor_id v =? vis_id vis) eqn:Heq;
        [|reflexivity].
      apply Z.eqb_eq in Heq. congruence.
    + intros vis. destruct (v_visitor_id v =? vis_id vis); [|simpl; lia].
      apply (flat_map_by_key u_id (v_host_id v)); [assumption| |].
      * intros h Hh. destruct (v_host_id v =? u_id h) eqn:Heq; [|reflexivity].
        apply Z.eqb_eq in Heq. congruence.
      * intros h. destruct (v_host_id v =? u_id h); simpl; lia.
  - intros v j Hj. apply in_flat_map in Hj. destruct Hj as (vis & _ & Hj).
    destruct (v_visitor_id v =? vis_id vis); [|destruct Hj].
    apply in_flat_map in Hj. destruct Hj as (h & _ & Hj).
    destruct (v_host_id v =? u_id h); [|destruct Hj].
    destruct Hj as [<- | []]. reflexivity.
Qed.

Lemma NoDup_map_filter {A} (g : A -> Z) (p : A -> bool) (l : list A) :
  NoDup (map g l) -> NoDup (map g (filter p l)).
Proof.
  induction l as [|x l IH]; simpl; intros Hnd; [constructor|].
  inversion Hnd as [|? ? Hnotin Hnd']; subst.
  destruct (p x); simpl; [|apply IH; assumption].
  constructor; [|apply IH; assumption].
  intros Hin. apply Hnotin. apply in_map_iff in Hin.
  destruct Hin as (y & Heq & Hy). apply filter_In in Hy.
  rewrite <- Heq. apply in_map. tauto.
Qed.

Lemma NoDup_map_nodup {A} (dec : forall a b : A, {a = b} + {a <> b})
    (g : A -> Z) (l : list A) :
  NoDup (map g l) -> NoDup (map g (nodup dec l)).
Proof.
  intros Hnd. rewrite nodup_fixed_point; [assumption|].
  apply NoDup_map_inv with (f := g). assumption.
Qed.

(** The rows of the two visit listings have distinct ids. *)
Lemma listing_ids `{Platform} (t : tables) :
  NoDup (map v_id (visits t)) ->
  NoDup (map vis_id (visitors t)) ->
  NoDup (map u_id (users t)) ->
  (forall company q, NoDup (map r_id (select_admin_visits company q t)))
  /\ (forall hostId, NoDup (map r_id (select_host_visits hostId t))).
Proof.
  intros Hvisits Hvisitors Husers.
  pose proof (visits_joined_ids t Hvisits Hvisitors Husers) as Hjoined.
  assert (Hrows : forall with_company p,
             NoDup (map r_id (map (project with_company)
                                  (filter p (visits_joined t))))).
  { intros with_company p. rewrite map_map.
    rewrite (map_ext _ (fun j => v_id (fst (fst j)))).
    - apply NoDup_map_filter. assumption.
    - intros [[v vis] h]. reflexivity. }
  split.
  - intros company q. unfold select_admin_visits.
    eapply Permutation_NoDup;
      [apply Permutation_map, Permutation_sym, order_by_perm|].
    apply NoDup_map_nodup. apply Hrows.
  - intros hostId. unfold select_host_visits.
    eapply Permutation_NoDup;
      [apply Permutation_map, Permutation_sym, order_by_perm|].
    apply Hrows.
Qed.

(** Requests keep the ids of the visitors table distinct. *)
Lemma serve_visitor_keys `{Platform} (r : request) (f : nat -> bool)
    (s : server) :
  invariant s ->
  NoDup (map vis_id (visitors (db s))) ->
  NoDup (map vis_id (visitors (db (snd (serve r f s))))).
Proof.
  intros Hinv Hnd.
  assert (Hstep : forall s', users_step s s' ->
                    NoDup (map vis_id (visitors (db s')))).
  { intros s' [k' _ | u cs _ | id]; assumption. }
  unfold serve.
  destruct r as [caller b | b | token | email password | caller b now
                | caller q | caller | caller id now]; simpl.
  - apply Hstep, register_step.
  - apply Hstep, registerCompany_step.
  - apply Hstep, verifyEmail_step.
  - apply Hstep, login_step.
  - destruct (checkin_cases caller b now f s)
      as (_ & Hle & resp & _ & Hcases).
    unfold run.
    destruct (checkin caller b now (connect s f)) as [res c]. simpl in *.
    destruct Hcases as [[Hsame _] | (hid & hc & rest & _ & _ & _ & Hin & _)].
    + rewrite Hsame. assumption.
    + destruct Hin as (nm & e & rs & _ & _ & _ & ->). simpl.
      rewrite map_app. simpl. apply NoDup_snoc; [assumption|].
      intros Hold. apply in_map_iff in Hold. destruct Hold as (vis & Hid & Hold).
      pose proof (visitors_below (inv_keys Hinv)) as Hbelow.
      rewrite Forall_forall in Hbelow. specialize (Hbelow vis Hold). lia.
  - apply Hstep, getVisits_step.
  - apply Hstep, getHostVisits_step.
  - destruct (checkout_cases caller id now f s) as [Hsame | Hout];
      [rewrite Hsame | rewrite Hout]; assumption.
Qed.

Lemma reachable_keys `{Platform} (s0 s : server) :
  installed s0 ->
  NoDup (map vis_id (visitors (db s0))) ->
  reachable s0 s ->
  NoDup (map v_id (visits (db s)))
  /\ NoDup (map vis_id (visitors (db s)))
  /\ NoDup (map u_id (users (db s))).
Proof.
  intros Hstart Hnd Hreach.
  destruct (reachable_integrity s0 s Hstart Hreach) as [Hinv Hint].
  split; [apply (visit_ids_nodup Hint)|].
  split; [|apply (users_nodup (inv_keys Hinv))].
  clear Hinv Hint. induction Hreach as [|s r f Hreach IH]; [assumption|].
  apply serve_visitor_keys; [|assumption].
  apply (reachable_invariant s0); assumption.
Qed.

Lemma getVisits_rows `{Platform} (caller : principal) (q : visit_filters)
    (f : nat -> bool) (s : server) (code : Z) (rows : list visit_row) :
  fst (run (getVisits caller q) f s) = Some (mkResponse code (VisitList rows)) ->
  exists company, rows = select_admin_visits company q (db s).
Proof.
  destruct s as [t k]. unfold getVisits.
  destruct (negb (role_eqb (p_role caller) Admin)); [discriminate|].
  run_simpl.
  destruct (f 0%nat); simpl; [discriminate|].
  destruct (users_by_id (p_id caller) t) as [|a rest]; simpl; [discriminate|].
  destruct (falsy (u_company_name a)); simpl; [discriminate|].
  destruct (f 1%nat); simpl; [discriminate|].
  intros Heq. injection Heq as _ <-. eexists. reflexivity.
Qed.

Lemma getHostVisits_rows (caller : principal) (f : nat -> bool) (s : server)
    (code : Z) (rows : list visit_row) :
  fst (run (getHostVisits caller) f s)
  = Some (mkResponse code (VisitList rows)) ->
  rows = select_host_visits (p_id caller) (db s).
Proof.
  destruct s as [t k]. unfold getHostVisits.
  destruct (negb (role_eqb (p_role caller) Host)); [discriminate|].
  run_simpl.
  destruct (f 0%nat); simpl; [discriminate|].
  intros Heq. injection Heq as _ <-. reflexivity.
Qed.

(** X23: the dashboard's de-duplication never drops a row the server
    sent.  In every state reached from an installed database whose
    visitors have distinct ids, the rows of [GET /api/visits] and of
    [GET /api/host-visits] have distinct visit ids, whatever the caller
    and the filters, so [uniqueVisits] returns the reply as it is. *)
Theorem dashboard_keeps_every_visit `{Platform} (s0 s : server) :
  installed s0 ->
  NoDup (map vis_id (visitors (db s0))) ->
  reachable s0 s ->
  forall (caller : principal) (f : nat -> bool) (code : Z)
         (rows : list visit_row),
    ((exists q, fst (serve (GetVisits caller q) f s)
                = Some (mkResponse code (VisitList rows)))
     \/ fst (serve (GetHostVisits caller) f s)
        = Some (mkResponse code (VisitList rows))) ->
    NoDup (map r_id rows) /\ uniqueVisits rows = rows.
Proof.
  intros Hstart Hnd Hreach caller f code rows Hreply.
  destruct (reachable_keys s0 s Hstart Hnd Hreach)
    as (Hvisits & Hvisitors & Husers).
  destruct (listing_ids (db s) Hvisits Hvisitors Husers) as [Hadmin Hhost].
  assert (Hids : NoDup (map r_id rows)).
  { destruct Hreply as [[q Hreply] | Hreply].
    - apply getVisits_rows in Hreply. destruct Hreply as [company ->].
      apply Hadmin.
    - apply getHostVisits_rows in Hreply. rewrite Hreply. apply Hhost. }
  split; [exact Hids|].
  destruct (uniqueVisits_from [] rows) as (_ & _ & _ & Hsame).
  apply Hsame. exact Hids.
Qed.

Lemma dashboard_keeps_every_visit_witness :
  NoDup (map r_id (select_host_visits 2 (db Sample.s1)))
  /\ uniqueVisits (select_host_visits 2 (db Sample.s1))
     = select_host_visits 2 (db Sample.s1).
Proof.
  apply (dashboard_keeps_every_visit (H := ascii_platform)
           Sample.s0 Sample.s1 sample_installed (NoDup_nil Z)
           (@reach_serve ascii_platform Sample.s0 Sample.s0
              (PostVisits Sample.as_bob (Sample.alice "bob" (Some "meeting")) 100)
              no_faults (@reach_start ascii_platform Sample.s0))
           Sample.as_bob no_faults 200).
  right. reflexivity.
Defined.

Lemma join_split (s : string) : join " " (split " " s) = s.
Proof.
  induction s as [|c s IH]; [reflexivity|].
  cbn [split]. destruct (Ascii.eqb_spec c " ") as [-> | Hc].
  - destruct (split " " s) as [|w ws] eqn:Hs.
    + destruct s; simpl in Hs; [discriminate|].
      destruct (Ascii.eqb a " "); [discriminate|].
      destruct (split " " s); discriminate.
    + change (join " " ("" :: w :: ws)) with (" " ++ join " " (w :: ws)).
      rewrite IH. reflexivity.
  - destruct (split " " s) as [|w ws] eqn:Hs.
    + destruct s; simpl in Hs; [discriminate|].
      destruct (Ascii.eqb a " "); [discriminate|].
      destruct (split " " s); discriminate.
    + rewrite <- IH. destruct ws; reflexivity.
Qed.

Lemma is_space2_space (c : ascii) : is_space2 c " " = false.
Proof. unfold is_space2. apply andb_false_r. Qed.

Lemma is_space3_space (c1 c2 : ascii) : is_space3 c1 c2 " " = false.
Proof.
  unfold is_space3. change (byte " " 128) with false.
  change (byte " " 168) with false. change (byte " " 169) with false.
  change (byte " " 175) with false. change (byte " " 159) with false.
  change (byte " " 191) with false.
  change (Nat.leb 128 (nat_of_ascii " ")) with false.
  rewrite !andb_false_r. reflexivity.
Qed.

(** A space after a string joins its white space, if the string is
    blank, and stays at its end otherwise. *)
Lemma trim_start_space (n : nat) (s : string) :
  (String.length s <= n)%nat ->
  trim_start (s ++ " ") = if blank s then "" else trim_start s ++ " ".
Proof.
  unfold blank. revert s. induction n as [|n IH]; intros s Hn.
  - destruct s; [reflexivity | simpl in Hn; lia].
  - destruct s as [|c1 s1]; [reflexivity|].
    cbn [append trim_start]. simpl in Hn.
    destruct (is_space c1); [apply IH; lia|].
    destruct s1 as [|c2 s2].
    { cbn [append]. rewrite is_space2_space. reflexivity. }
    cbn [append]. simpl in Hn.
    destruct (is_space2 c1 c2); [apply IH; lia|].
    destruct s2 as [|c3 s3].
    { cbn [append]. rewrite is_space3_space. reflexivity. }
    cbn [append]. simpl in Hn.
    destruct (is_space3 c1 c2 c3); [apply IH; lia | reflexivity].
Qed.

Lemma blank_space (s : string) : blank (s ++ " ") = blank s.
Proof.
  unfold blank at 1. rewrite (trim_start_space (String.length s) s (le_n _)).
  destruct (blank s) eqn:Hs; [reflexivity|].
  unfold blank in Hs. destruct (trim_start s); [discriminate | reflexivity].
Qed.

Lemma trim_end_space (t : string) : trim_end (t ++ " ") = trim_end t.
Proof.
  induction t as [|c t IH]; [reflexivity|].
  cbn [append trim_end]. rewrite IH.
  change (String c (t ++ " ")) with (String c t ++ " ").
  rewrite (blank_space (String c t)). reflexivity.
Qed.

Lemma trim_space (s : string) : trim (s ++ " ") = trim s.
Proof.
  unfold trim. rewrite (trim_start_space (String.length s) s (le_n _)).
  destruct (blank s) eqn:Hs.
  - unfold blank in Hs. destruct (trim_start s); [reflexivity | discriminate].
  - apply trim_end_space.
Qed.

(** The body [createUser] posts: the first word of the name, and the
    rest of it. *)
Lemma createUser_fields (name : string) (email password : option string) :
  exists firstName lastName,
    createUser name email password
    = mkRegister email (Some firstName) (Some lastName) password None None
    /\ trim (firstName ++ " " ++ lastName) = trim name
    /\ (firstName = ""
        <-> name = "" \/ exists rest, name = String " " rest).
Proof.
  unfold createUser. pose proof (join_split name) as Hjoin.
  destruct (split " " name) as [|firstName lastNameParts] eqn:Hsplit.
  { destruct name; simpl in Hsplit; [discriminate|].
    destruct (Ascii.eqb a " "); [discriminate|].
    destruct (split " " name); discriminate. }
  exists firstName, (join " " lastNameParts).
  split; [reflexivity|]. split.
  - destruct lastNameParts as [|w ws].
    + simpl in Hjoin. subst firstName. apply trim_space.
    + change (join " " (firstName :: w :: ws))
        with (firstName ++ " " ++ join " " (w :: ws)) in Hjoin.
      rewrite Hjoin. reflexivity.
  - destruct name as [|c name]; simpl in Hsplit.
    + injection Hsplit as <- _. split; [left | ]; reflexivity.
    + destruct (Ascii.eqb_spec c " ") as [-> | Hc].
      * injection Hsplit as <- _.
        split; [right; exists name|]; reflexivity.
      * destruct (split " " name); injection Hsplit as <- _;
          (split; [discriminate|]); intros [Hn | [rest Hn]];
          try discriminate; injection Hn as Hn _; contradiction.
Qed.

(** X24: the dashboard's single name field reaches the users table
    trimmed.  When an admin with a company row adds a user through
    [createUser] with a name that is not empty and does not begin with a
    space, a new email and a password, the reply is 201 and the host is
    stored under the trimmed name, whatever spaces the name has inside. *)
Theorem createUser_stores_name `{Platform} (s : server) (caller : principal)
    (name e p : string) (ac : company) (acs : list company) :
  p_role caller = Admin ->
  name <> "" -> (forall rest, name <> String " " rest) ->
  e <> "" -> p <> "" ->
  companies_by_id (p_id caller) (db s) = ac :: acs ->
  existsb (fun u => str_eq (u_email u) e) (users (db s)) = false ->
  existsb (fun c => c_id c =? next_user (seqs s)) (companies (db s)) = false ->
  existsb (fun u => u_id u =? p_id caller) (users (db s)) = true ->
  let reply := run (register caller (createUser name (Some e) (Some p)))
                   no_faults s in
  fst reply
  = Some (mkResponse 201
            (Registered (next_user (seqs s)) (trim name) (Some e) Host
                        (Some (c_company_name ac))))
  /\ users (db (snd reply))
     = (users (db s)
        ++ [mkUser (next_user (seqs s)) (trim name) e p Host
              (Some (c_company_name ac)) false])%list.
Proof.
  intros Hrole Hname Hlead He Hp Hco Hfresh Hpk Hadmin reply. subst reply.
  destruct (createUser_fields name (Some e) (Some p))
    as (fn & ln & Hbody & Htrim & Hblank).
  assert (Hfn : fn <> "").
  { intros Hfn. apply Hblank in Hfn. destruct Hfn as [Hn | [rest Hn]].
    - contradiction.
    - exact (Hlead rest Hn). }
  rewrite Hbody.
  rewrite (register_ok s caller
             (mkRegister (Some e) (Some fn) (Some ln) (Some p) None None)
             ac acs e p fn Hrole eq_refl He eq_refl Hp eq_refl Hfn Hco Hfresh
             Hpk Hadmin).
  cbn [fst snd db users g_lastName js_string]. rewrite Htrim.
  split; reflexivity.
Qed.

Lemma createUser_stores_name_witness :
  fst (run (register (H := ascii_platform) Office.as_ann
              (createUser "Bob  Ray " (Some "bob@acme.com") (Some "hunter2")))
           no_faults Office.e1)
  = Some (mkResponse 201
            (Registered 2 "Bob  Ray" (Some "bob@acme.com") Host (Some "Acme"))).
Proof.
  refine (proj1 (createUser_stores_name (H := ascii_platform) Office.e1
                   Office.as_ann "Bob  Ray " "bob@acme.com" "hunter2"
                   (mkCompany 1 "Ann" (Some "Lee") "ann@acme.com" "secret"
                      Admin "Acme" None None) []
                   eq_refl _ _ _ _ eq_refl eq_refl eq_refl eq_refl));
    discriminate.
Defined.

(** X25: a name that is empty or begins with a space gives an empty
    first name, which the server takes as missing: the admin's request
    is answered 400 and nothing is stored, whatever else the form
    holds. *)
Theorem createUser_blank_first_name `{Platform} (caller : principal)
    (name : string) (email password : option string) (f : nat -> bool)
    (s : server) :
  p_role caller = Admin ->
  name = "" \/ (exists rest, name = String " " rest) ->
  run (register caller (createUser name email password)) f s
  = (Some (json 400 "Please provide email, first name, and password."), s).
Proof.
  intros Hrole Hname.
  destruct (createUser_fields name email password)
    as (fn & ln & -> & _ & Hblank).
  apply Hblank in Hname. subst fn.
  destruct s as [t k]. unfold register. rewrite Hrole.
  cbn [g_email g_firstName g_password role_eqb negb falsy].
  rewrite orb_true_r. reflexivity.
Qed.

Lemma createUser_blank_first_name_witness :
  run (register (H := ascii_platform) Office.as_ann
         (createUser " Bob Ray" (Some "bob@acme.com") (Some "hunter2")))
      no_faults Office.e1
  = (Some (json 400 "Please provide email, first name, and password."),
     Office.e1).
Proof.
  apply (createUser_blank_first_name (H := ascii_platform) Office.as_ann
           " Bob Ray" (Some "bob@acme.com") (Some "hunter2") no_faults
           Office.e1 eq_refl).
  right. exists "Bob Ray". reflexivity.
Defined.
